(** * reclaim_server: the proof-to-payout pipeline of [server.js]

    A shallow embedding of the two deployment variants of [server.js]
    (the [/receive-proofs] pipeline with its WebSocket broadcaster, and the
    [/transfer-tokens] variant) together with the parts of the JavaScript
    runtime they rely on.

    Conventions of the embedding:
    - a JavaScript string is a [string] holding its UTF-8 bytes; searching
      for an ASCII needle gives the same answer on both representations;
    - a JavaScript number is an IEEE-754 binary64 value, a [spec_float]
      rounded with the Standard Library's [SpecFloat] operations at
      precision 53 and maximal exponent 1024;
    - a thrown exception is the [Throw] case of [Result];
    - [console.log] and [console.error] print and never throw, and nothing
      reads what they print, so the calls are left out; a template literal
      handed to them is still evaluated, since turning a substitution into
      a string can throw;
    - the body of a request to [/receive-proofs] is the string the text
      middleware delivers, the body of a request to [/transfer-tokens] the
      value the JSON middleware has parsed.

    The endpoints that generate a proof request and the check of the
    environment are modelled on their own, over the calls they make on the
    Reclaim SDK and over [process.env]. *)

From Stdlib Require Import ZArith List String Ascii Bool Lia SpecFloat QArith Qround.
Import ListNotations.

Set Warnings "-register-all".

Local Open Scope string_scope.
Local Open Scope Z_scope.

(** ** Strings *)

Module Str.

(** [s.startsWith(p)] *)
Fixpoint startsWith (s p : string) {struct p} : bool :=
  match p, s with
  | EmptyString, _ => true
  | String a p', String b s' => Ascii.eqb a b && startsWith s' p'
  | String _ _, EmptyString => false
  end.

(** [s.slice(n)] for [0 <= n] *)
Fixpoint drop (n : nat) (s : string) : string :=
  match n, s with
  | O, _ => s
  | S n', String _ s' => drop n' s'
  | S _, EmptyString => EmptyString
  end.

(** [s.includes(p)]: [p] occurs somewhere in [s] *)
Fixpoint includes (s p : string) : bool :=
  startsWith s p ||
  match s with
  | EmptyString => false
  | String _ s' => includes s' p
  end.

(** [s.replace(p, r)] with a string pattern and a replacement free of
    [$] patterns: the first occurrence of [p], if any, becomes [r]. *)
Fixpoint replace (s p r : string) : string :=
  if startsWith s p then r ++ drop (String.length p) s
  else match s with
       | EmptyString => EmptyString
       | String c s' => String c (replace s' p r)
       end.

Definition code (c : ascii) : Z := Z.of_N (N_of_ascii c).
Definition chr (n : Z) : ascii := ascii_of_N (Z.to_N n).

Definition is_digit (c : ascii) : bool := (48 <=? code c) && (code c <=? 57).

Definition digit_value (c : ascii) : Z := code c - 48.

(** The leading run of decimal digits of [s], and what follows it. *)
Fixpoint span_digits (s : string) : string * string :=
  match s with
  | String c s' =>
      if is_digit c then let '(d, r) := span_digits s' in (String c d, r)
      else (EmptyString, s)
  | EmptyString => (EmptyString, EmptyString)
  end.

(** The natural number written by a run of decimal digits. *)
Fixpoint digits_value_from (acc : Z) (d : string) : Z :=
  match d with
  | EmptyString => acc
  | String c d' => digits_value_from (10 * acc + digit_value c) d'
  end.

Definition digits_value (d : string) : Z := digits_value_from 0 d.

Definition hex_value (c : ascii) : option Z :=
  let n := code c in
  if (48 <=? n) && (n <=? 57) then Some (n - 48)
  else if (65 <=? n) && (n <=? 70) then Some (n - 55)
  else if (97 <=? n) && (n <=? 102) then Some (n - 87)
  else None.

End Str.

(** ** Numbers *)

Module Num.

Definition number := spec_float.

Definition prec : Z := 53.
Definition emax : Z := 1024.

(** The binary64 value nearest to [n / d] (ties to even), signed by [neg]. *)
Definition round_ratio (neg : bool) (n d : positive) : number :=
  let '(q, e, l) := SFdiv_core_binary prec emax (Zpos n) 0 (Zpos d) 0 in
  binary_round_aux prec emax neg q e l.

(** The number written [m * 10^e] in decimal, [0 <= m]. *)
Definition of_decimal (neg : bool) (m e : Z) : number :=
  match m with
  | Zpos p =>
      if 0 <=? e then round_ratio neg (p * Z.to_pos (10 ^ e)) 1
      else round_ratio neg p (Z.to_pos (10 ^ (- e)))
  | _ => S754_zero neg
  end.

(** [x * y] *)
Definition mul (x y : number) : number := SFmul prec emax x y.

(** The literal [1e9]. *)
Definition lit_1e9 : number := of_decimal false 1 9.

Definition signed (neg : bool) (m : Z) : Z := if neg then - m else m.

(** The number that is the integer [z] when [z] has at most 53 bits, as
    the floor of a number has: the mantissa is brought to 53 bits.
    [szero] is the sign given to zero. *)
Definition of_integer (z : Z) (szero : bool) : number :=
  let normal (s : bool) (p : positive) :=
    let d := Zpos (digits2_pos p) in
    if d <=? prec
    then S754_finite s (Z.to_pos (Zpos p * 2 ^ (prec - d))) (d - prec)
    else S754_finite s p 0 in
  match z with
  | Z0 => S754_zero szero
  | Zpos p => normal false p
  | Zneg p => normal true p
  end.

(** [Math.floor(x)] *)
Definition Math_floor (x : number) : number :=
  match x with
  | S754_finite s m e =>
      if 0 <=? e then x
      else of_integer (signed s (Zpos m) / 2 ^ (- e)) s
  | _ => x
  end.

(** The mathematical integer a number denotes, when it denotes one. *)
Definition integer_value (x : number) : option Z :=
  match x with
  | S754_zero _ => Some 0
  | S754_finite s m e =>
      if 0 <=? e then Some (signed s (Zpos m * 2 ^ e))
      else if Zpos m mod 2 ^ (- e) =? 0 then Some (signed s (Zpos m / 2 ^ (- e)))
      else None
  | _ => None
  end.

(** The rational a finite number denotes. *)
Definition to_Q (x : number) : option Q :=
  match x with
  | S754_zero _ => Some 0%Q
  | S754_finite s m e =>
      Some (if 0 <=? e then inject_Z (signed s (Zpos m * 2 ^ e))
            else Qmake (signed s (Zpos m)) (Z.to_pos (2 ^ (- e))))
  | _ => None
  end.

(** [!x] is true exactly for [0], [-0] and [NaN]. *)
Definition truthy (x : number) : bool :=
  match x with
  | S754_zero _ | S754_nan => false
  | _ => true
  end.

End Num.

(** ** Values, exceptions and the collaborators of the server *)

(** What [JSON.parse] produces, together with [undefined], the value of a
    missing property. An object keeps its members in source order. *)
Inductive value : Type :=
| JUndefined
| JNull
| JBool (b : bool)
| JNum (x : Num.number)
| JStr (s : string)
| JArr (items : list value)
| JObj (members : list (string * value)).

(** The exceptions of the program. All but the last are raised by the
    runtime, whose wording of the message is its own; [Error_] is
    [new Error(message)] and also stands for what a collaborator raises. *)
Inductive Error : Type :=
| URIError (input : string)
| SyntaxError (text : string)
| TypeError_property (base : value) (key : string)
| TypeError_not_a_function (receiver : value) (key : string)
| TypeError_to_primitive (object : value)
| RangeError_BigInt (x : Num.number)
| Error_ (message : string).

Inductive Result (A : Type) : Type :=
| Ok (a : A)
| Throw (e : Error).

Arguments Ok {A} a.
Arguments Throw {A} e.

Definition bindR {A B : Type} (r : Result A) (k : A -> Result B) : Result B :=
  match r with
  | Ok a => k a
  | Throw e => Throw e
  end.

(** The transfer instruction handed to the ledger. *)
Record Instruction : Type := mkInstruction {
  source : string;
  destination : string;
  owner : string;
  tokenAmount : Z
}.

(** A transaction as [transferReward] assembles it. *)
Record Transaction : Type := mkTransaction {
  instruction : Instruction;
  feePayer : string;
  recentBlockhash : string
}.

(** Everything the server calls but does not define: the proof verifier of
    the Reclaim SDK, the Solana client, the server's own wallet, and the
    two places where the runtime chooses a text. *)
Record World : Type := mkWorld {
  verifyProof : value -> Result bool;
  walletPublicKey : string;
  REWARD_TOKEN_MINT : string;
  PublicKey : value -> Result string;
  getAssociatedTokenAddress : string -> string -> Result string;
  getOrCreateAssociatedTokenAccount : string -> string -> Result string;
  createTransferInstruction : string -> string -> string -> Z -> Result Instruction;
  getLatestBlockhash : Result string;
  sendAndConfirmTransaction : Transaction -> Result string;
  Number_toString : Num.number -> string;
  runtime_message : Error -> string
}.

(** [error.message] *)
Definition message (W : World) (e : Error) : string :=
  match e with
  | Error_ m => m
  | _ => runtime_message W e
  end.

(** ** The built-ins the server uses *)

Module JS.

Import Str.

(** The member of an object that a key names: the last one written. *)
Fixpoint lookup (key : string) (members : list (string * value)) : option value :=
  match members with
  | [] => None
  | (k, v) :: rest =>
      match lookup key rest with
      | Some v' => Some v'
      | None => if String.eqb key k then Some v else None
      end
  end.

Section Runtime.

Variable W : World.

(** [String(v)], as template literals and string-taking built-ins apply
    it, on a value that [JSON.parse] has produced. An object is converted
    by its [toString] method: [Object.prototype.toString], which answers
    "[object Object]", unless the object has a [toString] member of its
    own; such a member is no function, [valueOf] gives no primitive either,
    and the conversion throws a [TypeError]. An array is converted by
    [join], which converts its elements in order, [undefined] and [null]
    to the empty string. *)
Fixpoint ToString (v : value) : Result string :=
  match v with
  | JUndefined => Ok "undefined"
  | JNull => Ok "null"
  | JBool true => Ok "true"
  | JBool false => Ok "false"
  | JNum x => Ok (Number_toString W x)
  | JStr s => Ok s
  | JArr items =>
      (fix join (l : list value) : Result string :=
         match l with
         | [] => Ok ""
         | x :: r =>
             bindR (match x with
                    | JUndefined | JNull => Ok ""
                    | _ => ToString x
                    end)
                   (fun sx =>
                      match r with
                      | [] => Ok sx
                      | _ :: _ => bindR (join r) (fun sr => Ok (sx ++ "," ++ sr))
                      end)
         end) items
  | JObj members =>
      match lookup "toString" members with
      | Some _ => Throw (TypeError_to_primitive v)
      | None => Ok "[object Object]"
      end
  end.

(** A template literal: its substitutions are converted to strings, in
    order, and the first conversion that throws ends it. [interpolate]
    keeps the strings. *)
Fixpoint interpolate (substitutions : list value) : Result (list string) :=
  match substitutions with
  | [] => Ok []
  | v :: rest =>
      bindR (ToString v) (fun s => bindR (interpolate rest) (fun l => Ok (s :: l)))
  end.

End Runtime.

(** [!!v] *)
Definition truthy (v : value) : bool :=
  match v with
  | JUndefined | JNull => false
  | JBool b => b
  | JNum x => Num.truthy x
  | JStr s => negb (String.eqb s "")
  | JArr _ | JObj _ => true
  end.

(** [base.key], for the keys this program reads ([claimData],
    [parameters], [context], [url], [extractedParameters], [balance],
    [text], [contextMessage], [amount], [address], [platform], [proof],
    [transactionUrl], [userAddress]): none of them is a property that
    strings, arrays, numbers, booleans or [Object.prototype] have of their
    own. *)
Definition get (base : value) (key : string) : Result value :=
  match base with
  | JUndefined | JNull => Throw (TypeError_property base key)
  | JObj members =>
      Ok (match lookup key members with
          | Some v => v
          | None => JUndefined
          end)
  | _ => Ok JUndefined
  end.

(** [u.includes(needle)]: a substring test on a string, a membership test
    on an array, and a [TypeError] on anything else. *)
Definition includes (u : value) (needle : string) : Result bool :=
  match u with
  | JStr s => Ok (Str.includes s needle)
  | JArr items =>
      Ok (existsb (fun x => match x with
                            | JStr s => String.eqb s needle
                            | _ => false
                            end) items)
  | JUndefined | JNull => Throw (TypeError_property u "includes")
  | _ => Throw (TypeError_not_a_function u "includes")
  end.

(** [b.replace(pattern, replacement)]: only strings have the method. *)
Definition replace (b : value) (pattern replacement : string) : Result value :=
  match b with
  | JStr s => Ok (JStr (Str.replace s pattern replacement))
  | JUndefined | JNull => Throw (TypeError_property b "replace")
  | _ => Throw (TypeError_not_a_function b "replace")
  end.

(** *** [decodeURIComponent] *)

(** A character of the input taken as it is, or the byte of a [%XX]. *)
Inductive unit_ : Type :=
| Raw (c : ascii)
| Esc (b : Z).

Fixpoint unescape (s : string) : option (list unit_) :=
  match s with
  | EmptyString => Some []
  | String c r =>
      if code c =? 37 then
        match r with
        | String h (String l r') =>
            match hex_value h, hex_value l, unescape r' with
            | Some vh, Some vl, Some us => Some (Esc (16 * vh + vl) :: us)
            | _, _, _ => None
            end
        | _ => None
        end
      else option_map (cons (Raw c)) (unescape r)
  end.

(** For a leading byte of a UTF-8 sequence: how many bytes follow, and the
    range the first of them must lie in. *)
Definition lead (b : Z) : option (nat * Z * Z) :=
  if (194 <=? b) && (b <=? 223) then Some (1%nat, 128, 191)
  else if b =? 224 then Some (2%nat, 160, 191)
  else if (225 <=? b) && (b <=? 236) then Some (2%nat, 128, 191)
  else if b =? 237 then Some (2%nat, 128, 159)
  else if (238 <=? b) && (b <=? 239) then Some (2%nat, 128, 191)
  else if b =? 240 then Some (3%nat, 144, 191)
  else if (241 <=? b) && (b <=? 243) then Some (3%nat, 128, 191)
  else if b =? 244 then Some (3%nat, 128, 143)
  else None.

(** Escaped bytes above 127 must spell, all escaped, the UTF-8 encoding of
    one code point; [pending] bytes of the current one are still due and
    the next lies in [[lo, hi]]. *)
Fixpoint assemble (pending : nat) (lo hi : Z) (us : list unit_) : option string :=
  match us, pending with
  | [], O => Some EmptyString
  | [], S _ => None
  | Raw c :: r, O => option_map (String c) (assemble O 128 191 r)
  | Raw _ :: _, S _ => None
  | Esc b :: r, O =>
      if b <? 128 then option_map (String (chr b)) (assemble O 128 191 r)
      else match lead b with
           | Some (n, lo', hi') => option_map (String (chr b)) (assemble n lo' hi' r)
           | None => None
           end
  | Esc b :: r, S p =>
      if (lo <=? b) && (b <=? hi) then option_map (String (chr b)) (assemble p 128 191 r)
      else None
  end.

Definition decodeURIComponent (s : string) : Result string :=
  match unescape s with
  | Some us =>
      match assemble O 128 191 us with
      | Some t => Ok t
      | None => Throw (URIError s)
      end
  | None => Throw (URIError s)
  end.

(** *** [JSON.parse] *)

Definition is_json_space (c : ascii) : bool :=
  let n := code c in
  (n =? 32) || (n =? 9) || (n =? 10) || (n =? 13).

Fixpoint skip_ws (s : string) : string :=
  match s with
  | String c r => if is_json_space c then skip_ws r else s
  | EmptyString => s
  end.

(** The UTF-8 bytes of a code point (a lone surrogate is written the same
    way, in three bytes). *)
Definition utf8_encode (cp : Z) : string :=
  if cp <? 128 then String (chr cp) ""
  else if cp <? 2048 then
    String (chr (192 + cp / 64)) (String (chr (128 + cp mod 64)) "")
  else if cp <? 65536 then
    String (chr (224 + cp / 4096))
      (String (chr (128 + (cp / 64) mod 64)) (String (chr (128 + cp mod 64)) ""))
  else
    String (chr (240 + cp / 262144))
      (String (chr (128 + (cp / 4096) mod 64))
         (String (chr (128 + (cp / 64) mod 64)) (String (chr (128 + cp mod 64)) ""))).

Definition hex4 (a b c d : ascii) : option Z :=
  match hex_value a, hex_value b, hex_value c, hex_value d with
  | Some x, Some y, Some z, Some w => Some (4096 * x + 256 * y + 16 * z + w)
  | _, _, _, _ => None
  end.

(** A low surrogate escape [\uDC00]..[\uDFFF] at the head of [s]. *)
Definition low_surrogate (s : string) : option Z :=
  match s with
  | String bs (String u (String a (String b (String c (String d _))))) =>
      if (code bs =? 92) && (code u =? 117) then
        match hex4 a b c d with
        | Some lo => if (56320 <=? lo) && (lo <=? 57343) then Some lo else None
        | None => None
        end
      else None
  | _ => None
  end.

Definition simple_escape (c : ascii) : option ascii :=
  let n := code c in
  if n =? 34 then Some (chr 34)
  else if n =? 92 then Some (chr 92)
  else if n =? 47 then Some (chr 47)
  else if n =? 98 then Some (chr 8)
  else if n =? 102 then Some (chr 12)
  else if n =? 110 then Some (chr 10)
  else if n =? 114 then Some (chr 13)
  else if n =? 116 then Some (chr 9)
  else None.

(** The characters of a string literal after its opening quote, up to the
    closing one, and what follows it. *)
Fixpoint string_body (s : string) : option (string * string) :=
  match s with
  | EmptyString => None
  | String c r =>
      if code c =? 34 then Some (EmptyString, r)
      else if code c <? 32 then None
      else if code c =? 92 then
        match r with
        | String e r1 =>
            if code e =? 117 then
              match r1 with
              | String a (String b (String c' (String d r2))) =>
                  match hex4 a b c' d with
                  | Some cu =>
                      match (if (55296 <=? cu) && (cu <=? 56319)
                             then low_surrogate r2 else None), r2 with
                      | Some lo, String _ (String _ (String _ (String _ (String _ (String _ r3))))) =>
                          match string_body r3 with
                          | Some (t, rest) =>
                              Some (utf8_encode (65536 + (cu - 55296) * 1024 + (lo - 56320)) ++ t,
                                    rest)
                          | None => None
                          end
                      | _, _ =>
                          match string_body r2 with
                          | Some (t, rest) => Some (utf8_encode cu ++ t, rest)
                          | None => None
                          end
                      end
                  | None => None
                  end
              | _ => None
              end
            else
              match simple_escape e, string_body r1 with
              | Some x, Some (t, rest) => Some (String x t, rest)
              | _, _ => None
              end
        | EmptyString => None
        end
      else
        match string_body r with
        | Some (t, rest) => Some (String c t, rest)
        | None => None
        end
  end.

(** The exponent part [e] / [E], sign, digits at the head of [s]: its
    value and what follows; [None] when [s] does not start with one. *)
Definition exponent_part (s : string) : option (Z * string) :=
  match s with
  | String c r =>
      if (code c =? 101) || (code c =? 69) then
        let '(neg, r1) :=
          match r with
          | String sg r' =>
              if code sg =? 45 then (true, r')
              else if code sg =? 43 then (false, r')
              else (false, r)
          | EmptyString => (false, r)
          end in
        let '(x, r2) := span_digits r1 in
        match x with
        | EmptyString => None
        | _ => Some (Num.signed neg (digits_value x), r2)
        end
      else None
  | EmptyString => None
  end.

(** A JSON number at the head of [s]. *)
Definition json_number (s : string) : option (Num.number * string) :=
  let '(neg, s1) :=
    match s with
    | String c r => if code c =? 45 then (true, r) else (false, s)
    | EmptyString => (false, s)
    end in
  let '(i, r1) := span_digits s1 in
  match i with
  | EmptyString => None
  | String d0 more =>
      if (code d0 =? 48) && negb (String.eqb more "") then None
      else
        let frac :=
          match r1 with
          | String c r =>
              if code c =? 46 then
                let '(f, r2) := span_digits r in
                match f with
                | EmptyString => None
                | _ => Some (f, r2)
                end
              else Some (EmptyString, r1)
          | EmptyString => Some (EmptyString, r1)
          end in
        match frac with
        | None => None
        | Some (f, r2) =>
            match r2 with
            | String c _ =>
                if (code c =? 101) || (code c =? 69) then
                  match exponent_part r2 with
                  | Some (x, r3) =>
                      Some (Num.of_decimal neg (digits_value (i ++ f))
                              (x - Z.of_nat (String.length f)), r3)
                  | None => None
                  end
                else Some (Num.of_decimal neg (digits_value (i ++ f))
                             (- Z.of_nat (String.length f)), r2)
            | EmptyString =>
                Some (Num.of_decimal neg (digits_value (i ++ f))
                        (- Z.of_nat (String.length f)), r2)
            end
        end
  end.

Inductive parsed (A : Type) : Type :=
| Parsed (a : A) (rest : string)
| Malformed
| OutOfFuel.

Arguments Parsed {A} a rest.
Arguments Malformed {A}.
Arguments OutOfFuel {A}.

(** One JSON value at the head of [s], after white space. *)
Fixpoint parse_value (fuel : nat) (s : string) : parsed value :=
  match fuel with
  | O => OutOfFuel
  | S f =>
      match skip_ws s with
      | EmptyString => Malformed
      | String c r =>
          if code c =? 123 then
            match skip_ws r with
            | String c' r' =>
                if code c' =? 125 then Parsed (JObj []) r' else parse_members f r []
            | EmptyString => Malformed
            end
          else if code c =? 91 then
            match skip_ws r with
            | String c' r' =>
                if code c' =? 93 then Parsed (JArr []) r' else parse_elements f r []
            | EmptyString => Malformed
            end
          else if code c =? 34 then
            match string_body r with
            | Some (t, rest) => Parsed (JStr t) rest
            | None => Malformed
            end
          else if startsWith (String c r) "true" then Parsed (JBool true) (drop 4 (String c r))
          else if startsWith (String c r) "false" then Parsed (JBool false) (drop 5 (String c r))
          else if startsWith (String c r) "null" then Parsed JNull (drop 4 (String c r))
          else
            match json_number (String c r) with
            | Some (x, rest) => Parsed (JNum x) rest
            | None => Malformed
            end
      end
  end

with parse_elements (fuel : nat) (s : string) (acc : list value) : parsed value :=
  match fuel with
  | O => OutOfFuel
  | S f =>
      match parse_value f s with
      | Parsed v r =>
          match skip_ws r with
          | String c r' =>
              if code c =? 44 then parse_elements f r' (v :: acc)
              else if code c =? 93 then Parsed (JArr (rev (v :: acc))) r'
              else Malformed
          | EmptyString => Malformed
          end
      | Malformed => Malformed
      | OutOfFuel => OutOfFuel
      end
  end

with parse_members (fuel : nat) (s : string) (acc : list (string * value)) : parsed value :=
  match fuel with
  | O => OutOfFuel
  | S f =>
      match skip_ws s with
      | String q r =>
          if code q =? 34 then
            match string_body r with
            | Some (k, r1) =>
                match skip_ws r1 with
                | String c r2 =>
                    if code c =? 58 then
                      match parse_value f r2 with
                      | Parsed v r3 =>
                          match skip_ws r3 with
                          | String c' r4 =>
                              if code c' =? 44 then parse_members f r4 ((k, v) :: acc)
                              else if code c' =? 125 then Parsed (JObj (rev ((k, v) :: acc))) r4
                              else Malformed
                          | EmptyString => Malformed
                          end
                      | Malformed => Malformed
                      | OutOfFuel => OutOfFuel
                      end
                    else Malformed
                | EmptyString => Malformed
                end
            | None => Malformed
            end
          else Malformed
      | EmptyString => Malformed
      end
  end.

(** [JSON.parse(text)]: the whole text is one value between white space. *)
Definition JSON_parse (text : string) : Result value :=
  match parse_value (2 * String.length text + 2) text with
  | Parsed v rest =>
      match skip_ws rest with
      | EmptyString => Ok v
      | String _ _ => Throw (SyntaxError text)
      end
  | _ => Throw (SyntaxError text)
  end.

(** *** [parseFloat] and [BigInt] *)

(** The white space and line terminators [parseFloat] skips, in UTF-8:
    one, two or three bytes long. *)
Definition is_space1 (a : Z) : bool :=
  ((9 <=? a) && (a <=? 13)) || (a =? 32).

Definition is_space2 (a b : Z) : bool := (a =? 194) && (b =? 160).

Definition is_space3 (a b c : Z) : bool :=
  ((a =? 225) && (b =? 154) && (c =? 128))
  || ((a =? 226) && (b =? 128)
      && (((128 <=? c) && (c <=? 138)) || (c =? 168) || (c =? 169) || (c =? 175)))
  || ((a =? 226) && (b =? 129) && (c =? 159))
  || ((a =? 227) && (b =? 128) && (c =? 128))
  || ((a =? 239) && (b =? 187) && (c =? 191)).

Fixpoint trim_start (s : string) : string :=
  match s with
  | String a r =>
      if is_space1 (code a) then trim_start r
      else
        match r with
        | String b r2 =>
            if is_space2 (code a) (code b) then trim_start r2
            else
              match r2 with
              | String c r3 =>
                  if is_space3 (code a) (code b) (code c) then trim_start r3 else s
              | EmptyString => s
              end
        | EmptyString => s
        end
  | EmptyString => s
  end.

(** The value of the longest prefix of [u] that is an unsigned decimal
    literal (digits, an optional fraction, an optional exponent), [NaN]
    when there is none. *)
Definition unsigned_decimal (neg : bool) (u : string) : Num.number :=
  let '(i, r1) := span_digits u in
  let '(f, r2) :=
    match r1 with
    | String c r => if code c =? 46 then span_digits r else (EmptyString, r1)
    | EmptyString => (EmptyString, r1)
    end in
  match i ++ f with
  | EmptyString => S754_nan
  | digits =>
      let x := match exponent_part r2 with
               | Some (x, _) => x
               | None => 0
               end in
      Num.of_decimal neg (digits_value digits) (x - Z.of_nat (String.length f))
  end.

(** [parseFloat(s)] on a string. *)
Definition parseFloat_string (s : string) : Num.number :=
  let t := trim_start s in
  let '(neg, u) :=
    match t with
    | String c r =>
        if code c =? 45 then (true, r)
        else if code c =? 43 then (false, r)
        else (false, t)
    | EmptyString => (false, t)
    end in
  if startsWith u "Infinity" then S754_infinity neg
  else unsigned_decimal neg u.

(** [parseFloat(v)]: the argument is first turned into a string. *)
Definition parseFloat (W : World) (v : value) : Result Num.number :=
  bindR (ToString W v) (fun s => Ok (parseFloat_string s)).

(** [BigInt(x)] on a number: its integer value, or a [RangeError] when [x]
    is not an integer ([NaN] and the infinities included). *)
Definition BigInt (x : Num.number) : Result Z :=
  match Num.integer_value x with
  | Some z => Ok z
  | None => Throw (RangeError_BigInt x)
  end.

End JS.

(** ** The server *)

Module Server.

Import JS.

(** One WebSocket client of [wss.clients]: its [readyState]
    (0 connecting, 1 open, 2 closing, 3 closed) and the frames the server
    has sent it, oldest first. *)
Record Client : Type := mkClient {
  client_id : nat;
  readyState : Z;
  sent : list string
}.

(** The calls that leave the process, in the order they are made. *)
Inductive Event : Type :=
| Verify (proof : value)
| TransferReward (amount recipientAddress : value)
| GetOrCreateAccount (mint recipient : string)
| Submit (transaction : Transaction).

(** The mutable state of the process: [wss] ([None] until [startServers]
    has created the WebSocket server, then its [clients]) and the calls
    made so far. *)
Record State : Type := mkState {
  wss : option (list Client);
  trace : list Event
}.

(** An [async] computation: it reads and updates the state and either
    returns or throws; what was done before a throw stays done. *)
Definition M (A : Type) : Type := State -> Result A * State.

Definition ret {A : Type} (a : A) : M A := fun st => (Ok a, st).

Definition throw {A : Type} (e : Error) : M A := fun st => (Throw e, st).

Definition bind {A B : Type} (m : M A) (k : A -> M B) : M B :=
  fun st =>
    match m st with
    | (Ok a, st') => k a st'
    | (Throw e, st') => (Throw e, st')
    end.

Definition lift {A : Type} (r : Result A) : M A := fun st => (r, st).

Definition emit (ev : Event) : M unit :=
  fun st => (Ok tt, mkState (wss st) (trace st ++ [ev])).

Notation "x <- m ;; k" := (bind m (fun x => k))
  (at level 61, m at next level, right associativity).
Notation "m ;;; k" := (bind m (fun _ => k))
  (at level 61, right associativity).
Notation "x <~ r ;; k" := (bindR r (fun x => k))
  (at level 61, r at next level, right associativity).

(** The HTTP response of a handler: [res.status(status).json(body)]. *)
Record Response : Type := mkResponse {
  status : Z;
  body : value
}.

(** The two platforms a proof can come from. *)
Inductive Platform : Type := amazon | flipkart.

(** What [getDataFromAmazon] and [getDataFromFlipkart] return. *)
Record Extracted : Type := mkExtracted {
  amount : value;
  address : value;
  platform : Platform
}.

(** *** The broadcaster *)

Inductive MessageType : Type := agent | error.

(** A notification, [{ type, content }]. *)
Record Message : Type := mkMessage {
  type : MessageType;
  content : string
}.

Definition quote : string := String (Str.chr 34) "".

Definition hex_digit (n : Z) : ascii :=
  if n <? 10 then Str.chr (48 + n) else Str.chr (87 + n).

(** The UTF-16 code unit that three bytes hold when they are the
    encoding of a surrogate, [0xD800] to [0xDFFF]. A string built from the
    parts of a proof can hold one that is not paired. *)
Definition surrogate (a b c : ascii) : option Z :=
  if (Str.code a =? 237) && (160 <=? Str.code b) && (Str.code b <=? 191)
     && (128 <=? Str.code c) && (Str.code c <=? 191)
  then Some (53248 + (Str.code b - 128) * 64 + (Str.code c - 128))
  else None.

(** [\uXXXX] for a code unit, in lower case as [JSON.stringify] writes it. *)
Definition unicode_escape (u : Z) : string :=
  String (Str.chr 92)
    (String (Str.chr 117)
       (String (hex_digit (u / 4096))
          (String (hex_digit ((u / 256) mod 16))
             (String (hex_digit ((u / 16) mod 16))
                (String (hex_digit (u mod 16)) ""))))).

(** What [JSON.stringify] writes for one character that is no part of a
    surrogate: the quote, the backslash and the control characters are
    escaped. *)
Definition escape_char (c : ascii) : string :=
  let n := Str.code c in
  if n =? 34 then String (Str.chr 92) quote
  else if n =? 92 then String (Str.chr 92) (String (Str.chr 92) "")
  else if n =? 8 then String (Str.chr 92) "b"
  else if n =? 9 then String (Str.chr 92) "t"
  else if n =? 10 then String (Str.chr 92) "n"
  else if n =? 12 then String (Str.chr 92) "f"
  else if n =? 13 then String (Str.chr 92) "r"
  else if n <? 32 then unicode_escape n
  else String c "".

(** The characters of a JSON string literal for [s], without the quotes.
    A surrogate that is not paired is escaped; a high surrogate followed
    by a low one is the code point of the pair, written as it is. *)
Fixpoint escaped (s : string) : string :=
  match s with
  | EmptyString => EmptyString
  | String c r =>
      let plain := escape_char c ++ escaped r in
      match r with
      | String b (String d r2) =>
          match surrogate c b d with
          | Some u =>
              let lone := unicode_escape u ++ escaped r2 in
              if u <? 56320 then
                match r2 with
                | String c' (String b' (String d' r3)) =>
                    match surrogate c' b' d' with
                    | Some lo =>
                        if 56320 <=? lo
                        then JS.utf8_encode (65536 + (u - 55296) * 1024 + (lo - 56320))
                             ++ escaped r3
                        else lone
                    | None => lone
                    end
                | _ => lone
                end
              else lone
          | None => plain
          end
      | _ => plain
      end
  end.

(** [JSON.stringify(message)] *)
Definition JSON_stringify (message : Message) : string :=
  "{" ++ quote ++ "type" ++ quote ++ ":" ++ quote
  ++ match type message with
     | agent => "agent"
     | error => "error"
     end
  ++ quote ++ "," ++ quote ++ "content" ++ quote ++ ":" ++ quote
  ++ escaped (content message) ++ quote ++ "}".

(** [client.send(frame)] on an open socket: the frame is queued for the
    client; the call does not throw. *)
Definition send (frame : string) (client : Client) : Client :=
  mkClient (client_id client) (readyState client) (sent client ++ [frame]).

(** [broadcastMessage(message)]: nothing without a WebSocket server;
    otherwise every client whose [readyState] is 1 is sent the message. *)
Definition broadcastMessage (message : Message) : M unit :=
  fun st =>
    match wss st with
    | Some clients =>
        (Ok tt,
         mkState
           (Some (map (fun client =>
                         if readyState client =? 1
                         then send (JSON_stringify message) client
                         else client) clients))
           (trace st))
    | None => (Ok tt, st)
    end.

Section Handlers.

Variable W : World.

(** *** Extraction *)

(** [await verifyProof(proof)] *)
Definition call_verifyProof (proof : value) : M bool :=
  emit (Verify proof) ;;; lift (verifyProof W proof).

(** [console.log] of a template literal with these substitutions: what it
    prints is dropped, but the conversion of a substitution can throw. *)
Definition log (substitutions : list value) : M unit :=
  lift (_ <~ interpolate W substitutions ;; Ok tt).

(** [JSON.parse(proof.claimData.context)] *)
Definition context_of (proof : value) : Result value :=
  claimData <~ get proof "claimData" ;;
  context <~ get claimData "context" ;;
  text <~ ToString W context ;;
  JSON_parse text.

(** [getDataFromFlipkart(proof)] *)
Definition getDataFromFlipkart (proof : value) : M Extracted :=
  isValid <- call_verifyProof proof ;;
  if negb isValid then throw (Error_ "Invalid proof")
  else
    contextData <- lift (context_of proof) ;;
    amount <- lift (extractedParameters <~ get contextData "extractedParameters" ;;
                    get extractedParameters "text") ;;
    address <- lift (get contextData "contextMessage") ;;
    log [amount; address] ;;;
    ret (mkExtracted amount address flipkart).

(** [getDataFromAmazon(proof)] *)
Definition getDataFromAmazon (proof : value) : M Extracted :=
  isValid <- call_verifyProof proof ;;
  if negb isValid then throw (Error_ "Invalid proof")
  else
    contextData <- lift (context_of proof) ;;
    amount <- lift (extractedParameters <~ get contextData "extractedParameters" ;;
                    balance <~ get extractedParameters "balance" ;;
                    replace balance "&#x20b9;" "") ;;
    address <- lift (get contextData "contextMessage") ;;
    log [amount; address] ;;;
    ret (mkExtracted amount address amazon).

(** *** The transfer engine *)

(** [BigInt(Math.floor(parseFloat(amount) * 1e9))] *)
Definition toTokenAmount (amount : value) : Result Z :=
  x <~ parseFloat W amount ;;
  BigInt (Num.Math_floor (Num.mul x Num.lit_1e9)).

(** [transferReward(amount, recipientAddress)]; its [catch] logs and
    throws the same error again. The first event records the call itself.
    The log lines of the [BigInt] amount and of the signature, a string,
    convert nothing that can throw beyond the amount. *)
Definition transferReward (amount recipientAddress : value) : M value :=
  emit (TransferReward amount recipientAddress) ;;;
  log [amount; recipientAddress] ;;;
  recipientPublicKey <- lift (PublicKey W recipientAddress) ;;
  fromTokenAccount <- lift (getAssociatedTokenAddress W (REWARD_TOKEN_MINT W)
                              (walletPublicKey W)) ;;
  emit (GetOrCreateAccount (REWARD_TOKEN_MINT W) recipientPublicKey) ;;;
  toTokenAccount <- lift (getOrCreateAssociatedTokenAccount W (REWARD_TOKEN_MINT W)
                            recipientPublicKey) ;;
  tokenAmount <- lift (toTokenAmount amount) ;;
  log [amount] ;;;
  transferInstruction <- lift (createTransferInstruction W fromTokenAccount
                                 toTokenAccount (walletPublicKey W) tokenAmount) ;;
  blockhash <- lift (getLatestBlockhash W) ;;
  let transaction := mkTransaction transferInstruction (walletPublicKey W) blockhash in
  emit (Submit transaction) ;;;
  signature <- lift (sendAndConfirmTransaction W transaction) ;;
  ret (JObj [("success", JBool true);
             ("signature", JStr signature);
             ("transactionUrl",
              JStr ("https://explorer.solana.com/tx/" ++ signature ++ "?cluster=devnet"));
             ("amount", amount)]).

(** *** [POST /receive-proofs] *)

(** [JSON.parse(proof.claimData.parameters).url] *)
Definition request_url (proof : value) : Result value :=
  claimData <~ get proof "claimData" ;;
  parameters <~ get claimData "parameters" ;;
  text <~ ToString W parameters ;;
  parsed <~ JSON_parse text ;;
  get parsed "url".

(** The platform of a proof: [None] when the handler answers
    "Unsupported platform". *)
Definition determine_platform (proof : value) : Result (option Platform) :=
  isAmazon <~ (url <~ request_url proof ;; includes url "amazon") ;;
  if (isAmazon : bool) then Ok (Some amazon)
  else
    isFlipkart <~ (url <~ request_url proof ;; includes url "flipkart") ;;
    if (isFlipkart : bool) then Ok (Some flipkart)
    else Ok None.

(** [platform === "amazon" ? getDataFromAmazon(proof) : getDataFromFlipkart(proof)] *)
Definition extract (p : Platform) (proof : value) : M Extracted :=
  match p with
  | amazon => getDataFromAmazon proof
  | flipkart => getDataFromFlipkart proof
  end.

Definition error_body (text : string) : value := JObj [("error", JStr text)].

Definition failure_body (e : Error) : value :=
  JObj [("success", JBool false); ("error", JStr (message W e))].

(** The success notice; its content is a template literal. *)
Definition success_message (amount address : value) (transactionUrl : value)
    : Result Message :=
  amount_text <~ ToString W amount ;;
  address_text <~ ToString W address ;;
  url_text <~ ToString W transactionUrl ;;
  Ok (mkMessage agent
        ("Reward of " ++ amount_text
         ++ " tokens has been successfully transferred to wallet " ++ address_text
         ++ ". Transaction URL: " ++ url_text)).

Definition error_message (e : Error) : Message :=
  mkMessage error ("Error processing reward: " ++ message W e).

(** The [try] block of the handler. The log line of the platform writes
    one of two fixed strings. *)
Definition receive_proofs_try (req_body : string) : M Response :=
  decodedBody <- lift (decodeURIComponent req_body) ;;
  proof <- lift (JSON_parse decodedBody) ;;
  platform <- lift (determine_platform proof) ;;
  match platform with
  | None => ret (mkResponse 400 (error_body "Unsupported platform"))
  | Some p =>
      data <- extract p proof ;;
      if negb (truthy (amount data)) || negb (truthy (address data))
      then ret (mkResponse 400 (error_body "Missing amount or address in proof"))
      else
        transferResult <- transferReward (amount data) (address data) ;;
        transactionUrl <- lift (get transferResult "transactionUrl") ;;
        notice <- lift (success_message (amount data) (address data) transactionUrl) ;;
        broadcastMessage notice ;;;
        ret (mkResponse 200
               (JObj [("success", JBool true);
                      ("message", JStr "Reward processed successfully");
                      ("transaction", transferResult)]))
  end.

(** The handler: the [try] block, and the [catch] that broadcasts the
    error and answers 500. *)
Definition receive_proofs (req_body : string) (st : State) : Response * State :=
  match receive_proofs_try req_body st with
  | (Ok response, st') => (response, st')
  | (Throw e, st') =>
      (mkResponse 500 (failure_body e), snd (broadcastMessage (error_message e) st'))
  end.

(** *** [POST /transfer-tokens] (the second variant of the server) *)

(** The [try] block: the four fields are read off [req.body], which the
    JSON middleware has parsed; [proof] is only logged. *)
Definition transfer_tokens_try (req_body : value) : M Response :=
  amount <- lift (get req_body "amount") ;;
  address <- lift (get req_body "address") ;;
  platform <- lift (get req_body "platform") ;;
  proof <- lift (get req_body "proof") ;;
  if negb (truthy amount) || negb (truthy address) || negb (truthy platform)
  then ret (mkResponse 400 (JObj [("success", JBool false);
                                  ("error", JStr "Missing required fields")]))
  else
    transferResult <- transferReward amount address ;;
    ret (mkResponse 200 transferResult).

Definition transfer_tokens (req_body : value) (st : State) : Response * State :=
  match transfer_tokens_try req_body st with
  | (Ok response, st') => (response, st')
  | (Throw e, st') => (mkResponse 500 (failure_body e), st')
  end.

End Handlers.

End Server.

(** ** Notions of the specification *)

(** [p] occurs in [s]. *)
Definition contains (s p : string) : Prop :=
  exists a b, s = a ++ p ++ b.

(** A field is missing when [!field] holds: it is absent, [null], empty,
    zero, [NaN] or [false]. *)
Definition missing (v : value) : Prop := JS.truthy v = false.

(** The rational a plain decimal amount denotes: digits, then possibly a
    point and more digits. [None] on any other string. *)
Definition decimal_value (s : string) : option Q :=
  let '(i, r) := Str.span_digits s in
  match i, r with
  | EmptyString, _ => None
  | _, EmptyString => Some (inject_Z (Str.digits_value i))
  | _, String c f =>
      if (Str.code c =? 46) && negb (String.eqb f "")
         && String.eqb (snd (Str.span_digits f)) ""
      then Some (Qmake (Str.digits_value (i ++ f)) (Z.to_pos (10 ^ Z.of_nat (String.length f))))
      else None
  end.

(** A string of decimal digits only. *)
Fixpoint digits_only (s : string) : bool :=
  match s with
  | EmptyString => true
  | String c r => Str.is_digit c && digits_only r
  end.

(** [floor(amount * 10^9)], computed exactly. *)
Definition exact_base_units (s : string) : option Z :=
  match decimal_value s with
  | Some q => Some (Qfloor (q * inject_Z (10 ^ 9)))
  | None => None
  end.

(** ** Scenarios *)

Module Scenario.

Import Server.

Fixpoint decimal_digits (fuel : nat) (n : Z) (acc : string) : string :=
  match fuel with
  | O => acc
  | S f =>
      let acc' := String (Str.chr (48 + n mod 10)) acc in
      if n / 10 =? 0 then acc' else decimal_digits f (n / 10) acc'
  end.

(** A stand-in for the collaborators: the verifier answers [verdict], the
    ledger accepts every string as an address and confirms every
    transaction. Its [Number_toString] prints integers only; no other
    number reaches it below. *)
Definition mock (verdict : Result bool) : World := {|
  verifyProof := fun _ => verdict;
  walletPublicKey := "WALLET";
  REWARD_TOKEN_MINT := "MINT";
  PublicKey := fun v =>
    match v with
    | JStr s => Ok s
    | _ => Throw (Error_ "Invalid public key input")
    end;
  getAssociatedTokenAddress := fun _ who => Ok ("ata:" ++ who);
  getOrCreateAssociatedTokenAccount := fun _ who => Ok ("ata:" ++ who);
  createTransferInstruction := fun a b c n => Ok (mkInstruction a b c n);
  getLatestBlockhash := Ok "BLOCKHASH";
  sendAndConfirmTransaction := fun _ => Ok "SIGNATURE";
  Number_toString := fun x =>
    match Num.integer_value x with
    | Some z => (if z <? 0 then "-" else "") ++ decimal_digits 400 (Z.abs z) ""
    | None => "NaN"
    end;
  runtime_message := fun e =>
    match e with
    | URIError _ => "URI malformed"
    | SyntaxError _ => "Unexpected token in JSON"
    | RangeError_BigInt _ => "The number cannot be converted to a BigInt"
    | TypeError_to_primitive _ => "Cannot convert object to primitive value"
    | _ => "Cannot read properties"
    end
|}.

(** One open and one closed observer, nothing called yet. *)
Definition st0 : State :=
  mkState (Some [mkClient 0 1 []; mkClient 1 3 []]) [].

(** Request bodies, as [encodeURIComponent(JSON.stringify(proof))] writes
    them. The proof of [body_amazon_entity] has the request URL
    [https://www.amazon.in/pay], the balance [&#x20b9;250] and the context
    message [ADDR1]; [body_amazon_glyph] differs in the balance only, which
    starts with the rupee sign itself, U+20B9. *)
Definition body_amazon_entity : string :=
  "%7B%22claimData%22%3A%7B%22parameters%22%3A%22%7B%5C%22url%5C%22%3A%5C%22https%3A%2F%2Fwww.amazon.in%2Fpay%5C%22%7D%22%2C%22context%22%3A%22%7B%5C%22contextMessage%5C%22%3A%5C%22ADDR1%5C%22%2C%5C%22extractedParameters%5C%22%3A%7B%5C%22balance%5C%22%3A%5C%22%26%23x20b9%3B250%5C%22%7D%7D%22%7D%7D".

Definition body_amazon_glyph : string :=
  "%7B%22claimData%22%3A%7B%22parameters%22%3A%22%7B%5C%22url%5C%22%3A%5C%22https%3A%2F%2Fwww.amazon.in%2Fpay%5C%22%7D%22%2C%22context%22%3A%22%7B%5C%22contextMessage%5C%22%3A%5C%22ADDR1%5C%22%2C%5C%22extractedParameters%5C%22%3A%7B%5C%22balance%5C%22%3A%5C%22%E2%82%B9250%5C%22%7D%7D%22%7D%7D".

(** A Flipkart proof: URL [https://www.flipkart.com/coins], text [500],
    context message [ADDR2]. *)
Definition body_flipkart : string :=
  "%7B%22claimData%22%3A%7B%22parameters%22%3A%22%7B%5C%22url%5C%22%3A%5C%22https%3A%2F%2Fwww.flipkart.com%2Fcoins%5C%22%7D%22%2C%22context%22%3A%22%7B%5C%22contextMessage%5C%22%3A%5C%22ADDR2%5C%22%2C%5C%22extractedParameters%5C%22%3A%7B%5C%22text%5C%22%3A%5C%22500%5C%22%7D%7D%22%7D%7D".

(** The same proof with the URL [https://www.example.com/]. *)
Definition body_other : string :=
  "%7B%22claimData%22%3A%7B%22parameters%22%3A%22%7B%5C%22url%5C%22%3A%5C%22https%3A%2F%2Fwww.example.com%2F%5C%22%7D%22%2C%22context%22%3A%22%7B%5C%22contextMessage%5C%22%3A%5C%22ADDR2%5C%22%2C%5C%22extractedParameters%5C%22%3A%7B%5C%22text%5C%22%3A%5C%22500%5C%22%7D%7D%22%7D%7D".

(** An Amazon proof whose balance is the entity alone and which has no
    context message. *)
Definition body_amazon_empty : string :=
  "%7B%22claimData%22%3A%7B%22parameters%22%3A%22%7B%5C%22url%5C%22%3A%5C%22https%3A%2F%2Fwww.amazon.in%2Fpay%5C%22%7D%22%2C%22context%22%3A%22%7B%5C%22extractedParameters%5C%22%3A%7B%5C%22balance%5C%22%3A%5C%22%26%23x20b9%3B%5C%22%7D%7D%22%7D%7D".

(** An Amazon proof whose URL, [https://www.amazon.in/flipkart], names
    both platforms. *)
Definition body_both : string :=
  "%7B%22claimData%22%3A%7B%22parameters%22%3A%22%7B%5C%22url%5C%22%3A%5C%22https%3A%2F%2Fwww.amazon.in%2Fflipkart%5C%22%7D%22%2C%22context%22%3A%22%7B%5C%22contextMessage%5C%22%3A%5C%22ADDR1%5C%22%2C%5C%22extractedParameters%5C%22%3A%7B%5C%22balance%5C%22%3A%5C%22%26%23x20b9%3B250%5C%22%7D%7D%22%7D%7D".

(** Amazon proofs with the balances [&#x20b9;1000] and [Rs.&#x20b9;1000]. *)
Definition body_amazon_1000 : string :=
  "%7B%22claimData%22%3A%7B%22parameters%22%3A%22%7B%5C%22url%5C%22%3A%5C%22https%3A%2F%2Fwww.amazon.in%2Fpay%5C%22%7D%22%2C%22context%22%3A%22%7B%5C%22contextMessage%5C%22%3A%5C%22ADDR1%5C%22%2C%5C%22extractedParameters%5C%22%3A%7B%5C%22balance%5C%22%3A%5C%22%26%23x20b9%3B1000%5C%22%7D%7D%22%7D%7D".

Definition body_amazon_inner : string :=
  "%7B%22claimData%22%3A%7B%22parameters%22%3A%22%7B%5C%22url%5C%22%3A%5C%22https%3A%2F%2Fwww.amazon.in%2Fpay%5C%22%7D%22%2C%22context%22%3A%22%7B%5C%22contextMessage%5C%22%3A%5C%22ADDR1%5C%22%2C%5C%22extractedParameters%5C%22%3A%7B%5C%22balance%5C%22%3A%5C%22Rs.%26%23x20b9%3B1000%5C%22%7D%7D%22%7D%7D".

(** What [JSON.parse(decodeURIComponent(body))] gives, [null] if it throws. *)
Definition proof_of (req_body : string) : value :=
  match bindR (JS.decodeURIComponent req_body) JS.JSON_parse with
  | Ok v => v
  | Throw _ => JNull
  end.

End Scenario.

(** ** Further notions *)

(** Text that holds no surrogate, paired or not: no byte [0xED] is
    followed by a byte from [0xA0] to [0xBF]. Every string that is valid
    UTF-8 is of this kind. *)
Fixpoint well_formed_text (s : string) : bool :=
  match s with
  | EmptyString => true
  | String c r =>
      match r with
      | String b _ =>
          negb ((Str.code c =? 237) && (160 <=? Str.code b) && (Str.code b <=? 191))
      | EmptyString => true
      end && well_formed_text r
  end.

(** What may follow the digits of a whole number without being read as
    part of it by [parseFloat]: nothing, or a character that is not a
    digit, a point or an exponent mark. *)
Definition ends_number (tail : string) : bool :=
  match tail with
  | EmptyString => true
  | String c _ =>
      negb (Str.is_digit c) && negb (Str.code c =? 46)
      && negb (Str.code c =? 101) && negb (Str.code c =? 69)
  end.

(** ** Start-up: the check of the environment *)

Module Startup.

(** [process.env]: a variable is unset, or holds a string. *)
Definition Env : Type := string -> option string.

(** [!process.env[varName]]: unset, or set to the empty string. *)
Definition unset (env : Env) (varName : string) : bool :=
  match env varName with
  | Some s => String.eqb s ""
  | None => true
  end.

(** [requiredVars] of the [/receive-proofs] variant. *)
Definition requiredVars : list string :=
  ["WALLET_PRIVATE_KEY"; "REWARD_TOKEN_MINT"; "APP_ID"; "APP_SECRET";
   "FLIPKART_PROVIDER_ID"; "AMAZON_PROVIDER_ID"; "CALLBACK_URL"].

(** [requiredVars] of the [/transfer-tokens] variant. *)
Definition requiredVars_transfer : list string :=
  ["WALLET_PRIVATE_KEY"; "REWARD_TOKEN_MINT"; "SOLANA_RPC_URL"].

(** What a run leaves on the console and whether it ended the process:
    the lines given to [console.error], and the code given to
    [process.exit] if it was called. *)
Record Console : Type := mkConsole {
  stderr : list string;
  exited : option Z
}.

(** [validateEnvironment()], for the list of variables the variant
    requires. *)
Definition validateEnvironment (required : list string) (env : Env) : Console :=
  let missingVars := filter (unset env) required in
  if (0 <? List.length missingVars)%nat
  then mkConsole
         ("Error: Required environment variables are not set:"
          :: map (fun varName => "  " ++ varName) missingVars)
         (Some 1)
  else mkConsole [] None.

End Startup.

(** ** The endpoints that generate a proof request *)

Module Config.

Import JS.

(** The proof request of the Reclaim SDK: what its calls answer, and its
    [sessionId] and [id] properties. *)
Record Reclaim : Type := mkReclaim {
  init : value -> value -> value -> value -> Result unit;
  setRedirectUrl : value -> Result unit;
  addContext : value -> value -> Result unit;
  getRequestUrl : Result value;
  getStatusUrl : Result value;
  sessionId : value;
  id : value
}.

(** The calls made on the SDK, in order. *)
Inductive Call : Type :=
| Init (appId appSecret providerId options : value)
| SetRedirectUrl (url : value)
| AddContext (address message : value)
| GetRequestUrl
| GetStatusUrl.

(** A computation that records the calls it makes and returns or throws. *)
Definition C (A : Type) : Type := list Call -> Result A * list Call.

Definition cret {A : Type} (a : A) : C A := fun calls => (Ok a, calls).

Definition cbind {A B : Type} (m : C A) (k : A -> C B) : C B :=
  fun calls =>
    match m calls with
    | (Ok a, calls') => k a calls'
    | (Throw e, calls') => (Throw e, calls')
    end.

(** One call on the SDK and its answer. *)
Definition call {A : Type} (c : Call) (answer : Result A) : C A :=
  fun calls => (answer, (calls ++ [c])%list).

Notation "x <-- m ;; k" := (cbind m (fun x => k))
  (at level 61, m at next level, right associativity).
Notation "m ;;;; k" := (cbind m (fun _ => k))
  (at level 61, right associativity).

Section Generate.

Variable R : Reclaim.
Variable env : Startup.Env.

(** [process.env.NAME] *)
Definition env_value (name : string) : value :=
  match env name with
  | Some s => JStr s
  | None => JUndefined
  end.

Definition testMode (testData : value) : value :=
  JObj [("isTestMode", JBool true); ("testData", testData)].

(** [generateReclaimProofForFlipkart(userAddress)]; its [catch] logs and
    throws the same error again. *)
Definition generateReclaimProofForFlipkart (userAddress : value) : C value :=
  call (Init (env_value "APP_ID") (env_value "APP_SECRET")
          (env_value "FLIPKART_PROVIDER_ID")
          (testMode (JObj [("text", JStr "500"); ("contextMessage", userAddress)])))
       (init R (env_value "APP_ID") (env_value "APP_SECRET")
          (env_value "FLIPKART_PROVIDER_ID")
          (testMode (JObj [("text", JStr "500"); ("contextMessage", userAddress)]))) ;;;;
  call (SetRedirectUrl (env_value "CALLBACK_URL"))
       (setRedirectUrl R (env_value "CALLBACK_URL")) ;;;;
  (if truthy userAddress
   then call (AddContext (JStr "address") userAddress)
          (addContext R (JStr "address") userAddress)
   else cret tt) ;;;;
  requestUrl <-- call GetRequestUrl (getRequestUrl R) ;;
  statusUrl <-- call GetStatusUrl (getStatusUrl R) ;;
  cret (JObj [("requestUrl", requestUrl);
              ("statusUrl", statusUrl);
              ("sessionId", if truthy (sessionId R) then sessionId R else id R)]).

(** [generateReclaimProofForAmazon(userAddress)]; its [catch] logs and
    throws the same error again. *)
Definition generateReclaimProofForAmazon (userAddress : value) : C value :=
  call (Init (env_value "APP_ID") (env_value "APP_SECRET")
          (env_value "AMAZON_PROVIDER_ID")
          (testMode (JObj [("balance", JStr "₹1000"); ("contextMessage", userAddress)])))
       (init R (env_value "APP_ID") (env_value "APP_SECRET")
          (env_value "AMAZON_PROVIDER_ID")
          (testMode (JObj [("balance", JStr "₹1000"); ("contextMessage", userAddress)]))) ;;;;
  call (SetRedirectUrl (env_value "CALLBACK_URL"))
       (setRedirectUrl R (env_value "CALLBACK_URL")) ;;;;
  requestUrl <-- call GetRequestUrl (getRequestUrl R) ;;
  statusUrl <-- call GetStatusUrl (getStatusUrl R) ;;
  cret (JObj [("requestUrl", requestUrl); ("statusUrl", statusUrl)]).

(** [const { userAddress } = req.body || {}] *)
Definition userAddress_of (req_body : value) : Result value :=
  get (if truthy req_body then req_body else JObj []) "userAddress".

(** A handler of [/reclaim/generate-config-...]: the configuration is the
    answer, and any error is answered 500 with one fixed text. *)
Definition generate_config (generate : value -> C value) (req_body : value)
    (calls : list Call) : Server.Response * list Call :=
  match cbind (fun cs => (userAddress_of req_body, cs)) generate calls with
  | (Ok config, calls') => (Server.mkResponse 200 config, calls')
  | (Throw _, calls') =>
      (Server.mkResponse 500 (JObj [("error", JStr "Failed to generate configuration")]),
       calls')
  end.

(** [POST /reclaim/generate-config-flipkart] *)
Definition generate_config_flipkart : value -> list Call -> Server.Response * list Call :=
  generate_config generateReclaimProofForFlipkart.

(** [POST /reclaim/generate-config-amazon] *)
Definition generate_config_amazon : value -> list Call -> Server.Response * list Call :=
  generate_config generateReclaimProofForAmazon.

End Generate.

End Config.

(** ** More scenarios *)

Module Cases.

(** An Amazon proof whose extracted parameters hold no balance. *)
Definition body_amazon_no_balance : string :=
  "%7B%22claimData%22%3A%7B%22parameters%22%3A%22%7B%5C%22url%5C%22%3A%5C%22https%3A%2F%2Fwww.amazon.in%2Fpay%5C%22%7D%22%2C%22context%22%3A%22%7B%5C%22contextMessage%5C%22%3A%5C%22ADDR1%5C%22%2C%5C%22extractedParameters%5C%22%3A%7B%5C%22points%5C%22%3A%5C%227%5C%22%7D%7D%22%7D%7D".

(** A proof whose parameters hold no URL. *)
Definition body_no_url : string :=
  "%7B%22claimData%22%3A%7B%22parameters%22%3A%22%7B%5C%22method%5C%22%3A%5C%22GET%5C%22%7D%22%2C%22context%22%3A%22%7B%5C%22contextMessage%5C%22%3A%5C%22ADDR2%5C%22%2C%5C%22extractedParameters%5C%22%3A%7B%5C%22text%5C%22%3A%5C%22500%5C%22%7D%7D%22%7D%7D".

(** A Flipkart proof whose text is the number -5. *)
Definition body_flipkart_number : string :=
  "%7B%22claimData%22%3A%7B%22parameters%22%3A%22%7B%5C%22url%5C%22%3A%5C%22https%3A%2F%2Fwww.flipkart.com%2Fcoins%5C%22%7D%22%2C%22context%22%3A%22%7B%5C%22contextMessage%5C%22%3A%5C%22ADDR2%5C%22%2C%5C%22extractedParameters%5C%22%3A%7B%5C%22text%5C%22%3A-5%7D%7D%22%7D%7D".

(** A Flipkart proof whose text is the object [{ toString: 1 }]. *)
Definition body_flipkart_object : string :=
  "%7B%22claimData%22%3A%7B%22parameters%22%3A%22%7B%5C%22url%5C%22%3A%5C%22https%3A%2F%2Fwww.flipkart.com%2Fcoins%5C%22%7D%22%2C%22context%22%3A%22%7B%5C%22contextMessage%5C%22%3A%5C%22ADDR2%5C%22%2C%5C%22extractedParameters%5C%22%3A%7B%5C%22text%5C%22%3A%7B%5C%22toString%5C%22%3A1%7D%7D%7D%22%7D%7D".

(** An Amazon proof whose URL is the array [["https://www.amazon.in/pay"]]. *)
Definition body_url_array : string :=
  "%7B%22claimData%22%3A%7B%22parameters%22%3A%22%7B%5C%22url%5C%22%3A%5B%5C%22https%3A%2F%2Fwww.amazon.in%2Fpay%5C%22%5D%7D%22%2C%22context%22%3A%22%7B%5C%22contextMessage%5C%22%3A%5C%22ADDR1%5C%22%2C%5C%22extractedParameters%5C%22%3A%7B%5C%22balance%5C%22%3A%5C%22%26%23x20b9%3B250%5C%22%7D%7D%22%7D%7D".

End Cases.

(** ** The model on concrete inputs *)

Example decode_rupee : JS.decodeURIComponent "%E2%82%B9250" = Ok "₹250".
Proof. vm_compute. reflexivity. Qed.

Example decode_truncated_escape : JS.decodeURIComponent "%E2%82" = Throw (URIError "%E2%82").
Proof. vm_compute. reflexivity. Qed.

Example parse_trailing_comma : JS.JSON_parse "[1,2,]" = Throw (SyntaxError "[1,2,]").
Proof. vm_compute. reflexivity. Qed.

Example parseFloat_prefix :
  JS.parseFloat_string "  12px" = Num.of_decimal false 12 0.
Proof. vm_compute. reflexivity. Qed.

Example parseFloat_glyph : JS.parseFloat_string "₹250" = S754_nan.
Proof. vm_compute. reflexivity. Qed.

Example one_billion : Num.integer_value Num.lit_1e9 = Some 1000000000.
Proof. vm_compute. reflexivity. Qed.

Example floor_of_minus_half :
  Num.integer_value (Num.Math_floor (Num.of_decimal true 5 (-1))) = Some (-1).
Proof. vm_compute. reflexivity. Qed.

Example replace_once :
  Str.replace "&#x20b9;1&#x20b9;2" "&#x20b9;" "" = "1&#x20b9;2".
Proof. vm_compute. reflexivity. Qed.

(** A Flipkart proof is paid with the [text] field as it is. *)
Example flipkart_payout :
  let outcome :=
    Server.receive_proofs (Scenario.mock (Ok true)) Scenario.body_flipkart Scenario.st0 in
  Server.status (fst outcome) = 200
  /\ In (Server.TransferReward (JStr "500") (JStr "ADDR2")) (Server.trace (snd outcome))
  /\ JS.get (Server.body (fst outcome)) "transaction"
     = Ok (JObj [("success", JBool true);
                 ("signature", JStr "SIGNATURE");
                 ("transactionUrl",
                  JStr "https://explorer.solana.com/tx/SIGNATURE?cluster=devnet");
                 ("amount", JStr "500")]).
Proof. vm_compute. repeat split. now right; left. Qed.

(** When the verifier throws, the answer is 500 with its message and
    nothing is transferred. *)
Example verifier_throws :
  let outcome :=
    Server.receive_proofs (Scenario.mock (Throw (Error_ "network down")))
      Scenario.body_flipkart Scenario.st0 in
  fst outcome
  = Server.mkResponse 500 (JObj [("success", JBool false); ("error", JStr "network down")])
  /\ Server.trace (snd outcome) = [Server.Verify (Scenario.proof_of Scenario.body_flipkart)].
Proof. vm_compute. split; reflexivity. Qed.

(** An object with a [toString] member of its own cannot be written as a
    string; an array is written element by element. *)
Example object_with_own_toString :
  JS.ToString (Scenario.mock (Ok true)) (JObj [("toString", JNull)])
  = Throw (TypeError_to_primitive (JObj [("toString", JNull)])).
Proof. reflexivity. Qed.

Example array_to_string :
  JS.ToString (Scenario.mock (Ok true))
    (JArr [JStr "a"; JNull; JArr [JStr "b"; JObj []]])
  = Ok "a,,b,[object Object]".
Proof. reflexivity. Qed.

(** A Flipkart proof whose amount cannot be written into the log line is
    answered 500 after the verification; nothing is transferred. *)
Example amount_object_is_not_paid :
  let outcome :=
    Server.receive_proofs (Scenario.mock (Ok true)) Cases.body_flipkart_object
      Scenario.st0 in
  fst outcome
  = Server.mkResponse 500
      (JObj [("success", JBool false);
             ("error", JStr "Cannot convert object to primitive value")])
  /\ Server.trace (snd outcome)
     = [Server.Verify (Scenario.proof_of Cases.body_flipkart_object)].
Proof. vm_compute. split; reflexivity. Qed.

(** A surrogate that is not paired is written as an escape, a pair as its
    code point. *)
Example lone_surrogate_is_escaped :
  Server.escaped (JS.utf8_encode 55357) = String (Str.chr 92) "ud83d"
  /\ Server.escaped (JS.utf8_encode 55357 ++ JS.utf8_encode 56832)
     = JS.utf8_encode 128512.
Proof. vm_compute. split; reflexivity. Qed.

(** ** Facts about strings *)

Lemma append_empty_r (s : string) : s ++ "" = s.
Proof.
  induction s as [| c s IH]; simpl; [reflexivity | now rewrite IH].
Qed.

Lemma append_assoc (a b c : string) : (a ++ b) ++ c = a ++ b ++ c.
Proof.
  induction a as [| x a IH]; simpl; [reflexivity | now rewrite IH].
Qed.

Lemma startsWith_spec (p s : string) :
  Str.startsWith s p = true <-> exists t, s = p ++ t.
Proof.
  revert s; induction p as [| a p IH]; intros s; simpl.
  - split; [intros _; now exists s | reflexivity].
  - destruct s as [| b s].
    + split; [discriminate | intros [t Ht]; discriminate].
    + rewrite andb_true_iff, Ascii.eqb_eq, IH. split.
      * intros [-> [t ->]]. now exists t.
      * intros [t Ht]. injection Ht as -> ->. split; [reflexivity | now exists t].
Qed.

Lemma drop_append (p t : string) : Str.drop (String.length p) (p ++ t) = t.
Proof.
  induction p as [| a p IH]; simpl; [now destruct t | exact IH].
Qed.

Lemma includes_spec (s p : string) :
  Str.includes s p = true <-> contains s p.
Proof.
  unfold contains. split.
  - induction s as [| c s IH]; simpl; rewrite orb_true_iff;
      intros [H | H]; try discriminate.
    + apply startsWith_spec in H as [t Ht]. now exists "", t.
    + apply startsWith_spec in H as [t Ht]. now exists "", t.
    + destruct (IH H) as (a & b & ->). now exists (String c a), b.
  - intros (a & b & ->). induction a as [| c a IH].
    + simpl (_ ++ _). destruct (p ++ b) eqn:E; simpl; apply orb_true_iff; left;
        apply startsWith_spec; exists b; now rewrite E.
    + simpl. apply orb_true_iff. now right.
Qed.

Lemma includes_false (s p : string) :
  Str.includes s p = false <-> ~ contains s p.
Proof.
  rewrite <- includes_spec. destruct (Str.includes s p); split; intros H.
  - discriminate.
  - now destruct H.
  - discriminate.
  - reflexivity.
Qed.

Lemma replace_unfold (s p r : string) :
  Str.replace s p r =
  if Str.startsWith s p then r ++ Str.drop (String.length p) s
  else match s with
       | EmptyString => EmptyString
       | String c s' => String c (Str.replace s' p r)
       end.
Proof.
  destruct s; reflexivity.
Qed.

Lemma replace_prefix (p r t : string) : Str.replace (p ++ t) p r = r ++ t.
Proof.
  rewrite replace_unfold.
  assert (H : Str.startsWith (p ++ t) p = true) by (apply startsWith_spec; now exists t).
  now rewrite H, drop_append.
Qed.

Lemma replace_absent (s p r : string) : ~ contains s p -> Str.replace s p r = s.
Proof.
  induction s as [| c s IH]; intros H; rewrite replace_unfold.
  - destruct (Str.startsWith "" p) eqn:E; [| reflexivity].
    exfalso; apply H. apply startsWith_spec in E as [t Ht]. now exists "", t.
  - destruct (Str.startsWith (String c s) p) eqn:E.
    + exfalso; apply H. apply startsWith_spec in E as [t Ht]. now exists "", t.
    + rewrite IH; [reflexivity |].
      intros (a & b & ->). apply H. now exists (String c a), b.
Qed.

Lemma replace_first (p r a t : string) :
  (forall a' t', a ++ p ++ t = a' ++ p ++ t' -> (String.length a <= String.length a')%nat) ->
  Str.replace (a ++ p ++ t) p r = a ++ r ++ t.
Proof.
  induction a as [| c a IH]; intros Hmin.
  - change (Str.replace (p ++ t) p r = r ++ t). apply replace_prefix.
  - rewrite replace_unfold.
    destruct (Str.startsWith (String c a ++ p ++ t) p) eqn:E.
    + apply startsWith_spec in E as [t' Ht'].
      specialize (Hmin "" t' Ht'). simpl in Hmin. lia.
    + simpl. f_equal. apply IH. intros a' t' H.
      specialize (Hmin (String c a') t'). simpl in Hmin. rewrite H in Hmin.
      specialize (Hmin eq_refl). lia.
Qed.

(** ** Facts about numbers *)

Lemma signed_pos (s : bool) (p : positive) :
  Num.signed s (Zpos p) = if s then Zneg p else Zpos p.
Proof.
  now destruct s.
Qed.

Lemma integer_value_normal (s : bool) (p : positive) (k : Z) :
  0 <= k ->
  Num.integer_value (S754_finite s (Z.to_pos (Zpos p * 2 ^ k)) (- k))
  = Some (Num.signed s (Zpos p)).
Proof.
  intros Hk. unfold Num.integer_value.
  assert (Hpow : 0 < 2 ^ k) by (apply Z.pow_pos_nonneg; lia).
  rewrite Z2Pos.id by lia.
  destruct (0 <=? - k) eqn:E.
  - apply Z.leb_le in E. assert (k = 0) as -> by lia. simpl.
    do 2 f_equal. lia.
  - rewrite Z.opp_involutive, Z.mod_mul, Z.div_mul by lia. reflexivity.
Qed.

(** [of_integer] denotes the integer it is given. *)
Lemma integer_value_of_integer (z : Z) (szero : bool) :
  Num.integer_value (Num.of_integer z szero) = Some z.
Proof.
  destruct z as [| p | p]; [reflexivity | |]; unfold Num.of_integer;
    destruct (Zpos (digits2_pos p) <=? Num.prec) eqn:E;
    try (apply Z.leb_le in E;
         replace (Zpos (digits2_pos p) - Num.prec)
           with (- (Num.prec - Zpos (digits2_pos p))) by lia;
         rewrite integer_value_normal by lia; reflexivity);
    simpl; do 2 f_equal; lia.
Qed.

(** [BigInt(Math.floor(x))] is the floor of the rational [x] denotes, and a
    [RangeError] when [x] is [NaN] or infinite. *)
Lemma BigInt_floor (x : Num.number) :
  JS.BigInt (Num.Math_floor x) =
  match Num.to_Q x with
  | Some q => Ok (Qfloor q)
  | None => Throw (RangeError_BigInt x)
  end.
Proof.
  destruct x as [s | s | | s m e]; try reflexivity.
  unfold JS.BigInt, Num.Math_floor, Num.to_Q.
  destruct (0 <=? e) eqn:E.
  - unfold Num.integer_value. rewrite E. now rewrite Qfloor_Z.
  - rewrite integer_value_of_integer. unfold Qfloor. do 2 f_equal.
    apply Z.leb_gt in E. rewrite Z2Pos.id; [reflexivity |].
    apply Z.pow_pos_nonneg; lia.
Qed.

(** ** Whole amounts are converted exactly *)

Lemma digits2_bounds (p : positive) :
  2 ^ (Zpos (digits2_pos p) - 1) <= Zpos p < 2 ^ Zpos (digits2_pos p).
Proof.
  induction p as [p IH | p IH |]; cbn [digits2_pos].
  - rewrite Pos2Z.inj_succ.
    replace (Z.succ (Zpos (digits2_pos p)) - 1) with (Z.succ (Zpos (digits2_pos p) - 1)) by lia.
    rewrite !Z.pow_succ_r by lia. lia.
  - rewrite Pos2Z.inj_succ.
    replace (Z.succ (Zpos (digits2_pos p)) - 1) with (Z.succ (Zpos (digits2_pos p) - 1)) by lia.
    rewrite !Z.pow_succ_r by lia. lia.
  - simpl. lia.
Qed.

Lemma digits2_unique (p : positive) (k : Z) :
  2 ^ (k - 1) <= Zpos p < 2 ^ k -> Zpos (digits2_pos p) = k.
Proof.
  intros [Hlo Hhi]. pose proof (digits2_bounds p) as [Blo Bhi].
  set (d := Zpos (digits2_pos p)) in *.
  assert (Hk : 0 < k).
  { destruct (Z_lt_le_dec 0 k) as [H | H]; [exact H |].
    assert (2 ^ k <= 1).
    { destruct (Z.eq_dec k 0) as [-> | Hn]; [simpl; lia |].
      rewrite Z.pow_neg_r by lia. lia. }
    lia. }
  destruct (Z_lt_le_dec d k) as [H | H].
  - assert (2 ^ d <= 2 ^ (k - 1)) by (apply Z.pow_le_mono_r; lia). lia.
  - destruct (Z_lt_le_dec k d) as [H' | H']; [| lia].
    assert (2 ^ k <= 2 ^ (d - 1)) by (apply Z.pow_le_mono_r; lia). lia.
Qed.

Lemma digits2_shift (p : positive) (k : Z) :
  0 <= k ->
  Zpos (digits2_pos (Z.to_pos (Zpos p * 2 ^ k))) = Zpos (digits2_pos p) + k.
Proof.
  intros Hk. apply digits2_unique.
  assert (Hpow : 0 < 2 ^ k) by (apply Z.pow_pos_nonneg; lia).
  rewrite Z2Pos.id by lia.
  pose proof (digits2_bounds p) as [Blo Bhi].
  replace (Zpos (digits2_pos p) + k - 1) with ((Zpos (digits2_pos p) - 1) + k) by lia.
  rewrite !Z.pow_add_r by lia. nia.
Qed.

(** Shifting out [p] zero bits loses nothing. *)
Lemma shr_zeros (p : positive) (z : Z) :
  0 <= z ->
  SpecFloat.iter_pos shr_1 p (Build_shr_record (z * 2 ^ Zpos p) false false)
  = Build_shr_record z false false.
Proof.
  assert (Hone : forall y, 0 <= y ->
             shr_1 (Build_shr_record (y * 2) false false) = Build_shr_record y false false).
  { intros y Hy. destruct y as [| q | q]; [reflexivity | | lia].
    replace (Zpos q * 2) with (Zpos (xO q)) by lia. reflexivity. }
  revert z. induction p as [p IH | p IH |]; intros z Hz; cbn [SpecFloat.iter_pos].
  - assert (E : 2 ^ Zpos p~1 = 2 ^ Zpos p * 2 ^ Zpos p * 2).
    { replace (Zpos p~1) with (Zpos p + Zpos p + 1) by lia.
      rewrite !Z.pow_add_r by lia. reflexivity. }
    replace (z * 2 ^ Zpos p~1) with ((z * 2 ^ Zpos p * 2 ^ Zpos p) * 2)
      by (rewrite E; ring).
    rewrite Hone by (apply Z.mul_nonneg_nonneg; [apply Z.mul_nonneg_nonneg |]; lia).
    rewrite IH by (apply Z.mul_nonneg_nonneg; lia). now apply IH.
  - assert (E : 2 ^ Zpos p~0 = 2 ^ Zpos p * 2 ^ Zpos p).
    { rewrite <- Z.pow_add_r by lia. f_equal. lia. }
    replace (z * 2 ^ Zpos p~0) with (z * 2 ^ Zpos p * 2 ^ Zpos p) by (rewrite E; ring).
    rewrite IH by (apply Z.mul_nonneg_nonneg; lia). now apply IH.
  - change (2 ^ 1) with 2. now apply Hone.
Qed.

(** A 53-bit mantissa followed by [k] zero bits is brought back to the
    mantissa, exactly. *)
Lemma shr_fexp_exact (M : positive) (k e0 : Z) :
  Zpos (digits2_pos M) = 53 ->
  0 <= k ->
  -1074 <= e0 ->
  shr_fexp Num.prec Num.emax (Zpos M * 2 ^ k) (e0 - k) loc_Exact
  = (Build_shr_record (Zpos M) false false, e0).
Proof.
  intros Hd Hk He.
  assert (Hpow : 0 < 2 ^ k) by (apply Z.pow_pos_nonneg; lia).
  unfold shr_fexp, shr_record_of_loc.
  assert (Hdig : Zdigits2 (Zpos M * 2 ^ k) = 53 + k).
  { rewrite <- (Z2Pos.id (Zpos M * 2 ^ k)) by lia. cbn [Zdigits2].
    rewrite digits2_shift by lia. lia. }
  rewrite Hdig.
  assert (Hf : fexp Num.prec Num.emax (53 + k + (e0 - k)) - (e0 - k) = k).
  { unfold fexp, emin, Num.prec, Num.emax. lia. }
  rewrite Hf. unfold shr. destruct k as [| pk | pk]; [| | lia].
  - f_equal; [f_equal |]; lia.
  - rewrite shr_zeros by lia. f_equal. lia.
Qed.

Lemma round_exact (s : bool) (M : positive) (k e0 : Z) :
  Zpos (digits2_pos M) = 53 ->
  0 <= k ->
  -1074 <= e0 <= 971 ->
  binary_round_aux Num.prec Num.emax s (Zpos M * 2 ^ k) (e0 - k) loc_Exact
  = S754_finite s M e0.
Proof.
  intros Hd Hk He. unfold binary_round_aux.
  rewrite shr_fexp_exact by lia.
  cbn [shr_m loc_of_shr_record round_nearest_even].
  pose proof (shr_fexp_exact M 0 e0 Hd (Z.le_refl 0) (proj1 He)) as H0.
  replace (Zpos M * 2 ^ 0) with (Zpos M) in H0 by lia.
  replace (e0 - 0) with e0 in H0 by lia.
  rewrite H0. cbn [shr_m].
  assert (Hle : (e0 <=? Num.emax - Num.prec) = true)
    by (apply Z.leb_le; unfold Num.emax, Num.prec; lia).
  now rewrite Hle.
Qed.

(** The 53-bit mantissa of a positive integer of at most 53 bits. *)
Definition mantissa53 (n : positive) : positive :=
  Z.to_pos (Zpos n * 2 ^ (53 - Zpos (digits2_pos n))).

Lemma mantissa53_digits (n : positive) :
  Zpos (digits2_pos n) <= 53 -> Zpos (digits2_pos (mantissa53 n)) = 53.
Proof.
  intros H. unfold mantissa53. rewrite digits2_shift by lia. lia.
Qed.

Lemma mantissa53_value (n : positive) :
  Zpos (digits2_pos n) <= 53 ->
  Zpos (mantissa53 n) = Zpos n * 2 ^ (53 - Zpos (digits2_pos n)).
Proof.
  intros H. unfold mantissa53. rewrite Z2Pos.id; [reflexivity |].
  assert (0 < 2 ^ (53 - Zpos (digits2_pos n))) by (apply Z.pow_pos_nonneg; lia). lia.
Qed.

(** A whole number of at most 53 bits, written in decimal, is read
    exactly. *)
Lemma of_decimal_whole (n : positive) :
  Zpos (digits2_pos n) <= 53 ->
  Num.of_decimal false (Zpos n) 0
  = S754_finite false (mantissa53 n) (Zpos (digits2_pos n) - 53).
Proof.
  intros Hd. pose proof (Pos2Z.is_pos (digits2_pos n)) as Hpos.
  unfold Num.of_decimal. cbn [Z.leb Z.compare].
  change (Z.to_pos (10 ^ 0)) with 1%positive. rewrite Pos.mul_1_r.
  unfold Num.round_ratio, SFdiv_core_binary. cbn [Zdigits2 digits2_pos].
  set (d := Zpos (digits2_pos n)) in *.
  assert (He : Z.min (fexp Num.prec Num.emax (d + 0 - (1 + 0))) (0 - 0) = d - 54).
  { unfold fexp, emin, Num.prec, Num.emax. lia. }
  rewrite He.
  replace (0 - 0 - (d - 54)) with (54 - d) by lia.
  destruct (54 - d) as [| ps | ps] eqn:Es; try lia.
  rewrite Z.shiftl_mul_pow2 by lia.
  destruct (Z.div_eucl (Zpos n * 2 ^ Zpos ps) 1) as [q r] eqn:Ediv.
  assert (Hq : q = Zpos n * 2 ^ Zpos ps).
  { pose proof (Z.div_1_r (Zpos n * 2 ^ Zpos ps)) as H. unfold Z.div in H.
    now rewrite Ediv in H. }
  assert (Hr : r = 0).
  { pose proof (Z.mod_1_r (Zpos n * 2 ^ Zpos ps)) as H. unfold Z.modulo in H.
    now rewrite Ediv in H. }
  subst q r. change (new_location 1 0) with loc_Exact.
  replace (Zpos n * 2 ^ Zpos ps) with (Zpos (mantissa53 n) * 2 ^ 1).
  - replace (d - 54) with ((d - 53) - 1) by lia.
    apply round_exact; [now apply mantissa53_digits | lia | lia].
  - rewrite mantissa53_value by exact Hd. fold d.
    replace (Zpos ps) with ((53 - d) + 1) by lia.
    rewrite Z.pow_add_r by lia. ring.
Qed.

Lemma lit_1e9_value : Num.lit_1e9 = S754_finite false 8388608000000000 (-23).
Proof.
  vm_compute. reflexivity.
Qed.

Lemma digits2_mono (n m : positive) :
  (n <= m)%positive -> Zpos (digits2_pos n) <= Zpos (digits2_pos m).
Proof.
  intros H. pose proof (digits2_bounds n) as [Ln Hn].
  pose proof (digits2_bounds m) as [Lm Hm].
  destruct (Z_lt_le_dec (Zpos (digits2_pos m)) (Zpos (digits2_pos n))) as [Hlt | Hle];
    [| exact Hle].
  assert (2 ^ Zpos (digits2_pos m) <= 2 ^ (Zpos (digits2_pos n) - 1))
    by (apply Z.pow_le_mono_r; lia).
  lia.
Qed.

(** The product of a whole number with [1e9] is exact as long as it has
    at most 53 bits. *)
Lemma mul_1e9_whole (n : positive) :
  Zpos (digits2_pos (n * 1000000000)) <= 53 ->
  Num.mul (S754_finite false (mantissa53 n) (Zpos (digits2_pos n) - 53)) Num.lit_1e9
  = S754_finite false (mantissa53 (n * 1000000000))
      (Zpos (digits2_pos (n * 1000000000)) - 53).
Proof.
  intros HN. rewrite lit_1e9_value. unfold Num.mul, SFmul. cbn [xorb].
  assert (Hmono : Zpos (digits2_pos n) <= Zpos (digits2_pos (n * 1000000000)))
    by (apply digits2_mono; lia).
  set (dn := Zpos (digits2_pos n)) in *.
  set (dN := Zpos (digits2_pos (n * 1000000000))) in *.
  assert (Hdn : dn <= 53) by lia.
  assert (Hdn0 : 0 < dn) by (subst dn; lia).
  replace (Zpos (mantissa53 n * 8388608000000000))
    with (Zpos (mantissa53 (n * 1000000000)) * 2 ^ (23 + dN - dn)).
  - replace (dn - 53 + -23) with ((dN - 53) - (23 + dN - dn)) by lia.
    apply round_exact; [now apply mantissa53_digits | lia | lia].
  - rewrite Pos2Z.inj_mul, !mantissa53_value by assumption. fold dn dN.
    rewrite Pos2Z.inj_mul.
    replace (23 + dN - dn) with ((53 - dn) + 23 - (53 - dN)) by lia.
    assert (E : 2 ^ (53 - dn + 23) = 2 ^ (53 - dN) * 2 ^ (53 - dn + 23 - (53 - dN))).
    { rewrite <- Z.pow_add_r by lia. f_equal. lia. }
    rewrite Z.pow_add_r in E by lia.
    change (2 ^ 23) with 8388608 in E.
    change 8388608000000000 with (1000000000 * 8388608).
    nia.
Qed.

Lemma span_digits_all (d : string) :
  digits_only d = true -> Str.span_digits d = (d, "").
Proof.
  induction d as [| c d IH]; simpl; [reflexivity |].
  intros H. apply andb_true_iff in H as [Hc Hd]. now rewrite Hc, (IH Hd).
Qed.

Lemma trim_start_digit (c : ascii) (r : string) :
  Str.is_digit c = true -> JS.trim_start (String c r) = String c r.
Proof.
  unfold Str.is_digit. intros H. apply andb_true_iff in H as [Hlo Hhi].
  apply Z.leb_le in Hlo, Hhi. cbn [JS.trim_start].
  assert (H1 : JS.is_space1 (Str.code c) = false).
  { unfold JS.is_space1. apply orb_false_iff. split.
    - apply andb_false_iff. right. apply Z.leb_gt. lia.
    - apply Z.eqb_neq. lia. }
  rewrite H1. destruct r as [| b r2]; [reflexivity |].
  assert (H2 : JS.is_space2 (Str.code c) (Str.code b) = false).
  { unfold JS.is_space2. apply andb_false_iff. left. apply Z.eqb_neq. lia. }
  rewrite H2. destruct r2 as [| c3 r3]; [reflexivity |].
  assert (H3 : JS.is_space3 (Str.code c) (Str.code b) (Str.code c3) = false).
  { unfold JS.is_space3.
    assert (E1 : (Str.code c =? 225) = false) by (apply Z.eqb_neq; lia).
    assert (E2 : (Str.code c =? 226) = false) by (apply Z.eqb_neq; lia).
    assert (E3 : (Str.code c =? 227) = false) by (apply Z.eqb_neq; lia).
    assert (E4 : (Str.code c =? 239) = false) by (apply Z.eqb_neq; lia).
    now rewrite E1, E2, E3, E4. }
  now rewrite H3.
Qed.

(** [parseFloat] on a run of decimal digits reads the number they write. *)
Lemma parseFloat_digits (d : string) :
  d <> "" -> digits_only d = true ->
  JS.parseFloat_string d = Num.of_decimal false (Str.digits_value d) 0.
Proof.
  intros Hne Hd. destruct d as [| c r]; [congruence |].
  pose proof Hd as Hall. cbn [digits_only] in Hd.
  apply andb_true_iff in Hd as [Hc _].
  unfold JS.parseFloat_string. rewrite (trim_start_digit c r Hc).
  pose proof Hc as Hc'. unfold Str.is_digit in Hc'.
  apply andb_true_iff in Hc' as [Hlo Hhi]. apply Z.leb_le in Hlo, Hhi.
  assert (E45 : (Str.code c =? 45) = false) by (apply Z.eqb_neq; lia).
  assert (E43 : (Str.code c =? 43) = false) by (apply Z.eqb_neq; lia).
  rewrite E45, E43.
  assert (EI : Str.startsWith (String c r) "Infinity" = false).
  { cbn [Str.startsWith]. apply andb_false_iff. left.
    apply Ascii.eqb_neq. intros <-. vm_compute in Hhi. now apply Hhi. }
  rewrite EI. unfold JS.unsigned_decimal.
  rewrite (span_digits_all _ Hall). rewrite append_empty_r.
  reflexivity.
Qed.

Lemma digits_value_from_nonneg (d : string) (acc : Z) :
  digits_only d = true -> 0 <= acc -> 0 <= Str.digits_value_from acc d.
Proof.
  revert acc. induction d as [| c d IH]; intros acc Hd Hacc;
    cbn [Str.digits_value_from]; [exact Hacc |].
  cbn [digits_only] in Hd. apply andb_true_iff in Hd as [Hc Hd].
  unfold Str.is_digit in Hc. apply andb_true_iff in Hc as [Hlo _]. apply Z.leb_le in Hlo.
  apply IH; [exact Hd |]. unfold Str.digit_value. lia.
Qed.

(** An amount written as a whole number is converted exactly, as long as
    the result stays below [2^53]. *)
Lemma toTokenAmount_whole (W : World) (d : string) :
  d <> "" -> digits_only d = true ->
  Str.digits_value d * 10 ^ 9 < 2 ^ 53 ->
  Server.toTokenAmount W (JStr d) = Ok (Str.digits_value d * 10 ^ 9).
Proof.
  intros Hne Hd Hlt. unfold Server.toTokenAmount, JS.parseFloat.
  cbn [JS.ToString bindR]. rewrite (parseFloat_digits d Hne Hd).
  destruct (Str.digits_value d) as [| n | n] eqn:En.
  - reflexivity.
  - assert (HN : Zpos (digits2_pos (n * 1000000000)) <= 53).
    { pose proof (digits2_bounds (n * 1000000000)) as [Lo _].
      destruct (Z_lt_le_dec 53 (Zpos (digits2_pos (n * 1000000000)))) as [Hgt | Hle];
        [| exact Hle].
      assert (2 ^ 53 <= 2 ^ (Zpos (digits2_pos (n * 1000000000)) - 1))
        by (apply Z.pow_le_mono_r; lia).
      change (10 ^ 9) with 1000000000 in Hlt. lia. }
    assert (Hn : Zpos (digits2_pos n) <= 53).
    { pose proof (digits2_mono n (n * 1000000000)). lia. }
    rewrite (of_decimal_whole n Hn), (mul_1e9_whole n HN), BigInt_floor.
    unfold Num.to_Q. cbn [Num.signed].
    set (dN := Zpos (digits2_pos (n * 1000000000))) in *.
    rewrite (mantissa53_value _ HN). fold dN.
    change (10 ^ 9) with 1000000000.
    destruct (0 <=? dN - 53) eqn:E.
    + apply Z.leb_le in E. assert (dN = 53) as -> by lia.
      rewrite Qfloor_Z. f_equal. simpl (53 - 53). lia.
    + unfold Qfloor. f_equal.
      replace (- (dN - 53)) with (53 - dN) by lia.
      rewrite Z2Pos.id by (apply Z.pow_pos_nonneg; lia).
      rewrite Z.div_mul; [lia |].
      assert (0 < 2 ^ (53 - dN)) by (apply Z.pow_pos_nonneg; lia). lia.
  - pose proof (digits_value_from_nonneg d 0 Hd (Z.le_refl 0)) as H.
    unfold Str.digits_value in En. lia.
Qed.

(** ** Facts about [JSON.parse] *)

Section ParserFacts.

Import JS.

Lemma skip_ws_length (s : string) : (String.length (skip_ws s) <= String.length s)%nat.
Proof.
  induction s as [| c s IH]; simpl; [lia |].
  destruct (is_json_space c); simpl; lia.
Qed.

Lemma span_digits_length (s d r : string) :
  Str.span_digits s = (d, r) -> (String.length r <= String.length s)%nat.
Proof.
  revert d r; induction s as [| c s IH]; simpl; intros d r H.
  - injection H as <- <-. simpl. lia.
  - destruct (Str.is_digit c).
    + destruct (Str.span_digits s) as [d' r'] eqn:E. injection H as <- <-.
      specialize (IH d' r' eq_refl). lia.
    + injection H as <- <-. simpl. lia.
Qed.

Lemma span_digits_nonempty (s d r : string) :
  Str.span_digits s = (d, r) -> d <> "" -> (String.length r < String.length s)%nat.
Proof.
  destruct s as [| c s]; simpl; intros H Hd.
  - injection H as <- <-. congruence.
  - destruct (Str.is_digit c).
    + destruct (Str.span_digits s) as [d' r'] eqn:E. injection H as <- <-.
      apply span_digits_length in E. lia.
    + injection H as <- <-. congruence.
Qed.

Lemma exponent_part_length (s r : string) (x : Z) :
  exponent_part s = Some (x, r) -> (String.length r < String.length s)%nat.
Proof.
  unfold exponent_part. destruct s as [| c s]; [discriminate |].
  destruct ((Str.code c =? 101)%Z || (Str.code c =? 69)%Z); [| discriminate].
  assert (H : forall (neg : bool) (r1 : string),
             (String.length r1 <= String.length s)%nat ->
             (let '(x0, r2) := Str.span_digits r1 in
              match x0 with
              | "" => None
              | String _ _ => Some (Num.signed neg (Str.digits_value x0), r2)
              end) = Some (x, r) -> (String.length r < String.length (String c s))%nat).
  { intros neg r1 Hr1. destruct (Str.span_digits r1) as [x0 r2] eqn:E.
    destruct x0; [discriminate |]. intros H; injection H as _ <-.
    apply span_digits_length in E. simpl. lia. }
  destruct s as [| sg s'].
  - apply H. lia.
  - destruct (Str.code sg =? 45)%Z; [apply H; simpl; lia |].
    destruct (Str.code sg =? 43)%Z; apply H; simpl; lia.
Qed.

Lemma json_number_length (s r : string) (x : Num.number) :
  json_number s = Some (x, r) -> (String.length r < String.length s)%nat.
Proof.
  unfold json_number.
  set (p := match s with
            | "" => (false, s)
            | String c r0 => if (Str.code c =? 45)%Z then (true, r0) else (false, s)
            end).
  assert (Hp : (String.length (snd p) <= String.length s)%nat).
  { subst p. destruct s as [| c s']; simpl; [lia |].
    destruct (Str.code c =? 45)%Z; simpl; lia. }
  destruct p as [neg s1]. simpl in Hp.
  destruct (Str.span_digits s1) as [i r1] eqn:Ei.
  destruct i as [| d0 more]; [discriminate |].
  assert (Hr1 : (String.length r1 < String.length s1)%nat)
    by (apply (span_digits_nonempty _ _ _ Ei); discriminate).
  destruct ((Str.code d0 =? 48)%Z && negb (more =? "")%string); [discriminate |].
  set (frac := match r1 with
               | "" => Some ("", r1)
               | String c r0 =>
                   if (Str.code c =? 46)%Z
                   then let '(f, r2) := Str.span_digits r0 in
                        match f with
                        | "" => None
                        | String _ _ => Some (f, r2)
                        end
                   else Some ("", r1)
               end).
  assert (Hf : forall f r2, frac = Some (f, r2) ->
                            (String.length r2 <= String.length r1)%nat).
  { subst frac. intros f r2. destruct r1 as [| c r0].
    - intros H; injection H as <- <-. lia.
    - destruct (Str.code c =? 46)%Z.
      + destruct (Str.span_digits r0) as [f' r2'] eqn:Ef.
        destruct f'; [discriminate |]. intros H; injection H as <- <-.
        apply span_digits_length in Ef. simpl. lia.
      + intros H; injection H as <- <-. lia. }
  destruct frac as [[f r2] |]; [| discriminate].
  specialize (Hf f r2 eq_refl).
  destruct r2 as [| c r2'].
  - intros H; injection H as _ <-. simpl in *. lia.
  - destruct ((Str.code c =? 101)%Z || (Str.code c =? 69)%Z).
    + destruct (exponent_part (String c r2')) as [[x' r3] |] eqn:Ee; [| discriminate].
      intros H; injection H as _ <-. apply exponent_part_length in Ee. lia.
    + intros H; injection H as _ <-. lia.
Qed.

Lemma string_body_length (s t r : string) :
  string_body s = Some (t, r) -> (String.length r < String.length s)%nat.
Proof.
  assert (Hle : (String.length s <= String.length s)%nat) by lia.
  revert Hle. generalize (String.length s) at 2. intros n.
  revert s t r. induction n as [| n IH]; intros s t r Hle.
  - destruct s; [discriminate | cbn [String.length] in Hle; lia].
  - assert (Hrec : forall (s' t' r' : string) (u : string -> string),
               (String.length s' <= n)%nat ->
               (String.length s' < String.length s)%nat ->
               match string_body s' with
               | Some (t0, rest) => Some (u t0, rest)
               | None => None
               end = Some (t', r') ->
               (String.length r' < String.length s)%nat).
    { intros s' t' r' u Hn' Hs'.
      destruct (string_body s') as [[t0 rest] |] eqn:E; [| discriminate].
      intros H. assert (r' = rest) as -> by congruence.
      apply IH in E; [lia | exact Hn']. }
    destruct s as [| c s1]; [discriminate |]. cbn [String.length] in *.
    cbn [string_body].
    destruct (Str.code c =? 34)%Z.
    { intros H. assert (r = s1) as -> by congruence. lia. }
    destruct (Str.code c <? 32)%Z; [discriminate |].
    destruct (Str.code c =? 92)%Z.
    + destruct s1 as [| e s2]; [discriminate |]. cbn [String.length] in *.
      destruct (Str.code e =? 117)%Z.
      * destruct s2 as [| a [| b [| c' [| d s6]]]]; try discriminate.
        cbn [String.length] in *.
        destruct (hex4 a b c' d) as [cu |]; [| discriminate].
        destruct (if (55296 <=? cu)%Z && (cu <=? 56319)%Z then low_surrogate s6 else None)
          as [lo |].
        -- destruct s6 as [| x1 [| x2 [| x3 [| x4 [| x5 [| x6 s12]]]]]];
             apply Hrec; cbn [String.length] in *; lia.
        -- apply Hrec; cbn [String.length] in *; lia.
      * destruct (simple_escape e) as [x |]; [| discriminate].
        apply (Hrec s2 t r (String x)); cbn [String.length] in *; lia.
    + apply (Hrec s1 t r (String c)); cbn [String.length] in *; lia.
Qed.

Lemma length_append (a b : string) :
  String.length (a ++ b) = (String.length a + String.length b)%nat.
Proof.
  induction a as [| c a IH]; simpl; [reflexivity | now rewrite IH].
Qed.

Lemma drop_prefix_length (s p : string) :
  Str.startsWith s p = true ->
  (String.length (Str.drop (String.length p) s) + String.length p = String.length s)%nat.
Proof.
  intros H. apply startsWith_spec in H as [t ->].
  rewrite drop_append, length_append. lia.
Qed.

Ltac skip_ws_tac s Es :=
  let H := fresh "Hws" in
  pose proof (skip_ws_length s) as H; rewrite Es in H; simpl in H.

Lemma parse_shorter (n : nat) :
  (forall s v r, parse_value n s = Parsed v r ->
                 (String.length r < String.length s)%nat)
  /\ (forall s acc v r, parse_elements n s acc = Parsed v r ->
                        (String.length r < String.length s)%nat)
  /\ (forall s acc v r, parse_members n s acc = Parsed v r ->
                        (String.length r < String.length s)%nat).
Proof.
  induction n as [| f (IHv & IHe & IHm)]; [repeat split; discriminate |].
  split; [| split].
  - intros s v r. cbn [parse_value].
    destruct (skip_ws s) as [| c r0] eqn:Es; [discriminate |]. skip_ws_tac s Es.
    destruct (Str.code c =? 123)%Z.
    { destruct (skip_ws r0) as [| c' r'] eqn:Er; [discriminate |]. skip_ws_tac r0 Er.
      destruct (Str.code c' =? 125)%Z.
      - intros H; injection H as _ <-. lia.
      - intros H. apply IHm in H. lia. }
    destruct (Str.code c =? 91)%Z.
    { destruct (skip_ws r0) as [| c' r'] eqn:Er; [discriminate |]. skip_ws_tac r0 Er.
      destruct (Str.code c' =? 93)%Z.
      - intros H; injection H as _ <-. lia.
      - intros H. apply IHe in H. lia. }
    destruct (Str.code c =? 34)%Z.
    { destruct (string_body r0) as [[t rest] |] eqn:Eb; [| discriminate].
      intros H; injection H as _ <-. apply string_body_length in Eb. lia. }
    destruct (Str.startsWith (String c r0) "true") eqn:Et.
    { intros H. assert (r = Str.drop 4 (String c r0)) as -> by congruence.
      apply drop_prefix_length in Et. cbn [String.length] in Et. lia. }
    destruct (Str.startsWith (String c r0) "false") eqn:Ef.
    { intros H. assert (r = Str.drop 5 (String c r0)) as -> by congruence.
      apply drop_prefix_length in Ef. cbn [String.length] in Ef. lia. }
    destruct (Str.startsWith (String c r0) "null") eqn:En.
    { intros H. assert (r = Str.drop 4 (String c r0)) as -> by congruence.
      apply drop_prefix_length in En. cbn [String.length] in En. lia. }
    destruct (json_number (String c r0)) as [[x rest] |] eqn:Ej; [| discriminate].
    intros H; injection H as _ <-. apply json_number_length in Ej. simpl in *. lia.
  - intros s acc v r. cbn [parse_elements].
    destruct (parse_value f s) as [v0 r0 | |] eqn:Ev; try discriminate.
    apply IHv in Ev.
    destruct (skip_ws r0) as [| c r'] eqn:Er; [discriminate |]. skip_ws_tac r0 Er.
    destruct (Str.code c =? 44)%Z.
    + intros H. apply IHe in H. lia.
    + destruct (Str.code c =? 93)%Z; [| discriminate].
      intros H; injection H as _ <-. lia.
  - intros s acc v r. cbn [parse_members].
    destruct (skip_ws s) as [| q r0] eqn:Es; [discriminate |]. skip_ws_tac s Es.
    destruct (Str.code q =? 34)%Z; [| discriminate].
    destruct (string_body r0) as [[k r1] |] eqn:Eb; [| discriminate].
    apply string_body_length in Eb.
    destruct (skip_ws r1) as [| c r2] eqn:Er1; [discriminate |]. skip_ws_tac r1 Er1.
    destruct (Str.code c =? 58)%Z; [| discriminate].
    destruct (parse_value f r2) as [v0 r3 | |] eqn:Ev; try discriminate.
    apply IHv in Ev.
    destruct (skip_ws r3) as [| c' r4] eqn:Er3; [discriminate |]. skip_ws_tac r3 Er3.
    destruct (Str.code c' =? 44)%Z.
    + intros H. apply IHm in H. lia.
    + destruct (Str.code c' =? 125)%Z; [| discriminate].
      intros H; injection H as _ <-. lia.
Qed.

Lemma parse_fuel (n : nat) :
  (forall s, (2 * String.length s + 1 <= n)%nat -> parse_value n s <> OutOfFuel)
  /\ (forall s acc, (2 * String.length s + 2 <= n)%nat ->
                    parse_elements n s acc <> OutOfFuel)
  /\ (forall s acc, (2 * String.length s + 2 <= n)%nat ->
                    parse_members n s acc <> OutOfFuel).
Proof.
  induction n as [| f (IHv & IHe & IHm)]; [repeat split; intros; lia |].
  destruct (parse_shorter f) as (Sv & Se & Sm).
  split; [| split].
  - intros s Hn. cbn [parse_value].
    destruct (skip_ws s) as [| c r0] eqn:Es; [discriminate |]. skip_ws_tac s Es.
    destruct (Str.code c =? 123)%Z.
    { destruct (skip_ws r0) as [| c' r'] eqn:Er; [discriminate |].
      destruct (Str.code c' =? 125)%Z; [discriminate |]. apply IHm. lia. }
    destruct (Str.code c =? 91)%Z.
    { destruct (skip_ws r0) as [| c' r'] eqn:Er; [discriminate |].
      destruct (Str.code c' =? 93)%Z; [discriminate |]. apply IHe. lia. }
    destruct (Str.code c =? 34)%Z.
    { destruct (string_body r0) as [[t rest] |]; discriminate. }
    destruct (Str.startsWith (String c r0) "true"); [discriminate |].
    destruct (Str.startsWith (String c r0) "false"); [discriminate |].
    destruct (Str.startsWith (String c r0) "null"); [discriminate |].
    destruct (json_number (String c r0)) as [[x rest] |]; discriminate.
  - intros s acc Hn. cbn [parse_elements].
    destruct (parse_value f s) as [v0 r0 | |] eqn:Ev; [| discriminate |].
    + apply Sv in Ev.
      destruct (skip_ws r0) as [| c r'] eqn:Er; [discriminate |]. skip_ws_tac r0 Er.
      destruct (Str.code c =? 44)%Z; [apply IHe; lia |].
      destruct (Str.code c =? 93)%Z; discriminate.
    + exfalso. revert Ev. apply IHv. lia.
  - intros s acc Hn. cbn [parse_members].
    destruct (skip_ws s) as [| q r0] eqn:Es; [discriminate |]. skip_ws_tac s Es.
    destruct (Str.code q =? 34)%Z; [| discriminate].
    destruct (string_body r0) as [[k r1] |] eqn:Eb; [| discriminate].
    apply string_body_length in Eb.
    destruct (skip_ws r1) as [| c r2] eqn:Er1; [discriminate |]. skip_ws_tac r1 Er1.
    destruct (Str.code c =? 58)%Z; [| discriminate].
    destruct (parse_value f r2) as [v0 r3 | |] eqn:Ev; [| discriminate |].
    + apply Sv in Ev.
      destruct (skip_ws r3) as [| c' r4] eqn:Er3; [discriminate |]. skip_ws_tac r3 Er3.
      destruct (Str.code c' =? 44)%Z; [apply IHm; lia |].
      destruct (Str.code c' =? 125)%Z; discriminate.
    + exfalso. revert Ev. apply IHv. lia.
Qed.

(** [JSON_parse] gives its parser fuel enough: when it throws, the text is
    not JSON. *)
Lemma JSON_parse_fuel (text : string) :
  parse_value (2 * String.length text + 2) text <> OutOfFuel.
Proof.
  apply (parse_fuel (2 * String.length text + 2)). lia.
Qed.

End ParserFacts.

(** ** Facts about the handlers *)

Section HandlerFacts.

Import Server.

Variable W : World.

Lemma broadcast_trace (m : Message) (st : State) :
  trace (snd (broadcastMessage m st)) = trace st.
Proof.
  unfold broadcastMessage. now destruct (wss st).
Qed.

Lemma get_defined (base : value) (k k' : string) (v : value) :
  JS.get base k = Ok v -> exists v', JS.get base k' = Ok v'.
Proof.
  destruct base; simpl; intros H; try discriminate; eauto.
Qed.

(** Every value that is neither an array nor an object can be written as a
    string. *)
Lemma ToString_primitive (v : value) :
  (forall items, v <> JArr items) ->
  (forall members, v <> JObj members) ->
  exists text, JS.ToString W v = Ok text.
Proof.
  intros Harr Hobj.
  destruct v as [| | [|] | x | s | items | members]; cbn [JS.ToString];
    try (eexists; reflexivity).
  - now destruct (Harr items).
  - now destruct (Hobj members).
Qed.

(** Extraction calls the verifier once and nothing else. *)
Lemma extract_trace (p : Platform) (proof : value) (st st' : State) (r : Result Extracted) :
  extract W p proof st = (r, st') ->
  st' = mkState (wss st) (trace st ++ [Verify proof]).
Proof.
  destruct p; simpl;
    unfold getDataFromAmazon, getDataFromFlipkart, call_verifyProof, bind, lift, emit, throw, ret;
    simpl;
    destruct (verifyProof W proof) as [[|] |]; simpl;
    repeat match goal with
           | |- context [match ?x with Ok _ => _ | Throw _ => _ end] => destruct x; simpl
           end;
    intros H; now inversion H.
Qed.

(** A proof the verifier turns down is never extracted. *)
Lemma extract_rejected (p : Platform) (proof : value) (st : State) :
  verifyProof W proof = Ok false ->
  extract W p proof st =
  (Throw (Error_ "Invalid proof"), mkState (wss st) (trace st ++ [Verify proof])).
Proof.
  intros H. destruct p; simpl;
    unfold getDataFromAmazon, getDataFromFlipkart, call_verifyProof, bind, lift, emit, throw;
    simpl; now rewrite H.
Qed.

(** How classification depends on the request URL when it is a string. *)
Lemma determine_platform_string (proof : value) (u : string) :
  request_url W proof = Ok (JStr u) ->
  determine_platform W proof =
  Ok (if Str.includes u "amazon" then Some amazon
      else if Str.includes u "flipkart" then Some flipkart
      else None).
Proof.
  intros H. unfold determine_platform. rewrite H. simpl.
  destruct (Str.includes u "amazon"); [reflexivity |].
  now destruct (Str.includes u "flipkart").
Qed.

(** What [getDataFromAmazon] does for a proof the verifier accepts and
    whose balance is a string: it returns, unless the address cannot be
    written into the log line. *)
Lemma getDataFromAmazon_accepted
    (proof contextData parameters recipient : value) (balance : string) (st : State) :
  verifyProof W proof = Ok true ->
  context_of W proof = Ok contextData ->
  JS.get contextData "extractedParameters" = Ok parameters ->
  JS.get parameters "balance" = Ok (JStr balance) ->
  JS.get contextData "contextMessage" = Ok recipient ->
  getDataFromAmazon W proof st =
  (match JS.ToString W recipient with
   | Ok _ => Ok (mkExtracted (JStr (Str.replace balance "&#x20b9;" "")) recipient amazon)
   | Throw e => Throw e
   end,
   mkState (wss st) (trace st ++ [Verify proof])).
Proof.
  intros Hv Hc Hp Hb Hr.
  unfold getDataFromAmazon, call_verifyProof, log, bind, lift, emit, ret.
  cbn [bindR]. rewrite Hv. cbn [negb]. rewrite Hc, Hp. cbn [bindR]. rewrite Hb.
  cbn [bindR JS.replace]. rewrite Hr.
  cbn [JS.interpolate JS.ToString bindR].
  now destruct (JS.ToString W recipient).
Qed.

(** What [transferReward] does to the state, and what it returns: it
    records its own call first, never calls the verifier, leaves the
    observers alone, and on success echoes [amount]. *)
Lemma transferReward_spec (amount recipient : value) (st : State) :
  exists d,
    trace (snd (transferReward W amount recipient st))
    = (trace st ++ TransferReward amount recipient :: d)%list
    /\ (forall proof, ~ In (Verify proof) d)
    /\ wss (snd (transferReward W amount recipient st)) = wss st
    /\ (forall result, fst (transferReward W amount recipient st) = Ok result ->
        exists signature,
          result = JObj [("success", JBool true);
                         ("signature", JStr signature);
                         ("transactionUrl",
                          JStr ("https://explorer.solana.com/tx/" ++ signature
                                ++ "?cluster=devnet"));
                         ("amount", amount)]).
Proof.
  unfold transferReward, bind, lift, emit, ret. simpl.
  repeat match goal with
         | |- context [match ?x with Ok _ => _ | Throw _ => _ end] => destruct x; simpl
         end;
    eexists; (split; [rewrite <- ?app_assoc; simpl; reflexivity |]);
    (split; [intros proof Hin; simpl in Hin; intuition discriminate |]);
    (split; [reflexivity |]); intros result Hres; try discriminate.
  injection Hres as <-. eexists. reflexivity.
Qed.

End HandlerFacts.

(** ** The claims *)

Import Server.

(** The counterexample to C1 as stated: the proof is an Amazon one, its
    balance is the rupee sign followed by 250, its context message is
    ADDR1 and the verifier accepts it; the transfer engine is invoked with
    the balance as it stands, glyph included, and not with "250", and the
    response is 500 because that amount is not a number. *)
Lemma glyph_balance_is_not_stripped :
  let W := Scenario.mock (Ok true) in
  let proof := Scenario.proof_of Scenario.body_amazon_glyph in
  let outcome := receive_proofs W Scenario.body_amazon_glyph Scenario.st0 in
  determine_platform W proof = Ok (Some amazon)
  /\ (context <~ context_of W proof ;;
      parameters <~ JS.get context "extractedParameters" ;;
      JS.get parameters "balance") = Ok (JStr "₹250")
  /\ (context <~ context_of W proof ;; JS.get context "contextMessage") = Ok (JStr "ADDR1")
  /\ In (TransferReward (JStr "₹250") (JStr "ADDR1")) (trace (snd outcome))
  /\ ~ In (TransferReward (JStr "250") (JStr "ADDR1")) (trace (snd outcome))
  /\ status (fst outcome) = 500
  /\ status (fst outcome) <> 200.
Proof.
  repeat split.
  - simpl. auto.
  - simpl. intros [H | [H | [H | H]]]; try discriminate H. exact H.
  - discriminate.
Qed.

(** C1, amended: for every Amazon proof whose balance is [&#x20b9;250],
    the rupee sign written as the HTML entity, and whose context message is
    ADDR1, when the verifier accepts the proof the handler invokes the
    transfer engine with the amount "250" and the address "ADDR1"; when
    that transfer succeeds the response is 200 and carries its result,
    whose amount is "250", and the success notice is broadcast; when it
    throws, the response is 500 with the error. *)
Theorem amazon_entity_scenario
    (W : World) (req_body decoded : string) (proof contextData parameters : value)
    (st : State) :
  JS.decodeURIComponent req_body = Ok decoded ->
  JS.JSON_parse decoded = Ok proof ->
  determine_platform W proof = Ok (Some amazon) ->
  verifyProof W proof = Ok true ->
  context_of W proof = Ok contextData ->
  JS.get contextData "extractedParameters" = Ok parameters ->
  JS.get parameters "balance" = Ok (JStr "&#x20b9;250") ->
  JS.get contextData "contextMessage" = Ok (JStr "ADDR1") ->
  let st1 := mkState (wss st) (trace st ++ [Verify proof]) in
  let transfer := transferReward W (JStr "250") (JStr "ADDR1") st1 in
  (exists d,
      trace (snd (receive_proofs W req_body st))
      = (trace st ++ Verify proof :: TransferReward (JStr "250") (JStr "ADDR1") :: d)%list
      /\ forall other, ~ In (Verify other) d)
  /\ (forall result,
         fst transfer = Ok result ->
         JS.get result "amount" = Ok (JStr "250")
         /\ exists transactionUrl notice,
              JS.get result "transactionUrl" = Ok transactionUrl
              /\ success_message W (JStr "250") (JStr "ADDR1") transactionUrl = Ok notice
              /\ receive_proofs W req_body st =
                 (mkResponse 200
                    (JObj [("success", JBool true);
                           ("message", JStr "Reward processed successfully");
                           ("transaction", result)]),
                  snd (broadcastMessage notice (snd transfer))))
  /\ (forall e,
         fst transfer = Throw e ->
         receive_proofs W req_body st =
         (mkResponse 500 (failure_body W e),
          snd (broadcastMessage (error_message W e) (snd transfer)))).
Proof.
  intros Hd Hp Hc Hv Hx Hpar Hb Hm st1 transfer.
  pose proof (getDataFromAmazon_accepted W proof contextData parameters (JStr "ADDR1")
                "&#x20b9;250" st Hv Hx Hpar Hb Hm) as Hget.
  change (Str.replace "&#x20b9;250" "&#x20b9;" "") with "250" in Hget.
  cbn [JS.ToString] in Hget.
  assert (Hrun : receive_proofs W req_body st =
                 match transfer with
                 | (Ok result, st2) =>
                     match (url <~ JS.get result "transactionUrl" ;;
                            success_message W (JStr "250") (JStr "ADDR1") url) with
                     | Ok notice =>
                         (mkResponse 200
                            (JObj [("success", JBool true);
                                   ("message", JStr "Reward processed successfully");
                                   ("transaction", result)]),
                          snd (broadcastMessage notice st2))
                     | Throw e =>
                         (mkResponse 500 (failure_body W e),
                          snd (broadcastMessage (error_message W e) st2))
                     end
                 | (Throw e, st2) =>
                     (mkResponse 500 (failure_body W e),
                      snd (broadcastMessage (error_message W e) st2))
                 end).
  { unfold receive_proofs, receive_proofs_try, bind, lift, ret.
    rewrite Hd, Hp, Hc. simpl extract. rewrite Hget. simpl.
    fold st1. fold transfer.
    destruct transfer as [[result | e] st2]; [| reflexivity].
    destruct (JS.get result "transactionUrl") as [url | e]; [| reflexivity].
    cbn [bindR].
    destruct (success_message W (JStr "250") (JStr "ADDR1") url) as [notice | e];
      [| reflexivity].
    unfold broadcastMessage. now destruct (wss st2). }
  destruct (transferReward_spec W (JStr "250") (JStr "ADDR1") st1)
    as (d & Htrace & Hnov & _ & Hres).
  fold transfer in Htrace, Hres.
  split; [| split].
  - exists d. split; [| exact Hnov]. rewrite Hrun.
    destruct transfer as [[result | e] st2]; simpl in *.
    + destruct (Hres result eq_refl) as [signature ->]. simpl.
      rewrite broadcast_trace, Htrace. unfold st1. simpl.
      now rewrite <- app_assoc.
    + rewrite broadcast_trace, Htrace. unfold st1. simpl. now rewrite <- app_assoc.
  - intros result Hok. rewrite Hrun.
    destruct transfer as [[result' | e] st2]; simpl in Hok; [| discriminate].
    injection Hok as ->. destruct (Hres result eq_refl) as [signature ->].
    split; [reflexivity |]. eexists _, _. repeat split; reflexivity.
  - intros e He. rewrite Hrun.
    destruct transfer as [[result | e'] st2]; simpl in He; [discriminate |].
    now injection He as ->.
Qed.

Lemma amazon_entity_scenario_witness :
  let W := Scenario.mock (Ok true) in
  let proof := Scenario.proof_of Scenario.body_amazon_entity in
  let st1 := mkState (wss Scenario.st0) [Verify proof] in
  let transfer := transferReward W (JStr "250") (JStr "ADDR1") st1 in
  exists result,
    fst transfer = Ok result
    /\ JS.get result "amount" = Ok (JStr "250")
    /\ exists transactionUrl notice,
         JS.get result "transactionUrl" = Ok transactionUrl
         /\ success_message W (JStr "250") (JStr "ADDR1") transactionUrl = Ok notice
         /\ receive_proofs W Scenario.body_amazon_entity Scenario.st0 =
            (mkResponse 200
               (JObj [("success", JBool true);
                      ("message", JStr "Reward processed successfully");
                      ("transaction", result)]),
             snd (broadcastMessage notice (snd transfer))).
Proof.
  intros W proof st1 transfer.
  destruct (amazon_entity_scenario W Scenario.body_amazon_entity
              (match JS.decodeURIComponent Scenario.body_amazon_entity with
               | Ok t => t
               | Throw _ => ""
               end)
              proof
              (JObj [("contextMessage", JStr "ADDR1");
                     ("extractedParameters", JObj [("balance", JStr "&#x20b9;250")])])
              (JObj [("balance", JStr "&#x20b9;250")])
              Scenario.st0
              eq_refl eq_refl eq_refl eq_refl eq_refl eq_refl eq_refl eq_refl)
    as (_ & Hok & _).
  exists (JObj [("success", JBool true);
                ("signature", JStr "SIGNATURE");
                ("transactionUrl",
                 JStr "https://explorer.solana.com/tx/SIGNATURE?cluster=devnet");
                ("amount", JStr "250")]).
  assert (Hrun : fst transfer =
                 Ok (JObj [("success", JBool true);
                           ("signature", JStr "SIGNATURE");
                           ("transactionUrl",
                            JStr "https://explorer.solana.com/tx/SIGNATURE?cluster=devnet");
                           ("amount", JStr "250")]))
    by (vm_compute; reflexivity).
  split; [exact Hrun |]. apply Hok. exact Hrun.
Defined.

(** C2: whatever the request, if the verifier answers false for the proof
    it carries, the handler never reaches [transferReward]: the only call
    it can make is the verification itself, the response is never 200, and
    once the verifier has been asked the response is 500 "Invalid proof". *)
Theorem rejected_proof_is_never_paid
    (W : World) (req_body : string) (st st' : State) (response : Response) :
  (forall decoded proof,
      JS.decodeURIComponent req_body = Ok decoded ->
      JS.JSON_parse decoded = Ok proof ->
      verifyProof W proof = Ok false) ->
  receive_proofs W req_body st = (response, st') ->
  exists d,
    trace st' = (trace st ++ d)%list
    /\ ((d = [] /\ (status response = 400 \/ status response = 500))
        \/ (exists proof,
               d = [Verify proof]
               /\ response = mkResponse 500 (failure_body W (Error_ "Invalid proof")))).
Proof.
  intros Hfalse. unfold receive_proofs, receive_proofs_try, bind, lift, ret.
  destruct (JS.decodeURIComponent req_body) as [decoded | e] eqn:Hd.
  - destruct (JS.JSON_parse decoded) as [proof | e] eqn:Hp.
    + destruct (determine_platform W proof) as [[p |] | e].
      * rewrite (extract_rejected W p proof st (Hfalse decoded proof eq_refl Hp)).
        intros H; inversion H; subst; clear H. exists [Verify proof].
        rewrite broadcast_trace. simpl. split; [reflexivity |]. right. now exists proof.
      * intros H; inversion H; subst; clear H. exists []. rewrite app_nil_r.
        split; [reflexivity |]. left. split; [reflexivity |]. now left.
      * intros H; inversion H; subst; clear H. exists [].
        rewrite broadcast_trace, app_nil_r. simpl. intuition.
    + intros H; inversion H; subst; clear H. exists [].
      rewrite broadcast_trace, app_nil_r. simpl. intuition.
  - intros H; inversion H; subst; clear H. exists [].
    rewrite broadcast_trace, app_nil_r. simpl. intuition.
Qed.

Lemma rejected_proof_is_never_paid_witness :
  let W := Scenario.mock (Ok false) in
  exists d,
    trace (snd (receive_proofs W Scenario.body_amazon_entity Scenario.st0))
    = (trace Scenario.st0 ++ d)%list
    /\ ((d = []
         /\ (status (fst (receive_proofs W Scenario.body_amazon_entity Scenario.st0)) = 400
             \/ status (fst (receive_proofs W Scenario.body_amazon_entity Scenario.st0)) = 500))
        \/ (exists proof,
               d = [Verify proof]
               /\ fst (receive_proofs W Scenario.body_amazon_entity Scenario.st0)
                  = mkResponse 500 (failure_body W (Error_ "Invalid proof")))).
Proof.
  intros W.
  apply (rejected_proof_is_never_paid W Scenario.body_amazon_entity Scenario.st0).
  - intros decoded proof _ _. reflexivity.
  - now destruct (receive_proofs W Scenario.body_amazon_entity Scenario.st0).
Defined.

(** C3: when the request URL embedded in a proof is a string, a URL that
    contains "amazon" and not "flipkart" is classified as Amazon, one that
    contains "flipkart" and not "amazon" as Flipkart (both tests compare
    bytes, so case matters), and for one that contains neither the handler
    answers 400 "Unsupported platform" and leaves the state as it was: no
    verification, no transfer, no broadcast. *)
Theorem platform_classification (W : World) (proof : value) (u : string) :
  request_url W proof = Ok (JStr u) ->
  (contains u "amazon" -> ~ contains u "flipkart" ->
   determine_platform W proof = Ok (Some amazon))
  /\ (contains u "flipkart" -> ~ contains u "amazon" ->
      determine_platform W proof = Ok (Some flipkart))
  /\ (~ contains u "amazon" -> ~ contains u "flipkart" ->
      determine_platform W proof = Ok None
      /\ forall req_body decoded st,
           JS.decodeURIComponent req_body = Ok decoded ->
           JS.JSON_parse decoded = Ok proof ->
           receive_proofs W req_body st =
           (mkResponse 400 (error_body "Unsupported platform"), st)).
Proof.
  intros Hurl. pose proof (determine_platform_string W proof u Hurl) as Hdp.
  split; [| split].
  - intros Ha _. apply includes_spec in Ha. now rewrite Ha in Hdp.
  - intros Hf Ha. apply includes_spec in Hf. apply includes_false in Ha.
    now rewrite Ha, Hf in Hdp.
  - intros Ha Hf. apply includes_false in Ha, Hf. rewrite Ha, Hf in Hdp.
    split; [exact Hdp |].
    intros req_body decoded st Hd Hp.
    unfold receive_proofs, receive_proofs_try, bind, lift, ret.
    now rewrite Hd, Hp, Hdp.
Qed.

Lemma platform_classification_witness :
  request_url (Scenario.mock (Ok true)) (Scenario.proof_of Scenario.body_other)
  = Ok (JStr "https://www.example.com/")
  /\ determine_platform (Scenario.mock (Ok true)) (Scenario.proof_of Scenario.body_other)
     = Ok None
  /\ determine_platform (Scenario.mock (Ok true)) (Scenario.proof_of Scenario.body_flipkart)
     = Ok (Some flipkart)
  /\ determine_platform (Scenario.mock (Ok true))
       (Scenario.proof_of Scenario.body_amazon_entity)
     = Ok (Some amazon).
Proof.
  split; [reflexivity |]. split; [| split].
  - apply (platform_classification (Scenario.mock (Ok true))
             (Scenario.proof_of Scenario.body_other) "https://www.example.com/");
      [reflexivity | |]; apply includes_false; reflexivity.
  - apply (platform_classification (Scenario.mock (Ok true))
             (Scenario.proof_of Scenario.body_flipkart) "https://www.flipkart.com/coins");
      [reflexivity | apply includes_spec | apply includes_false]; reflexivity.
  - apply (platform_classification (Scenario.mock (Ok true))
             (Scenario.proof_of Scenario.body_amazon_entity) "https://www.amazon.in/pay");
      [reflexivity | apply includes_spec | apply includes_false]; reflexivity.
Defined.

(** The counterexample to C4 as stated: a body that is not JSON is
    answered with 500, not 400. *)
Lemma undecodable_body_is_not_400 :
  bindR (JS.decodeURIComponent "{not json") JS.JSON_parse = Throw (SyntaxError "{not json")
  /\ status (fst (receive_proofs (Scenario.mock (Ok true)) "{not json" Scenario.st0)) = 500
  /\ status (fst (receive_proofs (Scenario.mock (Ok true)) "{not json" Scenario.st0)) <> 400.
Proof.
  repeat split. discriminate.
Qed.

(** C4, amended: when the body of a request cannot be decoded into a proof
    ([decodeURIComponent] or [JSON.parse] throws), the handler's catch-all
    answers 500 with the message of that error and broadcasts it to the
    observers; the verifier and the transfer engine are not called. *)
Theorem undecodable_body_is_500
    (W : World) (req_body : string) (st : State) (e : Error) :
  bindR (JS.decodeURIComponent req_body) JS.JSON_parse = Throw e ->
  receive_proofs W req_body st =
  (mkResponse 500 (failure_body W e), snd (broadcastMessage (error_message W e) st))
  /\ trace (snd (receive_proofs W req_body st)) = trace st
  /\ (e = URIError req_body
      \/ exists decoded,
           JS.decodeURIComponent req_body = Ok decoded /\ e = SyntaxError decoded).
Proof.
  intros H.
  assert (Hr : receive_proofs W req_body st =
               (mkResponse 500 (failure_body W e),
                snd (broadcastMessage (error_message W e) st))).
  { unfold receive_proofs, receive_proofs_try, bind, lift.
    destruct (JS.decodeURIComponent req_body) as [decoded | e'] eqn:Hd; simpl in H.
    - now rewrite H.
    - now injection H as ->. }
  split; [exact Hr |]. split; [rewrite Hr; apply broadcast_trace |].
  unfold JS.decodeURIComponent in *.
  destruct (JS.unescape req_body) as [us |].
  - destruct (JS.assemble 0 128 191 us) as [decoded |]; simpl in H.
    + right. exists decoded. split; [reflexivity |].
      unfold JS.JSON_parse in H.
      destruct (JS.parse_value _ decoded) as [v rest | |]; try now injection H as <-.
      destruct (JS.skip_ws rest); [discriminate | now injection H as <-].
    + left. now injection H as <-.
  - left. now injection H as <-.
Qed.

Lemma undecodable_body_is_500_witness :
  let W := Scenario.mock (Ok true) in
  receive_proofs W "%E2%82" Scenario.st0 =
  (mkResponse 500 (failure_body W (URIError "%E2%82")),
   snd (broadcastMessage (error_message W (URIError "%E2%82")) Scenario.st0)).
Proof.
  intros W.
  apply (undecodable_body_is_500 W "%E2%82" Scenario.st0 (URIError "%E2%82")).
  reflexivity.
Defined.

(** The counterexample to C5 as stated: [floor(2.01 * 10^9)] is
    2010000000, and the conversion gives 2009999999, because the double
    nearest to 2.01 lies below it and so does its product with [1e9]. *)
Lemma conversion_is_not_exact_floor :
  decimal_value "2.01" = Some (201 # 100)
  /\ exact_base_units "2.01" = Some 2010000000
  /\ toTokenAmount (Scenario.mock (Ok true)) (JStr "2.01") = Ok 2009999999.
Proof.
  repeat split.
Qed.

(** C5, amended: the conversion is [floor] of the IEEE-754 double product
    of [parseFloat(amount)] and [1e9], a product rounded to the nearest
    double, and a [RangeError] when that product is [NaN] or infinite. On
    "1", "0.000000001" and "0.0000000004" it gives 1000000000, 1 and 0,
    which is [floor(amount * 10^9)] there. And an amount written as a
    whole number, in decimal digits, is converted exactly as long as the
    result is below [2^53]. ([parseFloat] first writes the amount as a
    string; where that conversion throws, its error is the outcome.) *)
Theorem conversion_is_floor_of_double_product (W : World) (amount : value) :
  toTokenAmount W amount =
  match JS.parseFloat W amount with
  | Ok x =>
      match Num.to_Q (Num.mul x Num.lit_1e9) with
      | Some q => Ok (Qfloor q)
      | None => Throw (RangeError_BigInt (Num.mul x Num.lit_1e9))
      end
  | Throw e => Throw e
  end
  /\ (toTokenAmount W (JStr "1") = Ok 1000000000
      /\ exact_base_units "1" = Some 1000000000)
  /\ (toTokenAmount W (JStr "0.000000001") = Ok 1
      /\ exact_base_units "0.000000001" = Some 1)
  /\ (toTokenAmount W (JStr "0.0000000004") = Ok 0
      /\ exact_base_units "0.0000000004" = Some 0)
  /\ (forall d,
         d <> "" -> digits_only d = true ->
         Str.digits_value d * 10 ^ 9 < 2 ^ 53 ->
         toTokenAmount W (JStr d) = Ok (Str.digits_value d * 10 ^ 9)
         /\ exact_base_units d = Some (Str.digits_value d * 10 ^ 9)).
Proof.
  split.
  { unfold toTokenAmount. destruct (JS.parseFloat W amount) as [x | e]; cbn [bindR];
      [apply BigInt_floor | reflexivity]. }
  split; [split; reflexivity |]. split; [split; reflexivity |].
  split; [split; reflexivity |].
  intros d Hne Hd Hlt. split; [now apply toTokenAmount_whole |].
  unfold exact_base_units, decimal_value. rewrite (span_digits_all d Hd).
  destruct d as [| c r]; [congruence |].
  unfold Qfloor, Qmult, inject_Z, Qnum, Qden. f_equal.
  change (Zpos (1 * 1)) with 1. now rewrite Z.div_1_r.
Qed.

Lemma conversion_is_floor_of_double_product_witness :
  toTokenAmount (Scenario.mock (Ok true)) (JStr "500") = Ok 500000000000
  /\ exact_base_units "500" = Some 500000000000.
Proof.
  apply (conversion_is_floor_of_double_product (Scenario.mock (Ok true)) (JStr "500")).
  - discriminate.
  - reflexivity.
  - reflexivity.
Defined.

(** The counterexample to C6 as stated: the balance [Rs.&#x20b9;1000] does
    not start with the entity, and yet extraction returns [Rs.1000]. *)
Lemma amazon_amount_not_only_prefix :
  let proof := Scenario.proof_of Scenario.body_amazon_inner in
  (context <~ context_of (Scenario.mock (Ok true)) proof ;;
   parameters <~ JS.get context "extractedParameters" ;;
   JS.get parameters "balance") = Ok (JStr "Rs.&#x20b9;1000")
  /\ ~ (exists t, "Rs.&#x20b9;1000" = "&#x20b9;" ++ t)
  /\ fst (getDataFromAmazon (Scenario.mock (Ok true)) proof Scenario.st0)
     = Ok (mkExtracted (JStr "Rs.1000") (JStr "ADDR1") amazon)
  /\ "Rs.1000" <> "Rs.&#x20b9;1000".
Proof.
  repeat split.
  - intros [t Ht]. discriminate.
  - discriminate.
Qed.

(** C6, amended: from a verified Amazon proof whose balance is a string,
    the extracted amount is that balance with the first occurrence of
    [&#x20b9;] removed and nothing else changed. A leading entity is
    stripped ([&#x20b9;1000] gives [1000]), the first of several occurrences
    is the one removed, and a balance that does not contain the entity is
    returned as it is. The address is the context message: extraction
    returns the two when the address can be written into its log line, as
    every string, number, boolean, [null] and absent message can, and
    throws the [TypeError] of that conversion when it cannot, which is the
    case of an object with a [toString] member of its own. Either way the
    verification is the only call made. *)
Theorem amazon_amount_extraction
    (W : World) (proof contextData parameters : value) (balance : string) (st : State) :
  verifyProof W proof = Ok true ->
  context_of W proof = Ok contextData ->
  JS.get contextData "extractedParameters" = Ok parameters ->
  JS.get parameters "balance" = Ok (JStr balance) ->
  (exists recipient,
      JS.get contextData "contextMessage" = Ok recipient
      /\ getDataFromAmazon W proof st =
         (match JS.ToString W recipient with
          | Ok _ =>
              Ok (mkExtracted (JStr (Str.replace balance "&#x20b9;" "")) recipient amazon)
          | Throw e => Throw e
          end,
          mkState (wss st) (trace st ++ [Verify proof]))
      /\ ((forall items, recipient <> JArr items) ->
          (forall members, recipient <> JObj members) ->
          exists text, JS.ToString W recipient = Ok text))
  /\ (forall t, balance = "&#x20b9;" ++ t -> Str.replace balance "&#x20b9;" "" = t)
  /\ (forall a t,
         balance = a ++ "&#x20b9;" ++ t ->
         (forall a' t', balance = a' ++ "&#x20b9;" ++ t' ->
                        (String.length a <= String.length a')%nat) ->
         Str.replace balance "&#x20b9;" "" = a ++ t)
  /\ (~ contains balance "&#x20b9;" -> Str.replace balance "&#x20b9;" "" = balance).
Proof.
  intros Hv Hc Hp Hb. split; [| split; [| split]].
  - destruct (get_defined contextData "extractedParameters" "contextMessage" _ Hp)
      as [recipient Hr].
    exists recipient. split; [exact Hr |].
    split; [now apply (getDataFromAmazon_accepted W proof contextData parameters) |].
    apply ToString_primitive.
  - intros t ->. apply (replace_prefix "&#x20b9;" "" t).
  - intros a t -> Hmin. apply (replace_first "&#x20b9;" "" a t Hmin).
  - apply replace_absent.
Qed.

Lemma amazon_amount_extraction_witness :
  let W := Scenario.mock (Ok true) in
  let proof := Scenario.proof_of Scenario.body_amazon_1000 in
  getDataFromAmazon W proof Scenario.st0 =
  (Ok (mkExtracted (JStr "1000") (JStr "ADDR1") amazon),
   mkState (wss Scenario.st0) [Verify proof]).
Proof.
  intros W proof.
  destruct (amazon_amount_extraction W proof
              (JObj [("contextMessage", JStr "ADDR1");
                     ("extractedParameters", JObj [("balance", JStr "&#x20b9;1000")])])
              (JObj [("balance", JStr "&#x20b9;1000")])
              "&#x20b9;1000" Scenario.st0
              eq_refl eq_refl eq_refl eq_refl) as [[recipient [Hr [Hx _]]] _].
  injection Hr as <-. exact Hx.
Defined.

(** C7: when a proof has been classified and its data extracted, and the
    extracted amount or address is missing, the handler answers 400
    "Missing amount or address in proof"; the verification is the only call
    it has made, so the transfer engine is not invoked. *)
Theorem missing_field_short_circuits
    (W : World) (req_body decoded : string) (proof : value) (p : Platform)
    (data : Extracted) (st st1 : State) :
  JS.decodeURIComponent req_body = Ok decoded ->
  JS.JSON_parse decoded = Ok proof ->
  determine_platform W proof = Ok (Some p) ->
  extract W p proof st = (Ok data, st1) ->
  missing (amount data) \/ missing (address data) ->
  receive_proofs W req_body st =
  (mkResponse 400 (error_body "Missing amount or address in proof"), st1)
  /\ st1 = mkState (wss st) (trace st ++ [Verify proof]).
Proof.
  intros Hd Hp Hc Hx Hm. split; [| exact (extract_trace W p proof st st1 _ Hx)].
  unfold receive_proofs, receive_proofs_try, bind, lift, ret.
  rewrite Hd, Hp, Hc, Hx.
  assert (Hor : negb (JS.truthy (amount data)) || negb (JS.truthy (address data)) = true).
  { apply orb_true_iff. unfold missing in Hm.
    destruct Hm as [-> | ->]; [now left | now right]. }
  now rewrite Hor.
Qed.

Lemma missing_field_short_circuits_witness :
  let W := Scenario.mock (Ok true) in
  let proof := Scenario.proof_of Scenario.body_amazon_empty in
  receive_proofs W Scenario.body_amazon_empty Scenario.st0 =
  (mkResponse 400 (error_body "Missing amount or address in proof"),
   mkState (wss Scenario.st0) [Verify proof]).
Proof.
  intros W proof.
  apply (missing_field_short_circuits W Scenario.body_amazon_empty
           (match JS.decodeURIComponent Scenario.body_amazon_empty with
            | Ok t => t
            | Throw _ => ""
            end)
           proof amazon (mkExtracted (JStr "") JUndefined amazon) Scenario.st0
           (mkState (wss Scenario.st0) [Verify proof])).
  - reflexivity.
  - reflexivity.
  - reflexivity.
  - reflexivity.
  - left. reflexivity.
Defined.

(** C8: on a request to [/transfer-tokens] whose body has been parsed, if
    amount, address or platform is missing the handler answers 400
    "Missing required fields" and calls nothing; otherwise it hands the
    supplied amount and address straight to [transferReward], answers 200
    with its result or 500 with its error, and never calls the verifier. *)
Theorem transfer_tokens_contract
    (W : World) (req_body amount address platform : value) (st : State) :
  JS.get req_body "amount" = Ok amount ->
  JS.get req_body "address" = Ok address ->
  JS.get req_body "platform" = Ok platform ->
  (missing amount \/ missing address \/ missing platform ->
   transfer_tokens W req_body st =
   (mkResponse 400 (JObj [("success", JBool false);
                          ("error", JStr "Missing required fields")]), st))
  /\ (~ missing amount -> ~ missing address -> ~ missing platform ->
      transfer_tokens W req_body st =
      (match fst (transferReward W amount address st) with
       | Ok result => mkResponse 200 result
       | Throw e => mkResponse 500 (failure_body W e)
       end,
       snd (transferReward W amount address st))
      /\ exists d,
           trace (snd (transfer_tokens W req_body st))
           = (trace st ++ TransferReward amount address :: d)%list
           /\ forall proof, ~ In (Verify proof) d).
Proof.
  intros Ha Hr Hp.
  destruct (get_defined req_body "amount" "proof" _ Ha) as [proof Hproof].
  unfold missing. split.
  - intros Hm. unfold transfer_tokens, transfer_tokens_try, bind, lift, ret.
    rewrite Ha, Hr, Hp, Hproof.
    assert (Hor : negb (JS.truthy amount) || negb (JS.truthy address)
                  || negb (JS.truthy platform) = true).
    { destruct Hm as [-> | [-> | ->]]; simpl; rewrite ?orb_true_r; reflexivity. }
    now rewrite Hor.
  - intros Hna Hnr Hnp.
    apply not_false_is_true in Hna, Hnr, Hnp.
    assert (Ht : transfer_tokens W req_body st =
                 (match fst (transferReward W amount address st) with
                  | Ok result => mkResponse 200 result
                  | Throw e => mkResponse 500 (failure_body W e)
                  end,
                  snd (transferReward W amount address st))).
    { unfold transfer_tokens, transfer_tokens_try, bind, lift, ret.
      rewrite Ha, Hr, Hp, Hproof, Hna, Hnr, Hnp. simpl.
      now destruct (transferReward W amount address st) as [[result | e] st']. }
    split; [exact Ht |]. rewrite Ht. simpl.
    destruct (transferReward_spec W amount address st) as (d & Hd & Hv & _).
    now exists d.
Qed.

Lemma transfer_tokens_contract_witness :
  let W := Scenario.mock (Ok true) in
  transfer_tokens W (JObj [("amount", JStr "5"); ("address", JStr "ADDR1")]) Scenario.st0 =
  (mkResponse 400 (JObj [("success", JBool false);
                         ("error", JStr "Missing required fields")]), Scenario.st0).
Proof.
  intros W.
  apply (transfer_tokens_contract W
           (JObj [("amount", JStr "5"); ("address", JStr "ADDR1")])
           (JStr "5") (JStr "ADDR1") JUndefined Scenario.st0 eq_refl eq_refl eq_refl).
  right. right. reflexivity.
Defined.

(** C9: a broadcast sends the message, once, to the clients whose
    [readyState] is 1 and to no other; every client stays in [wss.clients]
    at its place, with its identity and [readyState] as they were. *)
Theorem broadcast_reaches_open_clients
    (message : Message) (st : State) (clients : list Client) :
  wss st = Some clients ->
  exists clients',
    broadcastMessage message st = (Ok tt, mkState (Some clients') (trace st))
    /\ List.length clients' = List.length clients
    /\ forall i client,
         nth_error clients i = Some client ->
         exists client',
           nth_error clients' i = Some client'
           /\ client_id client' = client_id client
           /\ readyState client' = readyState client
           /\ sent client' =
              if readyState client =? 1
              then (sent client ++ [JSON_stringify message])%list
              else sent client.
Proof.
  intros Hw. unfold broadcastMessage. rewrite Hw.
  eexists. split; [reflexivity |]. split; [apply length_map |].
  intros i client Hi.
  rewrite nth_error_map, Hi. simpl.
  eexists. split; [reflexivity |].
  destruct (readyState client =? 1); simpl; auto.
Qed.

Lemma broadcast_reaches_open_clients_witness :
  wss Scenario.st0 = Some [mkClient 0 1 []; mkClient 1 3 []]
  /\ exists clients',
       broadcastMessage (mkMessage agent "done") Scenario.st0
       = (Ok tt, mkState (Some clients') (trace Scenario.st0))
       /\ List.length clients' = 2%nat
       /\ forall i client,
            nth_error [mkClient 0 1 []; mkClient 1 3 []] i = Some client ->
            exists client',
              nth_error clients' i = Some client'
              /\ client_id client' = client_id client
              /\ readyState client' = readyState client
              /\ sent client' =
                 if readyState client =? 1
                 then (sent client ++ [JSON_stringify (mkMessage agent "done")])%list
                 else sent client.
Proof.
  split; [reflexivity |].
  apply (broadcast_reaches_open_clients (mkMessage agent "done") Scenario.st0
           [mkClient 0 1 []; mkClient 1 3 []]).
  reflexivity.
Defined.

(** C10: when the request URL embedded in a proof contains both "amazon"
    and "flipkart", the proof is classified as Amazon: the amazon test
    comes first. *)
Theorem both_platforms_is_amazon (W : World) (proof : value) (u : string) :
  request_url W proof = Ok (JStr u) ->
  contains u "amazon" ->
  contains u "flipkart" ->
  determine_platform W proof = Ok (Some amazon).
Proof.
  intros Hurl Ha _. rewrite (determine_platform_string W proof u Hurl).
  apply includes_spec in Ha. now rewrite Ha.
Qed.

Lemma both_platforms_is_amazon_witness :
  determine_platform (Scenario.mock (Ok true)) (Scenario.proof_of Scenario.body_both)
  = Ok (Some amazon).
Proof.
  apply (both_platforms_is_amazon (Scenario.mock (Ok true))
           (Scenario.proof_of Scenario.body_both) "https://www.amazon.in/flipkart").
  - reflexivity.
  - exists "https://www.", ".in/flipkart". reflexivity.
  - exists "https://www.amazon.in/", "". reflexivity.
Defined.

(** * Further properties of the code *)

(** ** More facts about the transfer engine *)

Section TransferFacts.

Variable W : World.

(** Every way [transferReward] can end: where it stopped, what it had
    called by then, and what the collaborators had answered. *)
Lemma transferReward_outcome (amount recipient : value) (st : State) :
  let after (d : list Event) :=
    mkState (wss st) (trace st ++ TransferReward amount recipient :: d) in
  (exists e,
      transferReward W amount recipient st = (Throw e, after [])
      /\ (JS.interpolate W [amount; recipient] = Throw e
          \/ PublicKey W recipient = Throw e
          \/ exists key,
               PublicKey W recipient = Ok key
               /\ getAssociatedTokenAddress W (REWARD_TOKEN_MINT W) (walletPublicKey W)
                  = Throw e))
  \/ (exists e key,
         transferReward W amount recipient st
         = (Throw e, after [GetOrCreateAccount (REWARD_TOKEN_MINT W) key])
         /\ PublicKey W recipient = Ok key)
  \/ (exists key from to n ins blockhash,
         PublicKey W recipient = Ok key
         /\ getAssociatedTokenAddress W (REWARD_TOKEN_MINT W) (walletPublicKey W) = Ok from
         /\ getOrCreateAssociatedTokenAccount W (REWARD_TOKEN_MINT W) key = Ok to
         /\ toTokenAmount W amount = Ok n
         /\ createTransferInstruction W from to (walletPublicKey W) n = Ok ins
         /\ getLatestBlockhash W = Ok blockhash
         /\ let tx := mkTransaction ins (walletPublicKey W) blockhash in
            let st3 := after [GetOrCreateAccount (REWARD_TOKEN_MINT W) key; Submit tx] in
            (exists e,
                sendAndConfirmTransaction W tx = Throw e
                /\ transferReward W amount recipient st = (Throw e, st3))
            \/ (exists signature,
                   sendAndConfirmTransaction W tx = Ok signature
                   /\ transferReward W amount recipient st
                      = (Ok (JObj [("success", JBool true);
                                   ("signature", JStr signature);
                                   ("transactionUrl",
                                    JStr ("https://explorer.solana.com/tx/" ++ signature
                                          ++ "?cluster=devnet"));
                                   ("amount", amount)]), st3))).
Proof.
  intros after. subst after.
  unfold transferReward, log, bind, lift, emit, ret. cbn [wss trace JS.interpolate].
  destruct (JS.ToString W amount) as [amount_text | e] eqn:Ea; cbn [bindR];
    [| left; exists e; split; [reflexivity | now left]].
  destruct (JS.ToString W recipient) as [recipient_text | e] eqn:Er; cbn [bindR];
    [| left; exists e; split; [reflexivity | now left]].
  destruct (PublicKey W recipient) as [key | e] eqn:Ekey;
    [| left; exists e; split; [reflexivity | right; now left]].
  destruct (getAssociatedTokenAddress W (REWARD_TOKEN_MINT W) (walletPublicKey W))
    as [from | e] eqn:Efrom;
    [| left; exists e; split; [reflexivity | right; right; now exists key]].
  cbn [wss trace].
  destruct (getOrCreateAssociatedTokenAccount W (REWARD_TOKEN_MINT W) key)
    as [to | e] eqn:Eto;
    [| right; left; exists e, key; rewrite <- app_assoc; now split].
  destruct (toTokenAmount W amount) as [n | e] eqn:En;
    [| right; left; exists e, key; rewrite <- app_assoc; now split].
  destruct (createTransferInstruction W from to (walletPublicKey W) n)
    as [ins | e] eqn:Eins;
    [| right; left; exists e, key; rewrite <- app_assoc; now split].
  destruct (getLatestBlockhash W) as [blockhash | e] eqn:Ebh;
    [| right; left; exists e, key; rewrite <- app_assoc; now split].
  right; right. exists key, from, to, n, ins, blockhash.
  repeat (split; [reflexivity || assumption |]).
  cbn [wss trace].
  destruct (sendAndConfirmTransaction W (mkTransaction ins (walletPublicKey W) blockhash))
    as [signature | e] eqn:Esend.
  - right. exists signature. split; [reflexivity |].
    now rewrite <- !app_assoc.
  - left. exists e. split; [reflexivity |]. now rewrite <- !app_assoc.
Qed.

End TransferFacts.

(** X1: one call of [transferReward] submits at most one transaction, and
    none before the recipient's token account has been asked for: after
    its own entry the calls recorded are nothing, the account request
    alone, or the account request followed by a single submission. It
    leaves the observers as they were. *)
Theorem transferReward_submits_at_most_once
    (W : World) (amount recipient : value) (st : State) :
  exists d,
    trace (snd (transferReward W amount recipient st))
    = (trace st ++ TransferReward amount recipient :: d)%list
    /\ wss (snd (transferReward W amount recipient st)) = wss st
    /\ (d = []
        \/ (exists key, d = [GetOrCreateAccount (REWARD_TOKEN_MINT W) key])
        \/ (exists key tx,
               d = [GetOrCreateAccount (REWARD_TOKEN_MINT W) key; Submit tx]
               /\ PublicKey W recipient = Ok key
               /\ feePayer tx = walletPublicKey W)).
Proof.
  destruct (transferReward_outcome W amount recipient st)
    as [(e & -> & _) | [(e & key & -> & _) | (key & from & to & n & ins & bh & Hk & _ & _ & _ & _ & _ & H)]].
  - exists []. repeat split. now left.
  - eexists. repeat split. right; left. now exists key.
  - cbv zeta in H. destruct H as [(e & _ & ->) | (sg & _ & ->)];
      (eexists; repeat split; right; right; eexists key, _; repeat split; assumption).
Qed.

(** X2: when [transferReward] returns, every collaborator has answered:
    the transaction it submitted, once, carries the instruction built for
    the converted amount, between the server's token account and the
    recipient's, with the server's wallet as fee payer and the latest
    blockhash; the result echoes the amount as it was given and its URL is
    the explorer address of the signature the ledger returned. *)
Theorem transferReward_success
    (W : World) (amount recipient result : value) (st : State) :
  fst (transferReward W amount recipient st) = Ok result ->
  exists key from to n ins blockhash signature,
    PublicKey W recipient = Ok key
    /\ getAssociatedTokenAddress W (REWARD_TOKEN_MINT W) (walletPublicKey W) = Ok from
    /\ getOrCreateAssociatedTokenAccount W (REWARD_TOKEN_MINT W) key = Ok to
    /\ toTokenAmount W amount = Ok n
    /\ createTransferInstruction W from to (walletPublicKey W) n = Ok ins
    /\ getLatestBlockhash W = Ok blockhash
    /\ sendAndConfirmTransaction W (mkTransaction ins (walletPublicKey W) blockhash)
       = Ok signature
    /\ trace (snd (transferReward W amount recipient st))
       = (trace st
          ++ [TransferReward amount recipient;
              GetOrCreateAccount (REWARD_TOKEN_MINT W) key;
              Submit (mkTransaction ins (walletPublicKey W) blockhash)])%list
    /\ result = JObj [("success", JBool true);
                      ("signature", JStr signature);
                      ("transactionUrl",
                       JStr ("https://explorer.solana.com/tx/" ++ signature
                             ++ "?cluster=devnet"));
                      ("amount", amount)].
Proof.
  intros Hok.
  destruct (transferReward_outcome W amount recipient st)
    as [(e & H & _) | [(e & key & H & _) | (key & from & to & n & ins & bh & Hk & Hf & Ht & Hn & Hi & Hb & H)]];
    try (rewrite H in Hok; discriminate).
  cbv zeta in H. destruct H as [(e & _ & H) | (sg & Hs & H)];
    rewrite H in Hok; [discriminate |].
  injection Hok as <-. exists key, from, to, n, ins, bh, sg.
  rewrite H. repeat split; assumption.
Qed.

Lemma transferReward_success_witness :
  let W := Scenario.mock (Ok true) in
  exists key from to n ins blockhash signature,
    PublicKey W (JStr "ADDR1") = Ok key
    /\ getAssociatedTokenAddress W (REWARD_TOKEN_MINT W) (walletPublicKey W) = Ok from
    /\ getOrCreateAssociatedTokenAccount W (REWARD_TOKEN_MINT W) key = Ok to
    /\ toTokenAmount W (JStr "250") = Ok n
    /\ createTransferInstruction W from to (walletPublicKey W) n = Ok ins
    /\ getLatestBlockhash W = Ok blockhash
    /\ sendAndConfirmTransaction W (mkTransaction ins (walletPublicKey W) blockhash)
       = Ok signature
    /\ trace (snd (transferReward W (JStr "250") (JStr "ADDR1") Scenario.st0))
       = (trace Scenario.st0
          ++ [TransferReward (JStr "250") (JStr "ADDR1");
              GetOrCreateAccount (REWARD_TOKEN_MINT W) key;
              Submit (mkTransaction ins (walletPublicKey W) blockhash)])%list
    /\ JObj [("success", JBool true);
             ("signature", JStr "SIGNATURE");
             ("transactionUrl",
              JStr "https://explorer.solana.com/tx/SIGNATURE?cluster=devnet");
             ("amount", JStr "250")]
       = JObj [("success", JBool true);
               ("signature", JStr signature);
               ("transactionUrl",
                JStr ("https://explorer.solana.com/tx/" ++ signature
                      ++ "?cluster=devnet"));
               ("amount", JStr "250")].
Proof.
  intros W.
  apply (transferReward_success W (JStr "250") (JStr "ADDR1") _ Scenario.st0).
  vm_compute. reflexivity.
Defined.

(** X3: the amount is converted only after the recipient's token account
    has been asked for: when the amount and the address can be written
    into the log line, the key and both token accounts are obtained and
    the amount does not read as a number, [transferReward] throws the
    [RangeError] of [BigInt(NaN)] with the account request already made
    and nothing submitted. *)
Theorem account_is_requested_before_amount_is_checked
    (W : World) (amount recipient : value) (text key from to : string) (st : State) :
  JS.ToString W recipient = Ok text ->
  PublicKey W recipient = Ok key ->
  getAssociatedTokenAddress W (REWARD_TOKEN_MINT W) (walletPublicKey W) = Ok from ->
  getOrCreateAssociatedTokenAccount W (REWARD_TOKEN_MINT W) key = Ok to ->
  JS.parseFloat W amount = Ok S754_nan ->
  transferReward W amount recipient st =
  (Throw (RangeError_BigInt S754_nan),
   mkState (wss st)
     (trace st ++ [TransferReward amount recipient;
                   GetOrCreateAccount (REWARD_TOKEN_MINT W) key])).
Proof.
  intros Hr Hk Hf Ht Hnan.
  assert (Ha : exists amount_text, JS.ToString W amount = Ok amount_text).
  { unfold JS.parseFloat in Hnan.
    destruct (JS.ToString W amount) as [a | e]; [now exists a | discriminate]. }
  destruct Ha as [amount_text Ha].
  unfold transferReward, log, bind, lift, emit, ret. cbn [wss trace JS.interpolate].
  rewrite Ha, Hr. cbn [bindR]. rewrite Hk, Hf. cbn [wss trace]. rewrite Ht.
  unfold toTokenAmount. rewrite Hnan. cbn [bindR].
  change (JS.BigInt (Num.Math_floor (Num.mul S754_nan Num.lit_1e9)))
    with (@Throw Z (RangeError_BigInt S754_nan)).
  now rewrite <- app_assoc.
Qed.

Lemma account_is_requested_before_amount_is_checked_witness :
  let W := Scenario.mock (Ok true) in
  transferReward W (JStr "ten") (JStr "ADDR1") Scenario.st0 =
  (Throw (RangeError_BigInt S754_nan),
   mkState (wss Scenario.st0)
     (trace Scenario.st0 ++ [TransferReward (JStr "ten") (JStr "ADDR1");
                             GetOrCreateAccount (REWARD_TOKEN_MINT W) "ADDR1"])).
Proof.
  intros W.
  apply (account_is_requested_before_amount_is_checked W (JStr "ten") (JStr "ADDR1")
           "ADDR1" "ADDR1" "ata:WALLET" "ata:ADDR1" Scenario.st0);
    vm_compute; reflexivity.
Defined.

(** ** More facts about numbers *)

(** A whole number of at most 53 bits, of either sign, is read exactly. *)
Lemma of_decimal_whole_signed (neg : bool) (n : positive) :
  Zpos (digits2_pos n) <= 53 ->
  Num.of_decimal neg (Zpos n) 0
  = S754_finite neg (mantissa53 n) (Zpos (digits2_pos n) - 53).
Proof.
  intros Hd. pose proof (Pos2Z.is_pos (digits2_pos n)) as Hpos.
  unfold Num.of_decimal. cbn [Z.leb Z.compare].
  change (Z.to_pos (10 ^ 0)) with 1%positive. rewrite Pos.mul_1_r.
  unfold Num.round_ratio, SFdiv_core_binary. cbn [Zdigits2 digits2_pos].
  set (d := Zpos (digits2_pos n)) in *.
  assert (He : Z.min (fexp Num.prec Num.emax (d + 0 - (1 + 0))) (0 - 0) = d - 54).
  { unfold fexp, emin, Num.prec, Num.emax. lia. }
  rewrite He.
  replace (0 - 0 - (d - 54)) with (54 - d) by lia.
  destruct (54 - d) as [| ps | ps] eqn:Es; try lia.
  rewrite Z.shiftl_mul_pow2 by lia.
  destruct (Z.div_eucl (Zpos n * 2 ^ Zpos ps) 1) as [q r] eqn:Ediv.
  assert (Hq : q = Zpos n * 2 ^ Zpos ps).
  { pose proof (Z.div_1_r (Zpos n * 2 ^ Zpos ps)) as H. unfold Z.div in H.
    now rewrite Ediv in H. }
  assert (Hr : r = 0).
  { pose proof (Z.mod_1_r (Zpos n * 2 ^ Zpos ps)) as H. unfold Z.modulo in H.
    now rewrite Ediv in H. }
  subst q r. change (new_location 1 0) with loc_Exact.
  replace (Zpos n * 2 ^ Zpos ps) with (Zpos (mantissa53 n) * 2 ^ 1).
  - replace (d - 54) with ((d - 53) - 1) by lia.
    apply round_exact; [now apply mantissa53_digits | lia | lia].
  - rewrite mantissa53_value by exact Hd. fold d.
    replace (Zpos ps) with ((53 - d) + 1) by lia.
    rewrite Z.pow_add_r by lia. ring.
Qed.

(** Its product with [1e9] is exact as long as it has at most 53 bits. *)
Lemma mul_1e9_whole_signed (neg : bool) (n : positive) :
  Zpos (digits2_pos (n * 1000000000)) <= 53 ->
  Num.mul (S754_finite neg (mantissa53 n) (Zpos (digits2_pos n) - 53)) Num.lit_1e9
  = S754_finite neg (mantissa53 (n * 1000000000))
      (Zpos (digits2_pos (n * 1000000000)) - 53).
Proof.
  intros HN. rewrite lit_1e9_value. unfold Num.mul, SFmul. rewrite xorb_false_r.
  assert (Hmono : Zpos (digits2_pos n) <= Zpos (digits2_pos (n * 1000000000)))
    by (apply digits2_mono; lia).
  set (dn := Zpos (digits2_pos n)) in *.
  set (dN := Zpos (digits2_pos (n * 1000000000))) in *.
  assert (Hdn : dn <= 53) by lia.
  assert (Hdn0 : 0 < dn) by (subst dn; lia).
  replace (Zpos (mantissa53 n * 8388608000000000))
    with (Zpos (mantissa53 (n * 1000000000)) * 2 ^ (23 + dN - dn)).
  - replace (dn - 53 + -23) with ((dN - 53) - (23 + dN - dn)) by lia.
    apply round_exact; [now apply mantissa53_digits | lia | lia].
  - rewrite Pos2Z.inj_mul, !mantissa53_value by assumption. fold dn dN.
    rewrite Pos2Z.inj_mul.
    replace (23 + dN - dn) with ((53 - dn) + 23 - (53 - dN)) by lia.
    assert (E : 2 ^ (53 - dn + 23) = 2 ^ (53 - dN) * 2 ^ (53 - dn + 23 - (53 - dN))).
    { rewrite <- Z.pow_add_r by lia. f_equal. lia. }
    rewrite Z.pow_add_r in E by lia.
    change (2 ^ 23) with 8388608 in E.
    change 8388608000000000 with (1000000000 * 8388608).
    nia.
Qed.

(** The base units of a whole number, of either sign, are exact below
    [2^53]. *)
Lemma whole_number_units (neg : bool) (n : Z) :
  0 <= n -> n * 10 ^ 9 < 2 ^ 53 ->
  JS.BigInt (Num.Math_floor (Num.mul (Num.of_decimal neg n 0) Num.lit_1e9))
  = Ok (Num.signed neg (n * 10 ^ 9)).
Proof.
  intros Hn Hlt. destruct n as [| p | p]; [now destruct neg | | lia].
  change (10 ^ 9) with 1000000000 in *.
  assert (HN : Zpos (digits2_pos (p * 1000000000)) <= 53).
  { pose proof (digits2_bounds (p * 1000000000)) as [Lo _].
    destruct (Z_lt_le_dec 53 (Zpos (digits2_pos (p * 1000000000)))) as [Hgt | Hle];
      [| exact Hle].
    assert (2 ^ 53 <= 2 ^ (Zpos (digits2_pos (p * 1000000000)) - 1))
      by (apply Z.pow_le_mono_r; lia).
    lia. }
  assert (Hp : Zpos (digits2_pos p) <= 53).
  { pose proof (digits2_mono p (p * 1000000000)). lia. }
  rewrite (of_decimal_whole_signed neg p Hp), (mul_1e9_whole_signed neg p HN), BigInt_floor.
  unfold Num.to_Q.
  set (dN := Zpos (digits2_pos (p * 1000000000))) in *.
  assert (Hpow : 0 < 2 ^ (53 - dN)) by (apply Z.pow_pos_nonneg; lia).
  destruct (0 <=? dN - 53) eqn:E.
  - apply Z.leb_le in E. assert (dN = 53) as Heq by lia.
    rewrite Qfloor_Z. do 2 f_equal.
    rewrite (mantissa53_value _ HN). fold dN. rewrite Heq. simpl (53 - 53). lia.
  - unfold Qfloor. f_equal.
    replace (- (dN - 53)) with (53 - dN) by lia.
    rewrite Z2Pos.id by lia.
    rewrite (mantissa53_value _ HN). fold dN.
    destruct neg; cbn [Num.signed].
    + rewrite <- Z.mul_opp_l, Z.div_mul by lia. lia.
    + rewrite Z.div_mul by lia. lia.
Qed.

Lemma span_digits_stop (d tail : string) :
  digits_only d = true -> ends_number tail = true ->
  Str.span_digits (d ++ tail) = (d, tail).
Proof.
  intros Hd Ht. induction d as [| c d IH].
  - cbn [append]. destruct tail as [| c r]; [reflexivity |].
    cbn [ends_number] in Ht. cbn [Str.span_digits].
    destruct (Str.is_digit c); [discriminate | reflexivity].
  - cbn [digits_only] in Hd. apply andb_true_iff in Hd as [Hc Hd].
    cbn [append Str.span_digits]. now rewrite Hc, (IH Hd).
Qed.

Lemma trim_start_plain (c : ascii) (r : string) :
  32 < Str.code c < 194 -> JS.trim_start (String c r) = String c r.
Proof.
  intros H. cbn [JS.trim_start].
  assert (H1 : JS.is_space1 (Str.code c) = false).
  { unfold JS.is_space1. apply orb_false_iff. split.
    - apply andb_false_iff. right. apply Z.leb_gt. lia.
    - apply Z.eqb_neq. lia. }
  rewrite H1. destruct r as [| b r2]; [reflexivity |].
  assert (H2 : JS.is_space2 (Str.code c) (Str.code b) = false).
  { unfold JS.is_space2. apply andb_false_iff. left. apply Z.eqb_neq. lia. }
  rewrite H2. destruct r2 as [| c3 r3]; [reflexivity |].
  assert (H3 : JS.is_space3 (Str.code c) (Str.code b) (Str.code c3) = false).
  { unfold JS.is_space3.
    assert (E1 : (Str.code c =? 225) = false) by (apply Z.eqb_neq; lia).
    assert (E2 : (Str.code c =? 226) = false) by (apply Z.eqb_neq; lia).
    assert (E3 : (Str.code c =? 227) = false) by (apply Z.eqb_neq; lia).
    assert (E4 : (Str.code c =? 239) = false) by (apply Z.eqb_neq; lia).
    now rewrite E1, E2, E3, E4. }
  now rewrite H3.
Qed.

(** The digits of a whole number are all that [parseFloat] reads when what
    follows cannot continue a number. *)
Lemma unsigned_decimal_stop (neg : bool) (d tail : string) :
  d <> "" -> digits_only d = true -> ends_number tail = true ->
  JS.unsigned_decimal neg (d ++ tail) = Num.of_decimal neg (Str.digits_value d) 0.
Proof.
  intros Hne Hd Ht. unfold JS.unsigned_decimal.
  rewrite (span_digits_stop d tail Hd Ht).
  assert (Hfrac : (match tail with
                   | "" => ("", tail)
                   | String c r => if Str.code c =? 46 then Str.span_digits r else ("", tail)
                   end) = ("", tail)).
  { destruct tail as [| c r]; [reflexivity |]. cbn [ends_number] in Ht.
    destruct (Str.code c =? 46); [| reflexivity].
    rewrite !andb_true_iff in Ht. now destruct Ht as [[[_ H] _] _]. }
  rewrite Hfrac, append_empty_r.
  destruct d as [| c0 d0]; [congruence |].
  assert (Hexp : JS.exponent_part tail = None).
  { destruct tail as [| c r]; [reflexivity |]. cbn [ends_number] in Ht.
    unfold JS.exponent_part.
    rewrite !andb_true_iff, !negb_true_iff in Ht.
    destruct Ht as [[_ H101] H69]. now rewrite H101, H69. }
  now rewrite Hexp.
Qed.

Lemma digit_starts_no_infinity (c : ascii) (r : string) :
  Str.is_digit c = true -> Str.startsWith (String c r) "Infinity" = false.
Proof.
  intros Hc. unfold Str.is_digit in Hc.
  apply andb_true_iff in Hc as [_ Hhi]. apply Z.leb_le in Hhi.
  cbn [Str.startsWith]. apply andb_false_iff. left.
  apply Ascii.eqb_neq. intros <-. vm_compute in Hhi. now apply Hhi.
Qed.

Lemma parseFloat_whole_stop (d tail : string) :
  d <> "" -> digits_only d = true -> ends_number tail = true ->
  JS.parseFloat_string (d ++ tail) = Num.of_decimal false (Str.digits_value d) 0.
Proof.
  intros Hne Hd Ht. pose proof (unsigned_decimal_stop false d tail Hne Hd Ht) as Hu.
  destruct d as [| c r]; [congruence |].
  pose proof Hd as Hall. cbn [digits_only] in Hd.
  apply andb_true_iff in Hd as [Hc _].
  cbn [append] in *. unfold JS.parseFloat_string.
  pose proof Hc as Hc'. unfold Str.is_digit in Hc'.
  apply andb_true_iff in Hc' as [Hlo Hhi]. apply Z.leb_le in Hlo, Hhi.
  rewrite trim_start_plain by lia.
  assert (E45 : (Str.code c =? 45) = false) by (apply Z.eqb_neq; lia).
  assert (E43 : (Str.code c =? 43) = false) by (apply Z.eqb_neq; lia).
  rewrite E45, E43, (digit_starts_no_infinity c _ Hc). exact Hu.
Qed.

Lemma parseFloat_negative_stop (d tail : string) :
  d <> "" -> digits_only d = true -> ends_number tail = true ->
  JS.parseFloat_string ("-" ++ d ++ tail) = Num.of_decimal true (Str.digits_value d) 0.
Proof.
  intros Hne Hd Ht. pose proof (unsigned_decimal_stop true d tail Hne Hd Ht) as Hu.
  cbn [append]. unfold JS.parseFloat_string.
  rewrite trim_start_plain by (vm_compute; split; reflexivity).
  change (Str.code "-" =? 45) with true. cbv iota.
  destruct d as [| c r]; [congruence |].
  cbn [digits_only] in Hd. apply andb_true_iff in Hd as [Hc _].
  cbn [append] in *. now rewrite (digit_starts_no_infinity c _ Hc).
Qed.

(** X4: the conversion reads the leading number of the amount and ignores
    the rest: an amount made of a whole number followed by text that cannot
    continue a number (a thousands separator, a unit, a space) passes the
    handlers' guard and is converted as the whole number alone, so
    "1,000.00" is converted as 1. *)
Theorem text_after_the_number_is_ignored (W : World) (d tail : string) :
  d <> "" -> digits_only d = true -> ends_number tail = true ->
  Str.digits_value d * 10 ^ 9 < 2 ^ 53 ->
  JS.truthy (JStr (d ++ tail)) = true
  /\ toTokenAmount W (JStr (d ++ tail)) = Ok (Str.digits_value d * 10 ^ 9).
Proof.
  intros Hne Hd Ht Hlt. split.
  - destruct d; [congruence | reflexivity].
  - unfold toTokenAmount, JS.parseFloat. cbn [JS.ToString bindR].
    rewrite (parseFloat_whole_stop d tail Hne Hd Ht).
    apply (whole_number_units false); [| exact Hlt].
    exact (digits_value_from_nonneg d 0 Hd (Z.le_refl 0)).
Qed.

Lemma text_after_the_number_is_ignored_witness :
  JS.truthy (JStr "1,000.00") = true
  /\ toTokenAmount (Scenario.mock (Ok true)) (JStr "1,000.00") = Ok 1000000000.
Proof.
  apply (text_after_the_number_is_ignored (Scenario.mock (Ok true)) "1" ",000.00").
  - discriminate.
  - reflexivity.
  - reflexivity.
  - reflexivity.
Defined.

(** X5: the sign of an amount is not checked: a negative whole number
    passes the handlers' guard and is converted to the negative number of
    base units. *)
Theorem negative_amount_is_converted (W : World) (d tail : string) :
  d <> "" -> digits_only d = true -> ends_number tail = true ->
  Str.digits_value d * 10 ^ 9 < 2 ^ 53 ->
  JS.truthy (JStr ("-" ++ d ++ tail)) = true
  /\ toTokenAmount W (JStr ("-" ++ d ++ tail)) = Ok (- (Str.digits_value d * 10 ^ 9)).
Proof.
  intros Hne Hd Ht Hlt. split; [reflexivity |].
  unfold toTokenAmount, JS.parseFloat. cbn [JS.ToString bindR].
  rewrite (parseFloat_negative_stop d tail Hne Hd Ht).
  apply (whole_number_units true); [| exact Hlt].
  exact (digits_value_from_nonneg d 0 Hd (Z.le_refl 0)).
Qed.

Lemma negative_amount_is_converted_witness :
  JS.truthy (JStr "-5") = true
  /\ toTokenAmount (Scenario.mock (Ok true)) (JStr "-5") = Ok (-5000000000).
Proof.
  apply (negative_amount_is_converted (Scenario.mock (Ok true)) "5" "").
  - discriminate.
  - reflexivity.
  - reflexivity.
  - reflexivity.
Defined.

(** ** More facts about [/receive-proofs] *)

Section ReceiveFacts.

Variable W : World.

(** Extraction returns only for a proof the verifier accepts. *)
Lemma extract_accepted (p : Platform) (proof : value) (st st1 : State) (data : Extracted) :
  extract W p proof st = (Ok data, st1) -> verifyProof W proof = Ok true.
Proof.
  destruct p; simpl;
    unfold getDataFromAmazon, getDataFromFlipkart, call_verifyProof, bind, lift, emit, throw;
    simpl; destruct (verifyProof W proof) as [[|] |]; simpl;
    intros H; try discriminate; reflexivity.
Qed.

(** When the verifier throws, so does extraction, with the same error. *)
Lemma extract_verifier_throws (p : Platform) (proof : value) (st : State) (e : Error) :
  verifyProof W proof = Throw e ->
  extract W p proof st = (Throw e, mkState (wss st) (trace st ++ [Verify proof])).
Proof.
  intros H. destruct p; simpl;
    unfold getDataFromAmazon, getDataFromFlipkart, call_verifyProof, bind, lift, emit, throw;
    simpl; now rewrite H.
Qed.

Lemma broadcast_wss (m : Message) (st st' : State) :
  wss st' = wss st ->
  wss (snd (broadcastMessage m st')) = wss (snd (broadcastMessage m st)).
Proof.
  intros H. unfold broadcastMessage. rewrite H.
  destruct (wss st) as [clients |] eqn:E; cbn [snd wss]; [reflexivity |].
  now rewrite H.
Qed.

(** A call of [transferReward] that returns has written both its
    arguments into its first log line. *)
Lemma transferReward_logged (amount recipient result : value) (st : State) :
  fst (transferReward W amount recipient st) = Ok result ->
  exists amount_text address_text,
    JS.ToString W amount = Ok amount_text /\ JS.ToString W recipient = Ok address_text.
Proof.
  unfold transferReward, log, bind, lift, emit, ret. cbn [wss trace JS.interpolate].
  destruct (JS.ToString W amount) as [amount_text | e]; cbn [bindR fst];
    [| discriminate].
  destruct (JS.ToString W recipient) as [address_text | e]; cbn [bindR fst];
    [| discriminate].
  intros _. now exists amount_text, address_text.
Qed.

(** The success notice for an amount and an address that can be written. *)
Lemma success_message_ok
    (amount address : value) (amount_text address_text url : string) :
  JS.ToString W amount = Ok amount_text ->
  JS.ToString W address = Ok address_text ->
  success_message W amount address (JStr url) =
  Ok (mkMessage agent
        ("Reward of " ++ amount_text
         ++ " tokens has been successfully transferred to wallet " ++ address_text
         ++ ". Transaction URL: " ++ url)).
Proof.
  intros Ha Hr. unfold success_message. now rewrite Ha, Hr.
Qed.

(** The handler once the proof is decoded and classified: the rest of the
    [try] block and the [catch]. *)
Lemma receive_proofs_classified
    (req_body decoded : string) (proof : value) (p : Platform) (st : State) :
  JS.decodeURIComponent req_body = Ok decoded ->
  JS.JSON_parse decoded = Ok proof ->
  determine_platform W proof = Ok (Some p) ->
  receive_proofs W req_body st =
  match extract W p proof st with
  | (Throw e, st1) =>
      (mkResponse 500 (failure_body W e), snd (broadcastMessage (error_message W e) st1))
  | (Ok data, st1) =>
      if negb (JS.truthy (amount data)) || negb (JS.truthy (address data))
      then (mkResponse 400 (error_body "Missing amount or address in proof"), st1)
      else
        match transferReward W (amount data) (address data) st1 with
        | (Throw e, st2) =>
            (mkResponse 500 (failure_body W e),
             snd (broadcastMessage (error_message W e) st2))
        | (Ok result, st2) =>
            match (url <~ JS.get result "transactionUrl" ;;
                   success_message W (amount data) (address data) url) with
            | Ok notice =>
                (mkResponse 200
                   (JObj [("success", JBool true);
                          ("message", JStr "Reward processed successfully");
                          ("transaction", result)]),
                 snd (broadcastMessage notice st2))
            | Throw e =>
                (mkResponse 500 (failure_body W e),
                 snd (broadcastMessage (error_message W e) st2))
            end
        end
  end.
Proof.
  intros Hd Hp Hc.
  unfold receive_proofs, receive_proofs_try, bind, lift, ret.
  rewrite Hd, Hp, Hc.
  destruct (extract W p proof st) as [[data | e] st1]; [| reflexivity].
  destruct (negb (JS.truthy (amount data)) || negb (JS.truthy (address data)));
    [reflexivity |].
  destruct (transferReward W (amount data) (address data) st1) as [[result | e] st2];
    [| reflexivity].
  destruct (JS.get result "transactionUrl") as [url | e]; cbn [bindR]; [| reflexivity].
  destruct (success_message W (amount data) (address data) url) as [notice | e];
    [| reflexivity].
  unfold broadcastMessage. now destruct (wss st2).
Qed.

(** The handler when the proof cannot be classified. *)
Lemma receive_proofs_unclassified
    (req_body decoded : string) (proof : value) (st : State) :
  JS.decodeURIComponent req_body = Ok decoded ->
  JS.JSON_parse decoded = Ok proof ->
  receive_proofs W req_body st =
  match determine_platform W proof with
  | Throw e =>
      (mkResponse 500 (failure_body W e), snd (broadcastMessage (error_message W e) st))
  | Ok None => (mkResponse 400 (error_body "Unsupported platform"), st)
  | Ok (Some p) => receive_proofs W req_body st
  end.
Proof.
  intros Hd Hp.
  destruct (determine_platform W proof) as [[p |] | e] eqn:Hc; [reflexivity | |];
    unfold receive_proofs, receive_proofs_try, bind, lift, ret; now rewrite Hd, Hp, Hc.
Qed.

(** The handler when the body cannot be decoded. *)
Lemma receive_proofs_undecoded (req_body : string) (st : State) (e : Error) :
  bindR (JS.decodeURIComponent req_body) JS.JSON_parse = Throw e ->
  receive_proofs W req_body st =
  (mkResponse 500 (failure_body W e), snd (broadcastMessage (error_message W e) st)).
Proof.
  intros H. unfold receive_proofs, receive_proofs_try, bind, lift.
  destruct (JS.decodeURIComponent req_body) as [decoded | e'] eqn:Hd; simpl in H.
  - now rewrite H.
  - now injection H as ->.
Qed.

End ReceiveFacts.

Section ReceiveCases.

Variable W : World.

(** Every way the handler can end. *)
Lemma receive_proofs_cases (req_body : string) (st : State) :
  let outcome := receive_proofs W req_body st in
  (exists e,
      outcome = (mkResponse 500 (failure_body W e),
                 snd (broadcastMessage (error_message W e) st)))
  \/ outcome = (mkResponse 400 (error_body "Unsupported platform"), st)
  \/ (exists decoded proof p,
         JS.decodeURIComponent req_body = Ok decoded
         /\ JS.JSON_parse decoded = Ok proof
         /\ determine_platform W proof = Ok (Some p)
         /\ let st1 := mkState (wss st) (trace st ++ [Verify proof]) in
            (exists e,
                extract W p proof st = (Throw e, st1)
                /\ outcome = (mkResponse 500 (failure_body W e),
                              snd (broadcastMessage (error_message W e) st1)))
            \/ (exists data,
                   extract W p proof st = (Ok data, st1)
                   /\ verifyProof W proof = Ok true
                   /\ ((missing (amount data) \/ missing (address data))
                       /\ outcome
                          = (mkResponse 400 (error_body "Missing amount or address in proof"),
                             st1)
                       \/ JS.truthy (amount data) = true
                          /\ JS.truthy (address data) = true
                          /\ ((exists e st2,
                                  transferReward W (amount data) (address data) st1
                                  = (Throw e, st2)
                                  /\ outcome
                                     = (mkResponse 500 (failure_body W e),
                                        snd (broadcastMessage (error_message W e) st2)))
                              \/ (exists result st2 amount_text address_text signature,
                                     transferReward W (amount data) (address data) st1
                                     = (Ok result, st2)
                                     /\ JS.ToString W (amount data) = Ok amount_text
                                     /\ JS.ToString W (address data) = Ok address_text
                                     /\ JS.get result "signature" = Ok (JStr signature)
                                     /\ outcome
                                        = (mkResponse 200
                                             (JObj [("success", JBool true);
                                                    ("message",
                                                     JStr "Reward processed successfully");
                                                    ("transaction", result)]),
                                           snd (broadcastMessage
                                                  (mkMessage agent
                                                     ("Reward of " ++ amount_text
                                                      ++ " tokens has been successfully transferred to wallet "
                                                      ++ address_text
                                                      ++ ". Transaction URL: "
                                                      ++ "https://explorer.solana.com/tx/"
                                                      ++ signature ++ "?cluster=devnet"))
                                                  st2))))))).
Proof.
  cbv zeta.
  destruct (bindR (JS.decodeURIComponent req_body) JS.JSON_parse) as [proof | e] eqn:Hdec.
  2: { left. exists e. now apply receive_proofs_undecoded. }
  destruct (JS.decodeURIComponent req_body) as [decoded | e] eqn:Hd; [| discriminate].
  cbn [bindR] in Hdec.
  rewrite (receive_proofs_unclassified W req_body decoded proof st Hd Hdec).
  destruct (determine_platform W proof) as [[p |] | e] eqn:Hc;
    [| right; now left | left; now exists e].
  right; right. exists decoded, proof, p. split; [reflexivity |]. do 2 (split; [assumption |]).
  rewrite (receive_proofs_classified W req_body decoded proof p st Hd Hdec Hc).
  destruct (extract W p proof st) as [[data | e] st1] eqn:Hx;
    pose proof (extract_trace W p proof st st1 _ Hx) as ->.
  2: { left. now exists e. }
  right. exists data. split; [reflexivity |].
  split; [exact (extract_accepted W p proof st _ data Hx) |].
  destruct (JS.truthy (amount data)) eqn:Ha; cbn [negb orb].
  2: { left. split; [now left | reflexivity]. }
  destruct (JS.truthy (address data)) eqn:Hr; cbn [negb orb].
  2: { left. split; [now right | reflexivity]. }
  right. repeat (split; [reflexivity |]).
  pose proof (transferReward_spec W (amount data) (address data)
                (mkState (wss st) (trace st ++ [Verify proof]))) as (d & _ & _ & _ & Hres).
  pose proof (transferReward_logged W (amount data) (address data)) as Hlog.
  destruct (transferReward W (amount data) (address data)
              (mkState (wss st) (trace st ++ [Verify proof]))) as [[result | e] st2] eqn:Ht.
  - right. destruct (Hres result eq_refl) as [signature ->].
    destruct (Hlog _ (mkState (wss st) (trace st ++ [Verify proof])) ltac:(now rewrite Ht))
      as (amount_text & address_text & Hat & Hrt).
    exists (JObj [("success", JBool true);
                  ("signature", JStr signature);
                  ("transactionUrl",
                   JStr ("https://explorer.solana.com/tx/" ++ signature
                         ++ "?cluster=devnet"));
                  ("amount", amount data)]), st2, amount_text, address_text, signature.
    repeat (split; [reflexivity || assumption |]).
    change (JS.get _ "transactionUrl")
      with (@Ok value (JStr ("https://explorer.solana.com/tx/" ++ signature
                             ++ "?cluster=devnet"))).
    cbn [bindR].
    now rewrite (success_message_ok W _ _ _ _ _ Hat Hrt).
  - left. now exists e, st2.
Qed.

(** What extraction returns depends on the proof and the collaborators,
    not on the state. *)
Lemma extract_stateless (p : Platform) (proof : value) :
  exists r, forall st,
    extract W p proof st = (r, mkState (wss st) (trace st ++ [Verify proof])).
Proof.
  exists (fst (extract W p proof (mkState None []))). intros st.
  destruct p; simpl;
    unfold getDataFromAmazon, getDataFromFlipkart, call_verifyProof, bind, lift, emit, throw, ret;
    simpl; destruct (verifyProof W proof) as [[|] |]; simpl;
    repeat match goal with
           | |- context [match ?x with Ok _ => _ | Throw _ => _ end] => destruct x; simpl
           end;
    reflexivity.
Qed.

(** So does what [transferReward] returns and the calls it makes. *)
Lemma transferReward_stateless (amount recipient : value) :
  exists r d, forall st,
    transferReward W amount recipient st
    = (r, mkState (wss st) (trace st ++ TransferReward amount recipient :: d)).
Proof.
  unfold transferReward, log, bind, lift, emit, ret. cbn [JS.interpolate].
  destruct (JS.ToString W amount) as [amount_text | e]; cbn [bindR];
    [| exists (Throw e), []; intros st; reflexivity].
  destruct (JS.ToString W recipient) as [address_text | e]; cbn [bindR];
    [| exists (Throw e), []; intros st; reflexivity].
  destruct (PublicKey W recipient) as [key | e];
    [| exists (Throw e), []; intros st; reflexivity].
  destruct (getAssociatedTokenAddress W (REWARD_TOKEN_MINT W) (walletPublicKey W))
    as [from | e]; [| exists (Throw e), []; intros st; reflexivity].
  destruct (getOrCreateAssociatedTokenAccount W (REWARD_TOKEN_MINT W) key) as [to | e];
    [| eexists (Throw e), _; intros st; cbn [wss trace]; rewrite <- app_assoc; reflexivity].
  destruct (toTokenAmount W amount) as [n | e];
    [| eexists (Throw e), _; intros st; cbn [wss trace]; rewrite <- app_assoc; reflexivity].
  destruct (createTransferInstruction W from to (walletPublicKey W) n) as [ins | e];
    [| eexists (Throw e), _; intros st; cbn [wss trace]; rewrite <- app_assoc; reflexivity].
  destruct (getLatestBlockhash W) as [blockhash | e];
    [| eexists (Throw e), _; intros st; cbn [wss trace]; rewrite <- app_assoc; reflexivity].
  destruct (sendAndConfirmTransaction W (mkTransaction ins (walletPublicKey W) blockhash))
    as [signature | e];
    eexists _, _; intros st; cbn [wss trace]; rewrite <- !app_assoc; reflexivity.
Qed.

End ReceiveCases.

(** What one request answers and calls does not depend on the state it
    starts from. *)
Lemma receive_proofs_stateless (W : World) (req_body : string) :
  exists response d, forall st,
    fst (receive_proofs W req_body st) = response
    /\ trace (snd (receive_proofs W req_body st)) = (trace st ++ d)%list.
Proof.
  destruct (bindR (JS.decodeURIComponent req_body) JS.JSON_parse) as [proof | e] eqn:Hdec.
  2: { exists (mkResponse 500 (failure_body W e)), []. intros st.
       rewrite (receive_proofs_undecoded W req_body st e Hdec). cbn [fst snd].
       now rewrite broadcast_trace, app_nil_r. }
  destruct (JS.decodeURIComponent req_body) as [decoded | e] eqn:Hd; [| discriminate].
  cbn [bindR] in Hdec.
  destruct (determine_platform W proof) as [[p |] | e] eqn:Hc.
  - destruct (extract_stateless W p proof) as [rx Hx].
    destruct rx as [data | e].
    + destruct (negb (JS.truthy (amount data)) || negb (JS.truthy (address data))) eqn:Hg.
      * exists (mkResponse 400 (error_body "Missing amount or address in proof")),
          [Verify proof].
        intros st.
        rewrite (receive_proofs_classified W req_body decoded proof p st Hd Hdec Hc), Hx, Hg.
        split; reflexivity.
      * destruct (transferReward_stateless W (amount data) (address data)) as (rt & d & Ht).
        destruct rt as [result | e].
        -- destruct (url <~ JS.get result "transactionUrl" ;;
                     success_message W (amount data) (address data) url)
             as [notice | e] eqn:Hn;
             (eexists _, (Verify proof :: TransferReward (amount data) (address data) :: d);
              intros st;
              rewrite (receive_proofs_classified W req_body decoded proof p st Hd Hdec Hc),
                Hx, Hg, Ht, Hn;
              cbn [fst snd]; rewrite broadcast_trace; cbn [trace wss];
              split; [reflexivity | now rewrite <- app_assoc]).
        -- eexists _, (Verify proof :: TransferReward (amount data) (address data) :: d).
           intros st.
           rewrite (receive_proofs_classified W req_body decoded proof p st Hd Hdec Hc),
             Hx, Hg, Ht.
           cbn [fst snd]. rewrite broadcast_trace. cbn [trace wss].
           split; [reflexivity | now rewrite <- app_assoc].
    + eexists _, [Verify proof]. intros st.
      rewrite (receive_proofs_classified W req_body decoded proof p st Hd Hdec Hc), Hx.
      cbn [fst snd]. rewrite broadcast_trace. split; reflexivity.
  - eexists _, []. intros st.
    rewrite (receive_proofs_unclassified W req_body decoded proof st Hd Hdec), Hc.
    cbn [fst snd]. now rewrite app_nil_r.
  - eexists _, []. intros st.
    rewrite (receive_proofs_unclassified W req_body decoded proof st Hd Hdec), Hc.
    cbn [fst snd]. now rewrite broadcast_trace, app_nil_r.
Qed.

(** X6: from a proof the verifier accepts, [getDataFromFlipkart] takes
    the amount from the [text] field as it is, whatever its type, and the
    address from the context message; nothing is stripped and the amount
    need not be a string. It returns the two when both can be written into
    its log line, which is the case whenever neither is an array or an
    object, and throws the [TypeError] of the first conversion that fails
    otherwise, as for an amount that is an object with a [toString] member
    of its own. Either way the verification is the only call made. *)
Theorem flipkart_amount_is_passed_through
    (W : World) (proof contextData parameters text recipient : value) (st : State) :
  verifyProof W proof = Ok true ->
  context_of W proof = Ok contextData ->
  JS.get contextData "extractedParameters" = Ok parameters ->
  JS.get parameters "text" = Ok text ->
  JS.get contextData "contextMessage" = Ok recipient ->
  let st1 := mkState (wss st) (trace st ++ [Verify proof]) in
  getDataFromFlipkart W proof st =
  (match JS.ToString W text with
   | Ok _ =>
       match JS.ToString W recipient with
       | Ok _ => Ok (mkExtracted text recipient flipkart)
       | Throw e => Throw e
       end
   | Throw e => Throw e
   end, st1)
  /\ ((forall items, text <> JArr items) ->
      (forall members, text <> JObj members) ->
      (forall items, recipient <> JArr items) ->
      (forall members, recipient <> JObj members) ->
      getDataFromFlipkart W proof st = (Ok (mkExtracted text recipient flipkart), st1))
  /\ (forall members,
         text = JObj members ->
         JS.lookup "toString" members <> None ->
         getDataFromFlipkart W proof st = (Throw (TypeError_to_primitive text), st1)).
Proof.
  intros Hv Hc Hp Ht Hr st1.
  assert (Hrun : getDataFromFlipkart W proof st =
                 (match JS.ToString W text with
                  | Ok _ =>
                      match JS.ToString W recipient with
                      | Ok _ => Ok (mkExtracted text recipient flipkart)
                      | Throw e => Throw e
                      end
                  | Throw e => Throw e
                  end, st1)).
  { unfold getDataFromFlipkart, call_verifyProof, log, bind, lift, emit, ret.
    cbn [bindR]. rewrite Hv. cbn [negb]. rewrite Hc, Hp. cbn [bindR]. rewrite Ht, Hr.
    cbn [JS.interpolate].
    destruct (JS.ToString W text) as [amount_text | e]; cbn [bindR]; [| reflexivity].
    now destruct (JS.ToString W recipient). }
  split; [exact Hrun |]. split.
  - intros Hta Hto Hra Hro. rewrite Hrun.
    destruct (ToString_primitive W text Hta Hto) as [amount_text ->].
    now destruct (ToString_primitive W recipient Hra Hro) as [address_text ->].
  - intros members -> Hown. rewrite Hrun. cbn [JS.ToString].
    destruct (JS.lookup "toString" members); [reflexivity | congruence].
Qed.

Lemma flipkart_amount_is_passed_through_witness :
  let W := Scenario.mock (Ok true) in
  let proof := Scenario.proof_of Cases.body_flipkart_number in
  getDataFromFlipkart W proof Scenario.st0 =
  (Ok (mkExtracted (JNum (Num.of_decimal true 5 0)) (JStr "ADDR2") flipkart),
   mkState (wss Scenario.st0) (trace Scenario.st0 ++ [Verify proof])).
Proof.
  intros W proof.
  assert (Hv : verifyProof W proof = Ok true) by reflexivity.
  assert (Hc : context_of W proof =
               Ok (JObj [("contextMessage", JStr "ADDR2");
                         ("extractedParameters",
                          JObj [("text", JNum (Num.of_decimal true 5 0))])]))
    by (vm_compute; reflexivity).
  destruct (flipkart_amount_is_passed_through W proof _
              (JObj [("text", JNum (Num.of_decimal true 5 0))])
              (JNum (Num.of_decimal true 5 0)) (JStr "ADDR2") Scenario.st0
              Hv Hc eq_refl eq_refl eq_refl) as (_ & Hok & _).
  apply Hok; intros; discriminate.
Defined.

(** X7: when the verifier itself fails on a classified proof, the handler
    answers 500 with the verifier's error and notifies the observers of
    it; the verification is the only call made. *)
Theorem verifier_failure_is_500
    (W : World) (req_body decoded : string) (proof : value) (p : Platform)
    (st : State) (e : Error) :
  JS.decodeURIComponent req_body = Ok decoded ->
  JS.JSON_parse decoded = Ok proof ->
  determine_platform W proof = Ok (Some p) ->
  verifyProof W proof = Throw e ->
  receive_proofs W req_body st =
  (mkResponse 500 (failure_body W e),
   snd (broadcastMessage (error_message W e)
          (mkState (wss st) (trace st ++ [Verify proof])))).
Proof.
  intros Hd Hp Hc Hv.
  rewrite (receive_proofs_classified W req_body decoded proof p st Hd Hp Hc).
  now rewrite (extract_verifier_throws W p proof st e Hv).
Qed.

Lemma verifier_failure_is_500_witness :
  let W := Scenario.mock (Throw (Error_ "verifier unreachable")) in
  let proof := Scenario.proof_of Scenario.body_flipkart in
  receive_proofs W Scenario.body_flipkart Scenario.st0 =
  (mkResponse 500 (failure_body W (Error_ "verifier unreachable")),
   snd (broadcastMessage (error_message W (Error_ "verifier unreachable"))
          (mkState (wss Scenario.st0) (trace Scenario.st0 ++ [Verify proof])))).
Proof.
  intros W proof.
  apply (verifier_failure_is_500 W Scenario.body_flipkart
           (match JS.decodeURIComponent Scenario.body_flipkart with Ok d => d | Throw _ => EmptyString end)
           proof flipkart Scenario.st0).
  - vm_compute. reflexivity.
  - vm_compute. reflexivity.
  - vm_compute. reflexivity.
  - reflexivity.
Defined.

(** X8: an Amazon proof whose balance is not a string (absent, a number,
    [null]) is not answered 400 "Missing amount or address": calling
    [replace] on it throws a [TypeError], which the handler answers 500
    and broadcasts, after the verification and before any transfer. *)
Theorem amazon_balance_not_a_string_is_500
    (W : World) (req_body decoded : string)
    (proof contextData parameters balance : value) (st : State) :
  JS.decodeURIComponent req_body = Ok decoded ->
  JS.JSON_parse decoded = Ok proof ->
  determine_platform W proof = Ok (Some amazon) ->
  verifyProof W proof = Ok true ->
  context_of W proof = Ok contextData ->
  JS.get contextData "extractedParameters" = Ok parameters ->
  JS.get parameters "balance" = Ok balance ->
  (forall s, balance <> JStr s) ->
  exists e,
    (e = TypeError_property balance "replace"
     \/ e = TypeError_not_a_function balance "replace")
    /\ receive_proofs W req_body st =
       (mkResponse 500 (failure_body W e),
        snd (broadcastMessage (error_message W e)
               (mkState (wss st) (trace st ++ [Verify proof])))).
Proof.
  intros Hd Hp Hc Hv Hctx Hpar Hbal Hns.
  rewrite (receive_proofs_classified W req_body decoded proof amazon st Hd Hp Hc).
  cbn [extract].
  unfold getDataFromAmazon, call_verifyProof, bind, lift, emit, ret.
  cbn [bindR]. rewrite Hv. cbn [negb]. rewrite Hctx, Hpar. cbn [bindR]. rewrite Hbal.
  cbn [bindR].
  destruct balance as [| | b | x | s | items | members]; cbn [JS.replace];
    try (eexists; split; [left; reflexivity | reflexivity]);
    try (eexists; split; [right; reflexivity | reflexivity]).
  now destruct (Hns s).
Qed.

Lemma amazon_balance_not_a_string_is_500_witness :
  let W := Scenario.mock (Ok true) in
  let proof := Scenario.proof_of Cases.body_amazon_no_balance in
  exists e,
    (e = TypeError_property JUndefined "replace"
     \/ e = TypeError_not_a_function JUndefined "replace")
    /\ receive_proofs W Cases.body_amazon_no_balance Scenario.st0 =
       (mkResponse 500 (failure_body W e),
        snd (broadcastMessage (error_message W e)
               (mkState (wss Scenario.st0) (trace Scenario.st0 ++ [Verify proof])))).
Proof.
  intros W proof.
  apply (amazon_balance_not_a_string_is_500 W Cases.body_amazon_no_balance
            (match JS.decodeURIComponent Cases.body_amazon_no_balance with Ok d => d | Throw _ => EmptyString end) proof
            (JObj [("contextMessage", JStr "ADDR1");
                   ("extractedParameters", JObj [("points", JStr "7")])])
            (JObj [("points", JStr "7")]) JUndefined Scenario.st0).
  - vm_compute. reflexivity.
  - vm_compute. reflexivity.
  - vm_compute. reflexivity.
  - reflexivity.
  - vm_compute. reflexivity.
  - reflexivity.
  - reflexivity.
  - intros s. discriminate.
Defined.

(** X9: a 200 answer means the whole pipeline ran: the body decoded to a
    proof the verifier accepted, amount and address were both present, and
    exactly four calls were made, in this order: the verification, the
    transfer, the request for the recipient's token account, and one
    submission, which the ledger confirmed. The answer carries the
    signature and echoes the amount; the observers are sent the success
    notice, which names the amount, the address and the explorer address
    of that signature. *)
Theorem success_means_verified_and_paid
    (W : World) (req_body : string) (st : State) :
  status (fst (receive_proofs W req_body st)) = 200 ->
  exists proof p data key tx signature amount_text address_text,
    bindR (JS.decodeURIComponent req_body) JS.JSON_parse = Ok proof
    /\ determine_platform W proof = Ok (Some p)
    /\ verifyProof W proof = Ok true
    /\ fst (extract W p proof st) = Ok data
    /\ JS.truthy (amount data) = true
    /\ JS.truthy (address data) = true
    /\ JS.ToString W (amount data) = Ok amount_text
    /\ JS.ToString W (address data) = Ok address_text
    /\ PublicKey W (address data) = Ok key
    /\ feePayer tx = walletPublicKey W
    /\ sendAndConfirmTransaction W tx = Ok signature
    /\ trace (snd (receive_proofs W req_body st))
       = (trace st ++ [Verify proof;
                       TransferReward (amount data) (address data);
                       GetOrCreateAccount (REWARD_TOKEN_MINT W) key;
                       Submit tx])%list
    /\ body (fst (receive_proofs W req_body st))
       = JObj [("success", JBool true);
               ("message", JStr "Reward processed successfully");
               ("transaction",
                JObj [("success", JBool true);
                      ("signature", JStr signature);
                      ("transactionUrl",
                       JStr ("https://explorer.solana.com/tx/" ++ signature
                             ++ "?cluster=devnet"));
                      ("amount", amount data)])]
    /\ wss (snd (receive_proofs W req_body st))
       = wss (snd (broadcastMessage
                     (mkMessage agent
                        ("Reward of " ++ amount_text
                         ++ " tokens has been successfully transferred to wallet "
                         ++ address_text
                         ++ ". Transaction URL: "
                         ++ "https://explorer.solana.com/tx/" ++ signature
                         ++ "?cluster=devnet")) st)).
Proof.
  intros H200.
  destruct (receive_proofs_cases W req_body st)
    as [(e & Hr) | [Hr | (decoded & proof & p & Hd & Hp & Hc & Hrest)]];
    try (rewrite Hr in H200; discriminate).
  cbv zeta in Hrest.
  destruct Hrest as [(e & _ & Hr) | (data & Hx & Hv & Hrest)];
    [rewrite Hr in H200; discriminate |].
  destruct Hrest as [(_ & Hr) | (Ha & Haddr & Hrest)];
    [rewrite Hr in H200; discriminate |].
  destruct Hrest
    as [(e & st2 & _ & Hr)
       | (result & st2 & amount_text & address_text & signature & Ht & Hat & Hrt & Hsig & Hr)];
    [rewrite Hr in H200; discriminate |].
  set (st1 := mkState (wss st) (trace st ++ [Verify proof])) in *.
  destruct (transferReward_outcome W (amount data) (address data) st1)
    as [(e & H & _) | [(e & key & H & _) | (key & from & to & n & ins & bh & Hk & _ & _ & _ & _ & _ & H)]];
    try (rewrite H in Ht; discriminate).
  cbv zeta in H. destruct H as [(e & _ & H) | (sg & Hs & H)];
    rewrite H in Ht; [discriminate |].
  injection Ht as <- <-. cbn [JS.get JS.lookup String.eqb Ascii.eqb Bool.eqb] in Hsig.
  injection Hsig as <-.
  exists proof, p, data, key, (mkTransaction ins (walletPublicKey W) bh), sg,
    amount_text, address_text.
  rewrite Hd, Hr, Hx. cbn [bindR fst snd body].
  repeat (split; [reflexivity || assumption |]).
  split.
  - rewrite broadcast_trace. subst st1. cbn [trace wss]. now rewrite <- app_assoc.
  - split; [reflexivity |]. apply broadcast_wss. reflexivity.
Qed.

Lemma success_means_verified_and_paid_witness :
  let W := Scenario.mock (Ok true) in
  let req_body := Scenario.body_amazon_entity in
  let st := Scenario.st0 in
  exists proof p data key tx signature amount_text address_text,
    bindR (JS.decodeURIComponent req_body) JS.JSON_parse = Ok proof
    /\ determine_platform W proof = Ok (Some p)
    /\ verifyProof W proof = Ok true
    /\ fst (extract W p proof st) = Ok data
    /\ JS.truthy (amount data) = true
    /\ JS.truthy (address data) = true
    /\ JS.ToString W (amount data) = Ok amount_text
    /\ JS.ToString W (address data) = Ok address_text
    /\ PublicKey W (address data) = Ok key
    /\ feePayer tx = walletPublicKey W
    /\ sendAndConfirmTransaction W tx = Ok signature
    /\ trace (snd (receive_proofs W req_body st))
       = (trace st ++ [Verify proof;
                       TransferReward (amount data) (address data);
                       GetOrCreateAccount (REWARD_TOKEN_MINT W) key;
                       Submit tx])%list
    /\ body (fst (receive_proofs W req_body st))
       = JObj [("success", JBool true);
               ("message", JStr "Reward processed successfully");
               ("transaction",
                JObj [("success", JBool true);
                      ("signature", JStr signature);
                      ("transactionUrl",
                       JStr ("https://explorer.solana.com/tx/" ++ signature
                             ++ "?cluster=devnet"));
                      ("amount", amount data)])]
    /\ wss (snd (receive_proofs W req_body st))
       = wss (snd (broadcastMessage
                     (mkMessage agent
                        ("Reward of " ++ amount_text
                         ++ " tokens has been successfully transferred to wallet "
                         ++ address_text
                         ++ ". Transaction URL: "
                         ++ "https://explorer.solana.com/tx/" ++ signature
                         ++ "?cluster=devnet")) st)).
Proof.
  intros W req_body st.
  apply (success_means_verified_and_paid W req_body st).
  vm_compute. reflexivity.
Defined.

(** X10: the calls one request makes follow one pattern: none; or the
    verification alone; or the verification of a proof the verifier
    accepted, followed by the transfer of an amount and to an address that
    are both present, which asks for at most one token account and then
    submits at most one transaction. So nothing is ever submitted for a
    proof that was not verified and accepted. *)
Theorem payment_requires_accepted_verification
    (W : World) (req_body : string) (st : State) :
  exists d,
    trace (snd (receive_proofs W req_body st)) = (trace st ++ d)%list
    /\ (d = []
        \/ (exists proof, d = [Verify proof])
        \/ (exists proof amount recipient d',
               d = Verify proof :: TransferReward amount recipient :: d'
               /\ verifyProof W proof = Ok true
               /\ JS.truthy amount = true
               /\ JS.truthy recipient = true
               /\ (d' = []
                   \/ (exists key, d' = [GetOrCreateAccount (REWARD_TOKEN_MINT W) key])
                   \/ (exists key tx,
                          d' = [GetOrCreateAccount (REWARD_TOKEN_MINT W) key; Submit tx])))).
Proof.
  destruct (receive_proofs_cases W req_body st)
    as [(e & Hr) | [Hr | (decoded & proof & p & Hd & Hp & Hc & Hrest)]].
  - exists []. rewrite Hr. cbn [snd]. rewrite broadcast_trace, app_nil_r. now split; [| left].
  - exists []. rewrite Hr. cbn [snd]. rewrite app_nil_r. now split; [| left].
  - cbv zeta in Hrest.
    destruct Hrest as [(e & _ & Hr) | (data & Hx & Hv & Hrest)].
    { exists [Verify proof]. rewrite Hr. cbn [snd]. rewrite broadcast_trace.
      split; [reflexivity | right; left; now exists proof]. }
    destruct Hrest as [(_ & Hr) | (Ha & Haddr & Hrest)].
    { exists [Verify proof]. rewrite Hr.
      split; [reflexivity | right; left; now exists proof]. }
    set (st1 := mkState (wss st) (trace st ++ [Verify proof])) in *.
    assert (Hd' : exists d',
               trace (snd (transferReward W (amount data) (address data) st1))
               = (trace st1 ++ TransferReward (amount data) (address data) :: d')%list
               /\ (d' = []
                   \/ (exists key, d' = [GetOrCreateAccount (REWARD_TOKEN_MINT W) key])
                   \/ (exists key tx,
                          d' = [GetOrCreateAccount (REWARD_TOKEN_MINT W) key; Submit tx]))).
    { destruct (transferReward_outcome W (amount data) (address data) st1)
        as [(e & -> & _) | [(e & key & -> & _) | (key & from & to & n & ins & bh & _ & _ & _ & _ & _ & _ & H)]].
      - exists []. split; [reflexivity | now left].
      - eexists. split; [reflexivity | right; left; now exists key].
      - cbv zeta in H. destruct H as [(e & _ & ->) | (sg & _ & ->)];
          (eexists; split; [reflexivity | right; right; now eexists key, _]). }
    destruct Hd' as (d' & Ht & Hshape).
    exists (Verify proof :: TransferReward (amount data) (address data) :: d').
    split.
    + assert (Htr : trace (snd (receive_proofs W req_body st))
                    = trace (snd (transferReward W (amount data) (address data) st1))).
      { destruct Hrest
          as [(e & st2 & Heq & ->)
             | (result & st2 & amount_text & address_text & sg & Heq & _ & _ & _ & ->)];
          cbn [snd]; rewrite broadcast_trace, Heq; reflexivity. }
      rewrite Htr, Ht. subst st1. cbn [trace]. now rewrite <- app_assoc.
    + right; right. exists proof, (amount data), (address data), d'.
      repeat (split; [reflexivity || assumption |]). exact Hshape.
Qed.

(** X11: every answer is 200, 400 or 500, and the observers hear of it
    accordingly: a 400 answer is not broadcast at all; a 500 answer is
    broadcast as one [error] message whose text is "Error processing
    reward: " followed by the error text of the response; a 200 answer is
    broadcast as one [agent] message. Nothing else changes for the
    observers. *)
Theorem one_notification_per_answer (W : World) (req_body : string) (st : State) :
  let r := receive_proofs W req_body st in
  (status (fst r) = 400 /\ wss (snd r) = wss st)
  \/ (exists text,
         fst r = mkResponse 500 (JObj [("success", JBool false); ("error", JStr text)])
         /\ wss (snd r)
            = wss (snd (broadcastMessage
                          (mkMessage error ("Error processing reward: " ++ text)) st)))
  \/ (exists content,
         status (fst r) = 200
         /\ wss (snd r) = wss (snd (broadcastMessage (mkMessage agent content) st))).
Proof.
  cbv zeta.
  destruct (receive_proofs_cases W req_body st)
    as [(e & Hr) | [Hr | (decoded & proof & p & Hd & Hp & Hc & Hrest)]].
  - right; left. exists (message W e). rewrite Hr. split; reflexivity.
  - left. rewrite Hr. split; reflexivity.
  - cbv zeta in Hrest.
    destruct Hrest as [(e & _ & Hr) | (data & Hx & Hv & Hrest)].
    { right; left. exists (message W e). rewrite Hr. split; [reflexivity |].
      cbn [snd]. apply broadcast_wss. reflexivity. }
    destruct Hrest as [(_ & Hr) | (Ha & Haddr & Hrest)].
    { left. rewrite Hr. split; reflexivity. }
    set (st1 := mkState (wss st) (trace st ++ [Verify proof])) in *.
    pose proof (transferReward_spec W (amount data) (address data) st1)
      as (d & _ & _ & Hw & _).
    destruct Hrest
      as [(e & st2 & Heq & Hr)
         | (result & st2 & amount_text & address_text & sg & Heq & _ & _ & _ & Hr)];
      rewrite Heq in Hw; cbn [snd] in Hw.
    + right; left. exists (message W e). rewrite Hr. split; [reflexivity |].
      cbn [snd]. apply broadcast_wss. exact Hw.
    + right; right. eexists. rewrite Hr. split; [reflexivity |].
      cbn [snd]. apply broadcast_wss. exact Hw.
Qed.

(** X12: the handler keeps no record of the proofs it has paid: presented
    again, the same body is answered the same way and makes the same calls
    once more, a second submission included (given collaborators that
    answer as before). *)
Theorem same_proof_is_paid_again (W : World) (req_body : string) (st : State) :
  let first := receive_proofs W req_body st in
  let second := receive_proofs W req_body (snd first) in
  fst second = fst first
  /\ exists d,
       trace (snd first) = (trace st ++ d)%list
       /\ trace (snd second) = (trace st ++ d ++ d)%list.
Proof.
  cbv zeta. destruct (receive_proofs_stateless W req_body) as (response & d & H).
  destruct (H st) as [R1 T1].
  destruct (H (snd (receive_proofs W req_body st))) as [R2 T2].
  split; [congruence |].
  exists d. split; [exact T1 |]. now rewrite T2, T1, <- app_assoc.
Qed.

(** X13: a proof whose parameters hold no usable URL (none at all, a
    number, an object) is not answered 400 "Unsupported platform": the
    call of [includes] on it throws a [TypeError], answered 500 and
    broadcast, before any verification. *)
Theorem url_not_a_string_is_500
    (W : World) (req_body decoded : string) (proof url : value) (st : State) :
  JS.decodeURIComponent req_body = Ok decoded ->
  JS.JSON_parse decoded = Ok proof ->
  request_url W proof = Ok url ->
  (forall s, url <> JStr s) ->
  (forall items, url <> JArr items) ->
  exists e,
    (e = TypeError_property url "includes"
     \/ e = TypeError_not_a_function url "includes")
    /\ receive_proofs W req_body st =
       (mkResponse 500 (failure_body W e),
        snd (broadcastMessage (error_message W e) st)).
Proof.
  intros Hd Hp Hu Hns Hna.
  rewrite (receive_proofs_unclassified W req_body decoded proof st Hd Hp).
  unfold determine_platform. rewrite Hu. cbn [bindR].
  destruct url as [| | b | x | s | items | members]; cbn [JS.includes];
    try (eexists; split; [left; reflexivity | reflexivity]);
    try (eexists; split; [right; reflexivity | reflexivity]).
  - now destruct (Hns s).
  - now destruct (Hna items).
Qed.

Lemma url_not_a_string_is_500_witness :
  let W := Scenario.mock (Ok true) in
  exists e,
    (e = TypeError_property JUndefined "includes"
     \/ e = TypeError_not_a_function JUndefined "includes")
    /\ receive_proofs W Cases.body_no_url Scenario.st0 =
       (mkResponse 500 (failure_body W e),
        snd (broadcastMessage (error_message W e) Scenario.st0)).
Proof.
  intros W.
  apply (url_not_a_string_is_500 W Cases.body_no_url
            (match JS.decodeURIComponent Cases.body_no_url with Ok d => d | Throw _ => EmptyString end)
            (Scenario.proof_of Cases.body_no_url) JUndefined Scenario.st0).
  - vm_compute. reflexivity.
  - vm_compute. reflexivity.
  - vm_compute. reflexivity.
  - intros s. discriminate.
  - intros items. discriminate.
Defined.

(** X14: when the URL of the parameters is an array, the platform test is
    a test of membership, not of substrings: the proof is Amazon's when
    one element is exactly "amazon", else Flipkart's when one is exactly
    "flipkart", and unsupported otherwise, whatever longer strings the
    array holds. *)
Theorem array_url_is_matched_by_element
    (W : World) (proof : value) (items : list value) :
  request_url W proof = Ok (JArr items) ->
  determine_platform W proof =
  Ok (if existsb (fun x => match x with JStr s => String.eqb s "amazon" | _ => false end) items
      then Some amazon
      else if existsb (fun x => match x with JStr s => String.eqb s "flipkart" | _ => false end)
                items
           then Some flipkart
           else None).
Proof.
  intros H. unfold determine_platform. rewrite H. cbn [bindR JS.includes].
  destruct (existsb _ items); [reflexivity |].
  now destruct (existsb _ items).
Qed.

Lemma array_url_is_matched_by_element_witness :
  determine_platform (Scenario.mock (Ok true)) (Scenario.proof_of Cases.body_url_array)
  = Ok None.
Proof.
  apply (array_url_is_matched_by_element (Scenario.mock (Ok true))
           (Scenario.proof_of Cases.body_url_array) [JStr "https://www.amazon.in/pay"]).
  vm_compute. reflexivity.
Defined.

(** ** Facts about [decodeURIComponent] and the frames of a broadcast *)

Lemma code_inj (c c' : ascii) : Str.code c = Str.code c' -> c = c'.
Proof.
  unfold Str.code. intros H. apply N2Z.inj in H.
  rewrite <- (ascii_N_embedding c), <- (ascii_N_embedding c'). now f_equal.
Qed.

(** Without a [%] nothing is escaped, and every character stands for
    itself. *)
Lemma unescape_plain (s : string) :
  Str.includes s "%" = false ->
  exists us, JS.unescape s = Some us /\ JS.assemble O 128 191 us = Some s.
Proof.
  induction s as [| c r IH]; intros H.
  - exists []. split; reflexivity.
  - cbn [Str.includes Str.startsWith] in H.
    apply orb_false_iff in H as [Hc Hr]. rewrite andb_true_r in Hc.
    destruct (IH Hr) as (us & Hus & Has).
    assert (E : (Str.code c =? 37) = false).
    { apply Z.eqb_neq. intros Heq.
      assert (c = "%"%char) as -> by (apply code_inj; rewrite Heq; reflexivity).
      discriminate. }
    exists (JS.Raw c :: us). cbn [JS.unescape]. rewrite E, Hus. split; [reflexivity |].
    cbn [JS.assemble]. now rewrite Has.
Qed.

(** On text without surrogates every character is written on its own. *)
Lemma escaped_plain (c : ascii) (r : string) :
  well_formed_text (String c r) = true ->
  Server.escaped (String c r) = Server.escape_char c ++ Server.escaped r.
Proof.
  intros H. cbn [Server.escaped]. cbv zeta.
  destruct r as [| b [| d r2]]; try reflexivity.
  cbn [well_formed_text] in H. apply andb_true_iff in H as [H _].
  apply negb_true_iff in H. unfold Server.surrogate. now rewrite H.
Qed.

(** What [JSON.stringify] writes for a character is read back as that
    character. *)
Lemma string_body_escape_char (c : ascii) (y : string) :
  JS.string_body (Server.escape_char c ++ y) =
  match JS.string_body y with
  | Some (t, rest) => Some (String c t, rest)
  | None => None
  end.
Proof.
  destruct c as [[|] [|] [|] [|] [|] [|] [|] [|]]; reflexivity.
Qed.

(** The string literal written for text without surrogates is read back
    as that text, whatever follows the closing quote. *)
Lemma string_body_escaped (s rest : string) :
  well_formed_text s = true ->
  JS.string_body (Server.escaped s ++ Server.quote ++ rest) = Some (s, rest).
Proof.
  induction s as [| c r IH]; intros H.
  - reflexivity.
  - rewrite (escaped_plain c r H), append_assoc, string_body_escape_char.
    assert (Hr : well_formed_text r = true).
    { cbn [well_formed_text] in H. now apply andb_true_iff in H as [_ H]. }
    now rewrite (IH Hr).
Qed.

(** X15: a string without a percent sign is decoded to itself. *)
Theorem unescaped_text_is_decoded_to_itself (s : string) :
  ~ contains s "%" -> JS.decodeURIComponent s = Ok s.
Proof.
  intros H. apply includes_false in H.
  destruct (unescape_plain s H) as (us & Hus & Has).
  unfold JS.decodeURIComponent. now rewrite Hus, Has.
Qed.

Lemma unescaped_text_is_decoded_to_itself_witness :
  JS.decodeURIComponent "{ }" = Ok "{ }".
Proof.
  apply (unescaped_text_is_decoded_to_itself "{ }").
  apply includes_false. reflexivity.
Defined.

(** X16: the frame a broadcast sends is JSON that reads back as the
    message: when the content is text without surrogates, as all valid
    UTF-8 is, [JSON.parse] of the frame is the object with the message's
    type and its content, character for character, whatever quotes,
    backslashes or control characters the content holds. *)
Theorem frame_reads_back_as_the_message (m : Server.Message) :
  well_formed_text (Server.content m) = true ->
  JS.JSON_parse (Server.JSON_stringify m) =
  Ok (JObj [("type", JStr (match Server.type m with
                           | Server.agent => "agent"
                           | Server.error => "error"
                           end));
            ("content", JStr (Server.content m))]).
Proof.
  intros Hwf. unfold JS.JSON_parse.
  assert (Hfuel : exists k,
             (2 * String.length (Server.JSON_stringify m) + 2 = S (S (S (S k))))%nat).
  { assert (Hl : (1 <= String.length (Server.JSON_stringify m))%nat)
      by (unfold Server.JSON_stringify; cbn [append String.length]; lia).
    exists (2 * String.length (Server.JSON_stringify m) - 2)%nat. lia. }
  destruct Hfuel as [k ->].
  destruct m as [[|] c]; unfold Server.JSON_stringify;
    cbn [Server.type Server.content] in *.
  - pose proof (string_body_escaped c "}" Hwf) as H.
    remember (Server.escaped c ++ Server.quote ++ "}") as x eqn:Ex.
    cbn. rewrite H. reflexivity.
  - pose proof (string_body_escaped c "}" Hwf) as H.
    remember (Server.escaped c ++ Server.quote ++ "}") as x eqn:Ex.
    cbn. rewrite H. reflexivity.
Qed.

Lemma frame_reads_back_as_the_message_witness :
  JS.JSON_parse
    (Server.JSON_stringify
       (Server.mkMessage Server.error "Error processing reward: bad \ escape"))
  = Ok (JObj [("type", JStr "error");
              ("content", JStr "Error processing reward: bad \ escape")]).
Proof.
  apply (frame_reads_back_as_the_message
           (Server.mkMessage Server.error "Error processing reward: bad \ escape")).
  reflexivity.
Defined.

(** ** Facts about start-up *)

Lemma filter_nil_iff {A : Type} (f : A -> bool) (l : list A) :
  filter f l = [] <-> forall x, In x l -> f x = false.
Proof.
  induction l as [| a l IH]; cbn [filter].
  - split; [intros _ x [] | reflexivity].
  - destruct (f a) eqn:E.
    + split; [discriminate |]. intros H. rewrite (H a (or_introl eq_refl)) in E. discriminate.
    + rewrite IH. split.
      * intros H x [<- | Hx]; [exact E | now apply H].
      * intros H x Hx. apply H. now right.
Qed.

Lemma indent_inj (a b : string) : "  " ++ a = "  " ++ b -> a = b.
Proof. cbn [append]. intros H. now injection H. Qed.

(** X17: the server starts only in an environment where every required
    variable is set to a non-empty string, and then prints nothing;
    otherwise [validateEnvironment] exits with code 1 after printing the
    heading and one line for each required variable that is unset or
    empty, and for no other. *)
Theorem validateEnvironment_spec (required : list string) (env : Startup.Env) :
  let console := Startup.validateEnvironment required env in
  (Startup.exited console = None
   <-> forall varName, In varName required ->
                       exists s, env varName = Some s /\ s <> "")
  /\ (Startup.exited console = None -> Startup.stderr console = [])
  /\ (Startup.exited console <> None ->
      Startup.exited console = Some 1
      /\ exists lines,
           Startup.stderr console
           = "Error: Required environment variables are not set:" :: lines
           /\ List.length lines
              = List.length (filter (Startup.unset env) required)
           /\ forall varName,
                In ("  " ++ varName) lines
                <-> In varName required /\ Startup.unset env varName = true).
Proof.
  cbv zeta. unfold Startup.validateEnvironment.
  assert (Hset : forall v, Startup.unset env v = false
                           <-> exists s, env v = Some s /\ s <> "").
  { intros v. unfold Startup.unset. destruct (env v) as [s |].
    - rewrite String.eqb_neq. split.
      + intros H. now exists s.
      + intros (s' & Heq & Hne). now injection Heq as ->.
    - split; [discriminate | intros (s & Heq & _); discriminate]. }
  destruct (filter (Startup.unset env) required) as [| v0 rest] eqn:Ef.
  - cbn [List.length Nat.ltb Nat.leb Startup.exited Startup.stderr].
    split; [| split].
    + split; [| reflexivity]. intros _ varName Hin. apply Hset.
      now apply (proj1 (filter_nil_iff _ _) Ef).
    + reflexivity.
    + intros H. now destruct H.
  - cbn [List.length Nat.ltb Nat.leb Startup.exited Startup.stderr].
    split; [| split].
    + split; [discriminate |]. intros Hall. exfalso.
      assert (Hin : In v0 (filter (Startup.unset env) required))
        by (rewrite Ef; now left).
      apply filter_In in Hin as [Hin Hun].
      apply Hall, Hset in Hin. congruence.
    + discriminate.
    + intros _. split; [reflexivity |].
      eexists. split; [reflexivity |]. split; [now rewrite length_map |].
      intros varName. rewrite <- Ef, in_map_iff. split.
      * intros (x & Hx & Hin). apply indent_inj in Hx as ->.
        now apply filter_In in Hin.
      * intros H. exists varName. split; [reflexivity | now apply filter_In].
Qed.

(** ** Facts about the configuration endpoints *)

(** [req.body || {}] makes the read of [userAddress] safe on any body. *)
Lemma userAddress_of_total (req_body : value) :
  exists userAddress, Config.userAddress_of req_body = Ok userAddress.
Proof.
  unfold Config.userAddress_of. destruct (JS.truthy req_body) eqn:E.
  - destruct req_body; try discriminate E; eexists; reflexivity.
  - eexists; reflexivity.
Qed.

(** X18: [/reclaim/generate-config-flipkart] reads the address off any
    body without failing, and then makes the calls of one fixed sequence,
    in order, up to the first that fails: [init] with the address as the
    context message of the test data, [setRedirectUrl] with the callback
    URL, [addContext] only if the address is present, [getRequestUrl],
    [getStatusUrl]. It answers 200 with the two URLs and the session id
    exactly when every call of the sequence was answered, and 500 with one
    fixed text, whatever the error was, as soon as one fails; the calls
    after the failing one are not made. *)
Theorem flipkart_config_protocol
    (R : Config.Reclaim) (env : Startup.Env) (req_body : value)
    (calls : list Config.Call) :
  exists userAddress,
    Config.userAddress_of req_body = Ok userAddress
    /\ let options :=
         Config.testMode (JObj [("text", JStr "500"); ("contextMessage", userAddress)]) in
       let initialize :=
         Config.init R (Config.env_value env "APP_ID") (Config.env_value env "APP_SECRET")
           (Config.env_value env "FLIPKART_PROVIDER_ID") options in
       let redirect := Config.setRedirectUrl R (Config.env_value env "CALLBACK_URL") in
       let context := Config.addContext R (JStr "address") userAddress in
       let first_calls :=
         ([Config.Init (Config.env_value env "APP_ID") (Config.env_value env "APP_SECRET")
             (Config.env_value env "FLIPKART_PROVIDER_ID") options;
           Config.SetRedirectUrl (Config.env_value env "CALLBACK_URL")]
          ++ (if JS.truthy userAddress
              then [Config.AddContext (JStr "address") userAddress]
              else []))%list in
       let failed :=
         Server.mkResponse 500
           (JObj [("error", JStr "Failed to generate configuration")]) in
       let r := Config.generate_config_flipkart R env req_body calls in
       (exists e,
           initialize = Throw e
           /\ r = (failed, (calls ++ firstn 1 first_calls)%list))
       \/ (exists e,
              initialize = Ok tt /\ redirect = Throw e
              /\ r = (failed, (calls ++ firstn 2 first_calls)%list))
       \/ (exists e,
              initialize = Ok tt /\ redirect = Ok tt
              /\ JS.truthy userAddress = true /\ context = Throw e
              /\ r = (failed, (calls ++ first_calls)%list))
       \/ (exists e,
              initialize = Ok tt /\ redirect = Ok tt
              /\ (JS.truthy userAddress = false \/ context = Ok tt)
              /\ Config.getRequestUrl R = Throw e
              /\ r = (failed, (calls ++ first_calls ++ [Config.GetRequestUrl])%list))
       \/ (exists e requestUrl,
              initialize = Ok tt /\ redirect = Ok tt
              /\ (JS.truthy userAddress = false \/ context = Ok tt)
              /\ Config.getRequestUrl R = Ok requestUrl
              /\ Config.getStatusUrl R = Throw e
              /\ r = (failed,
                      (calls ++ first_calls
                       ++ [Config.GetRequestUrl; Config.GetStatusUrl])%list))
       \/ (exists requestUrl statusUrl,
              initialize = Ok tt /\ redirect = Ok tt
              /\ (JS.truthy userAddress = false \/ context = Ok tt)
              /\ Config.getRequestUrl R = Ok requestUrl
              /\ Config.getStatusUrl R = Ok statusUrl
              /\ r = (Server.mkResponse 200
                        (JObj [("requestUrl", requestUrl);
                               ("statusUrl", statusUrl);
                               ("sessionId",
                                if JS.truthy (Config.sessionId R)
                                then Config.sessionId R
                                else Config.id R)]),
                      (calls ++ first_calls
                       ++ [Config.GetRequestUrl; Config.GetStatusUrl])%list)).
Proof.
  destruct (userAddress_of_total req_body) as [ua Hua].
  exists ua. split; [exact Hua |]. cbv zeta.
  unfold Config.generate_config_flipkart, Config.generate_config,
    Config.generateReclaimProofForFlipkart, Config.cbind, Config.call, Config.cret.
  rewrite Hua.
  destruct (Config.init R _ _ _ _) as [[] | e].
  2: { left. exists e. now destruct (JS.truthy ua). }
  right.
  destruct (Config.setRedirectUrl R _) as [[] | e].
  2: { left. exists e. repeat (split; [reflexivity |]).
       destruct (JS.truthy ua); cbn [app firstn]; now rewrite <- app_assoc. }
  right.
  destruct (JS.truthy ua) eqn:Et.
  - destruct (Config.addContext R _ _) as [[] | e].
    2: { left. exists e. repeat (split; [reflexivity |]).
         cbn [app]. now rewrite <- !app_assoc. }
    right.
    destruct (Config.getRequestUrl R) as [u | e].
    2: { left. exists e. repeat (split; [reflexivity || (right; reflexivity) |]).
         cbn [app]. now rewrite <- !app_assoc. }
    right.
    destruct (Config.getStatusUrl R) as [s | e].
    + right. exists u, s. repeat (split; [reflexivity || (right; reflexivity) |]).
      cbn [app]. now rewrite <- !app_assoc.
    + left. exists e, u. repeat (split; [reflexivity || (right; reflexivity) |]).
      cbn [app]. now rewrite <- !app_assoc.
  - right.
    destruct (Config.getRequestUrl R) as [u | e].
    2: { left. exists e. repeat (split; [reflexivity || (left; reflexivity) |]).
         cbn [app]. now rewrite <- !app_assoc. }
    right.
    destruct (Config.getStatusUrl R) as [s | e].
    + right. exists u, s. repeat (split; [reflexivity || (left; reflexivity) |]).
      cbn [app]. now rewrite <- !app_assoc.
    + left. exists e, u. repeat (split; [reflexivity || (left; reflexivity) |]).
      cbn [app]. now rewrite <- !app_assoc.
Qed.

(** X19: [/reclaim/generate-config-amazon] reads the address off any body
    without failing, and then makes the calls of its own fixed sequence,
    up to the first that fails: [init] with the balance "₹1000" and the
    address in the test data, [setRedirectUrl] with the callback URL,
    [getRequestUrl], [getStatusUrl]; it never adds the address to the
    context and returns no session id. It answers 200 with the two URLs
    exactly when all four calls were answered, and 500 with the same fixed
    text as soon as one fails; the calls after the failing one are not
    made. *)
Theorem amazon_config_protocol
    (R : Config.Reclaim) (env : Startup.Env) (req_body : value)
    (calls : list Config.Call) :
  exists userAddress,
    Config.userAddress_of req_body = Ok userAddress
    /\ let options :=
         Config.testMode (JObj [("balance", JStr "₹1000");
                                ("contextMessage", userAddress)]) in
       let initialize :=
         Config.init R (Config.env_value env "APP_ID") (Config.env_value env "APP_SECRET")
           (Config.env_value env "AMAZON_PROVIDER_ID") options in
       let redirect := Config.setRedirectUrl R (Config.env_value env "CALLBACK_URL") in
       let sequence :=
         [Config.Init (Config.env_value env "APP_ID") (Config.env_value env "APP_SECRET")
            (Config.env_value env "AMAZON_PROVIDER_ID") options;
          Config.SetRedirectUrl (Config.env_value env "CALLBACK_URL");
          Config.GetRequestUrl; Config.GetStatusUrl] in
       let failed :=
         Server.mkResponse 500
           (JObj [("error", JStr "Failed to generate configuration")]) in
       let r := Config.generate_config_amazon R env req_body calls in
       (exists e,
           initialize = Throw e
           /\ r = (failed, (calls ++ firstn 1 sequence)%list))
       \/ (exists e,
              initialize = Ok tt /\ redirect = Throw e
              /\ r = (failed, (calls ++ firstn 2 sequence)%list))
       \/ (exists e,
              initialize = Ok tt /\ redirect = Ok tt
              /\ Config.getRequestUrl R = Throw e
              /\ r = (failed, (calls ++ firstn 3 sequence)%list))
       \/ (exists e requestUrl,
              initialize = Ok tt /\ redirect = Ok tt
              /\ Config.getRequestUrl R = Ok requestUrl
              /\ Config.getStatusUrl R = Throw e
              /\ r = (failed, (calls ++ sequence)%list))
       \/ (exists requestUrl statusUrl,
              initialize = Ok tt /\ redirect = Ok tt
              /\ Config.getRequestUrl R = Ok requestUrl
              /\ Config.getStatusUrl R = Ok statusUrl
              /\ r = (Server.mkResponse 200
                        (JObj [("requestUrl", requestUrl); ("statusUrl", statusUrl)]),
                      (calls ++ sequence)%list)).
Proof.
  destruct (userAddress_of_total req_body) as [ua Hua].
  exists ua. split; [exact Hua |]. cbv zeta.
  unfold Config.generate_config_amazon, Config.generate_config,
    Config.generateReclaimProofForAmazon, Config.cbind, Config.call, Config.cret.
  rewrite Hua. cbn [firstn].
  destruct (Config.init R _ _ _ _) as [[] | e]; [| left; now exists e].
  right.
  destruct (Config.setRedirectUrl R _) as [[] | e];
    [| left; exists e; repeat (split; [reflexivity |]); now rewrite <- app_assoc].
  right.
  destruct (Config.getRequestUrl R) as [u | e];
    [| left; exists e; repeat (split; [reflexivity |]); now rewrite <- !app_assoc].
  right.
  destruct (Config.getStatusUrl R) as [s | e].
  - right. exists u, s. repeat (split; [reflexivity |]). now rewrite <- !app_assoc.
  - left. exists e, u. repeat (split; [reflexivity |]). now rewrite <- !app_assoc.
Qed.
